(** * Advantech AHC1EC0 embedded-controller core driver (drivers/mfd/ahc1ec0.c)

    A shallow embedding of the protocol core: the two busy-wait primitives,
    the ten exported logical operations and the dynamic-table discovery.

    The C functions talk to the hardware through [inb]/[outb]/[udelay] and
    to the rest of the kernel through the transaction mutex, the caller's
    output pointers and the [dym_tbl] array.  Each of these primitive
    effects is an [action]; a C function becomes a [prog]: a tree whose
    nodes are the actions the function performs and whose branches are the
    answers it can get back.  Programs are run

    - sequentially, against an arbitrary model of the controller
      ([Transport]) and the host-side state ([host_state]) : [run];
    - for all answers of the controller at once : [wp];
    - interleaved with other callers, one action at a time : [sched_run]. *)

From Stdlib Require Import ZArith Lia String.
From stdpp Require Import base option list gmap.

Local Open Scope Z_scope.

(** ** Constants of include/linux/mfd/ahc1ec0.h *)

Definition EC_COMMAND_PORT : Z := 0x29A.
Definition EC_STATUS_PORT : Z := 0x299.

Definition EC_RETRY_UDELAY : Z := 200.
Definition EC_MAX_TIMEOUT_COUNT : Z := 5000.
Definition EC_COMMAND_BIT_OBF : Z := 0x01.
Definition EC_COMMAND_BIT_IBF : Z := 0x02.

Definition EC_AD_INDEX_WRITE : Z := 0x15.
Definition EC_AD_LSB_READ : Z := 0x16.
Definition EC_AD_MSB_READ : Z := 0x1F.

Definition EC_ACPI_RAM_READ : Z := 0x80.
Definition EC_ACPI_DATA_WRITE : Z := 0x81.

Definition EC_TBL_WRITE_ITEM : Z := 0x20.
Definition EC_TBL_GET_PIN : Z := 0x21.
Definition EC_TBL_GET_DEVID : Z := 0x22.
Definition EC_MAX_TBL_NUM : Z := 32.

Definition EC_HW_RAM_READ : Z := 0x88.
Definition EC_HW_RAM_WRITE : Z := 0x89.

Definition EC_GPIO_INDEX_WRITE : Z := 0x10.
Definition EC_GPIO_STATUS_READ : Z := 0x11.
Definition EC_GPIO_STATUS_WRITE : Z := 0x12.
Definition EC_GPIO_DIR_READ : Z := 0x1D.
Definition EC_GPIO_DIR_WRITE : Z := 0x1E.

(** The kernel's errno value behind [-ETIMEDOUT] (asm-generic/errno.h); the
    header is not part of the driver. *)
Definition ETIMEDOUT : Z := 110.

(** Truncation to [unsigned char] and to [u32]. *)
Definition u8 (v : Z) : Z := v mod 256.
Definition u32 (v : Z) : Z := v mod 2 ^ 32.

(** [struct ec_dynamic_table] *)
Record ec_dynamic_table := { device_id : Z; hw_pin_num : Z }.

(** ** Primitive effects *)

Inductive action :=
| Inb (port : Z)                    (* inb(port), answered by a byte *)
| Outb (value port : Z)             (* outb(value, port) *)
| Udelay (usecs : Z)                (* udelay(usecs) *)
| MutexLock                         (* mutex_lock(&adv_ec_data->lock) *)
| MutexUnlock                       (* mutex_unlock(&adv_ec_data->lock) *)
| StoreByte (p : N) (v : Z)         (* *p = v, p an unsigned char pointer *)
| SetDeviceId (i v : Z)             (* adv_ec_data->dym_tbl[i].device_id = v *)
| SetHwPinNum (i v : Z).            (* adv_ec_data->dym_tbl[i].hw_pin_num = v *)

#[global] Instance action_eq_dec : EqDecision action.
Proof. solve_decision. Defined.

(** An event is an action together with the answer it got ([0] for the
    actions that return nothing). *)
Definition event : Type := action * Z.

Inductive prog (A : Type) : Type :=
| Ret (a : A)
| Act (a : action) (k : Z → prog A).
Arguments Ret {A} a.
Arguments Act {A} a k.

Fixpoint bind {A B} (m : prog A) (f : A → prog B) : prog B :=
  match m with
  | Ret a => f a
  | Act a k => Act a (λ resp, bind (k resp) f)
  end.

#[global] Instance prog_ret : MRet prog := @Ret.
#[global] Instance prog_bind : MBind prog := λ A B f m, bind m f.

Definition inb (port : Z) : prog Z := Act (Inb port) Ret.
Definition outb (value port : Z) : prog unit := Act (Outb (u8 value) port) (λ _, Ret tt).
Definition udelay (usecs : Z) : prog unit := Act (Udelay usecs) (λ _, Ret tt).
Definition mutex_lock : prog unit := Act MutexLock (λ _, Ret tt).
Definition mutex_unlock : prog unit := Act MutexUnlock (λ _, Ret tt).
Definition store_byte (p : N) (v : Z) : prog unit := Act (StoreByte p (u8 v)) (λ _, Ret tt).
Definition set_device_id (i v : Z) : prog unit := Act (SetDeviceId i (u8 v)) (λ _, Ret tt).
Definition set_hw_pin_num (i v : Z) : prog unit := Act (SetHwPinNum i (u8 v)) (λ _, Ret tt).

(** [ret = f(); if (ret) goto label;] *)
Notation "x ← m 'or_goto' lbl ; k" :=
  (mbind (λ x, if bool_decide (x ≠ 0) then lbl x else k) m)
  (at level 20, m at level 100, lbl at level 9, k at level 200, only parsing) : stdpp_scope.

(** ** Port transport (ahc1ec0.c, lines 32-60) *)

(** The [for (i = 0; i < EC_MAX_TIMEOUT_COUNT; i++)] loops, by the number of
    iterations left. *)
Fixpoint ec_wait_write_from (left : nat) : prog Z :=
  match left with
  | O => mret (- ETIMEDOUT)
  | S left' =>
      st ← inb EC_COMMAND_PORT;
      if bool_decide (Z.land st EC_COMMAND_BIT_IBF = 0) then mret 0
      else udelay EC_RETRY_UDELAY;; ec_wait_write_from left'
  end.

(* Wait IBF (Input Buffer Full) clear *)
Definition ec_wait_write : prog Z :=
  ec_wait_write_from (Z.to_nat EC_MAX_TIMEOUT_COUNT).

Fixpoint ec_wait_read_from (left : nat) : prog Z :=
  match left with
  | O => mret (- ETIMEDOUT)
  | S left' =>
      st ← inb EC_COMMAND_PORT;
      if bool_decide (Z.land st EC_COMMAND_BIT_OBF ≠ 0) then mret 0
      else udelay EC_RETRY_UDELAY;; ec_wait_read_from left'
  end.

(* Wait OBF (Output Buffer Full) data ready *)
Definition ec_wait_read : prog Z :=
  ec_wait_read_from (Z.to_nat EC_MAX_TIMEOUT_COUNT).

(** ** Logical operations (ahc1ec0.c, lines 62-604)

    Every function ends in one of its labels; [dev_err]/[dev_warn]/[dev_dbg]
    only write to the kernel log and are left out.  The [error:] label of
    each function is [mutex_unlock; return ret]. *)

Definition error (ret : Z) : prog Z := mutex_unlock;; mret ret.

Definition read_hw_ram (addr : Z) (data : N) : prog Z :=
  mutex_lock;;
  ret ← ec_wait_write or_goto error;
  outb EC_HW_RAM_READ EC_COMMAND_PORT;;
  ret ← ec_wait_write or_goto error;
  outb addr EC_STATUS_PORT;;
  ret ← ec_wait_read or_goto error;
  v ← inb EC_STATUS_PORT;
  store_byte data v;;
  mutex_unlock;;
  mret ret.

Definition write_hw_ram (addr data : Z) : prog Z :=
  mutex_lock;;
  ret ← ec_wait_write or_goto error;
  outb EC_HW_RAM_WRITE EC_COMMAND_PORT;;
  ret ← ec_wait_write or_goto error;
  outb addr EC_STATUS_PORT;;
  ret ← ec_wait_write or_goto error;
  outb data EC_STATUS_PORT;;
  mutex_unlock;;
  mret 0.

(** [pass:] of [adv_get_dynamic_tab] and the sentinel exits of the
    pin-indexed operations: [mutex_unlock; return ...]. *)
Definition pass : prog Z := mutex_unlock;; mret 0.
Definition invalid_pin : prog Z := mutex_unlock;; mret (-1).

(** First loop of [adv_get_dynamic_tab] (lines 154-157). *)
Fixpoint tab_clear (left : nat) (i : Z) : prog unit :=
  match left with
  | O => mret tt
  | S left' =>
      set_device_id i 0xff;;
      set_hw_pin_num i 0xff;;
      tab_clear left' (i + 1)
  end.

(** Body of the second loop (lines 160-232) for slot [i]; [next] is the rest
    of the loop. *)
Definition tab_item (i : Z) (next : prog Z) : prog Z :=
  ret ← ec_wait_write or_goto error;
  outb EC_TBL_WRITE_ITEM EC_COMMAND_PORT;;
  ret ← ec_wait_write or_goto error;
  outb i EC_STATUS_PORT;;
  ret ← ec_wait_read or_goto error;
  pin_tmp ← inb EC_STATUS_PORT;
  if bool_decide (pin_tmp = 0xff) then pass else
  ret ← ec_wait_write or_goto error;
  outb EC_TBL_GET_PIN EC_COMMAND_PORT;;
  ret ← ec_wait_read or_goto error;
  v ← inb EC_STATUS_PORT;
  let pin_tmp := Z.land v 0xff in
  if bool_decide (pin_tmp = 0xff) then pass else
  ret ← ec_wait_write or_goto error;
  outb EC_TBL_GET_DEVID EC_COMMAND_PORT;;
  ret ← ec_wait_read or_goto error;
  v ← inb EC_STATUS_PORT;
  let device_id := Z.land v 0xff in
  set_device_id i device_id;;
  set_hw_pin_num i pin_tmp;;
  next.

Fixpoint tab_scan (left : nat) (i : Z) : prog Z :=
  match left with
  | O => pass
  | S left' => tab_item i (tab_scan left' (i + 1))
  end.

(* Get dynamic control table *)
Definition adv_get_dynamic_tab : prog Z :=
  mutex_lock;;
  tab_clear (Z.to_nat EC_MAX_TBL_NUM) 0;;
  tab_scan (Z.to_nat EC_MAX_TBL_NUM) 0.

(** Lines 292-293 of [read_ad_value]: [u32] arithmetic on the two bytes, and
    the conversion of the [u32] to the [int] that is returned. *)
Definition s32 (v : Z) : Z := if bool_decide (v < 2 ^ 31) then v else v - 2 ^ 32.

Definition ad_value (LSB MSB multi : Z) : Z :=
  let ret_val := Z.land (Z.lor (u32 (Z.shiftl MSB 8)) LSB) 0x03FF in
  let ret_val := u32 (u32 (ret_val * multi) * 100) in
  s32 ret_val.

Definition read_ad_value (hwpin multi : Z) : prog Z :=
  mutex_lock;;
  ret ← ec_wait_write or_goto error;
  outb EC_AD_INDEX_WRITE EC_COMMAND_PORT;;
  ret ← ec_wait_write or_goto error;
  outb hwpin EC_STATUS_PORT;;
  ret ← ec_wait_read or_goto error;
  idx ← inb EC_STATUS_PORT;
  if bool_decide (idx = 0xff) then invalid_pin else
  ret ← ec_wait_write or_goto error;
  outb EC_AD_LSB_READ EC_COMMAND_PORT;;
  ret ← ec_wait_read or_goto error;
  LSB ← inb EC_STATUS_PORT;
  ret ← ec_wait_write or_goto error;
  outb EC_AD_MSB_READ EC_COMMAND_PORT;;
  ret ← ec_wait_read or_goto error;
  MSB ← inb EC_STATUS_PORT;
  mutex_unlock;;
  mret (ad_value LSB MSB (u8 multi)).

Definition read_acpi_value (addr : Z) (pvalue : N) : prog Z :=
  mutex_lock;;
  ret ← ec_wait_write or_goto error;
  outb EC_ACPI_RAM_READ EC_COMMAND_PORT;;
  ret ← ec_wait_write or_goto error;
  outb addr EC_STATUS_PORT;;
  ret ← ec_wait_read or_goto error;
  value ← inb EC_STATUS_PORT;
  store_byte pvalue value;;
  mutex_unlock;;
  mret 0.

Definition write_acpi_value (addr value : Z) : prog Z :=
  mutex_lock;;
  ret ← ec_wait_write or_goto error;
  outb EC_ACPI_DATA_WRITE EC_COMMAND_PORT;;
  ret ← ec_wait_write or_goto error;
  outb addr EC_STATUS_PORT;;
  ret ← ec_wait_write or_goto error;
  outb value EC_STATUS_PORT;;
  mutex_unlock;;
  mret 0.

Definition read_gpio_status (PinNumber : Z) (pvalue : N) : prog Z :=
  mutex_lock;;
  ret ← ec_wait_write or_goto error;
  outb EC_GPIO_INDEX_WRITE EC_COMMAND_PORT;;
  ret ← ec_wait_write or_goto error;
  outb PinNumber EC_STATUS_PORT;;
  ret ← ec_wait_read or_goto error;
  idx ← inb EC_STATUS_PORT;
  if bool_decide (idx = 0xff) then invalid_pin else
  ret ← ec_wait_write or_goto error;
  outb EC_GPIO_STATUS_READ EC_COMMAND_PORT;;
  ret ← ec_wait_read or_goto error;
  gpio_status_value ← inb EC_STATUS_PORT;
  store_byte pvalue gpio_status_value;;
  mutex_unlock;;
  mret 0.

Definition write_gpio_status (PinNumber value : Z) : prog Z :=
  mutex_lock;;
  ret ← ec_wait_write or_goto error;
  outb EC_GPIO_INDEX_WRITE EC_COMMAND_PORT;;
  ret ← ec_wait_write or_goto error;
  outb PinNumber EC_STATUS_PORT;;
  ret ← ec_wait_read or_goto error;
  idx ← inb EC_STATUS_PORT;
  if bool_decide (idx = 0xff) then invalid_pin else
  ret ← ec_wait_write or_goto error;
  outb EC_GPIO_STATUS_WRITE EC_COMMAND_PORT;;
  ret ← ec_wait_write or_goto error;
  outb value EC_STATUS_PORT;;
  mutex_unlock;;
  mret 0.

Definition read_gpio_dir (PinNumber : Z) (pvalue : N) : prog Z :=
  mutex_lock;;
  ret ← ec_wait_write or_goto error;
  outb EC_GPIO_INDEX_WRITE EC_COMMAND_PORT;;
  ret ← ec_wait_write or_goto error;
  outb PinNumber EC_STATUS_PORT;;
  ret ← ec_wait_read or_goto error;
  idx ← inb EC_STATUS_PORT;
  if bool_decide (idx = 0xff) then invalid_pin else
  ret ← ec_wait_write or_goto error;
  outb EC_GPIO_DIR_READ EC_COMMAND_PORT;;
  ret ← ec_wait_read or_goto error;
  gpio_dir_value ← inb EC_STATUS_PORT;
  store_byte pvalue gpio_dir_value;;
  mutex_unlock;;
  mret 0.

Definition write_gpio_dir (PinNumber value : Z) : prog Z :=
  mutex_lock;;
  ret ← ec_wait_write or_goto error;
  outb EC_GPIO_INDEX_WRITE EC_COMMAND_PORT;;
  ret ← ec_wait_write or_goto error;
  outb PinNumber EC_STATUS_PORT;;
  ret ← ec_wait_read or_goto error;
  idx ← inb EC_STATUS_PORT;
  if bool_decide (idx = 0xff) then invalid_pin else
  ret ← ec_wait_write or_goto error;
  outb EC_GPIO_DIR_WRITE EC_COMMAND_PORT;;
  ret ← ec_wait_write or_goto error;
  outb value EC_STATUS_PORT;;
  mutex_unlock;;
  mret 0.

Definition write_hwram_command (data : Z) : prog Z :=
  mutex_lock;;
  ret ← ec_wait_write or_goto error;
  outb data EC_COMMAND_PORT;;
  mutex_unlock;;
  mret 0.

(** The protocol operations, as calls. *)
Inductive op :=
| ReadHwRam (addr : Z) (data : N)
| WriteHwRam (addr data : Z)
| ReadAcpiValue (addr : Z) (pvalue : N)
| WriteAcpiValue (addr value : Z)
| ReadGpioStatus (PinNumber : Z) (pvalue : N)
| WriteGpioStatus (PinNumber value : Z)
| ReadGpioDir (PinNumber : Z) (pvalue : N)
| WriteGpioDir (PinNumber value : Z)
| ReadAdValue (hwpin multi : Z)
| WriteHwramCommand (data : Z)
| AdvGetDynamicTab.

Definition call (o : op) : prog Z :=
  match o with
  | ReadHwRam addr data => read_hw_ram addr data
  | WriteHwRam addr data => write_hw_ram addr data
  | ReadAcpiValue addr pvalue => read_acpi_value addr pvalue
  | WriteAcpiValue addr value => write_acpi_value addr value
  | ReadGpioStatus pin pvalue => read_gpio_status pin pvalue
  | WriteGpioStatus pin value => write_gpio_status pin value
  | ReadGpioDir pin pvalue => read_gpio_dir pin pvalue
  | WriteGpioDir pin value => write_gpio_dir pin value
  | ReadAdValue hwpin multi => read_ad_value hwpin multi
  | WriteHwramCommand data => write_hwram_command data
  | AdvGetDynamicTab => adv_get_dynamic_tab
  end.

(** ** Running a program *)

(** The controller behind the two ports: what a port read returns, and how
    port reads, port writes and the passing of time change its state. *)
Class Transport := {
  EC : Type;
  port_in : Z → EC → Z * EC;
  port_out : Z → Z → EC → EC;
  port_delay : Z → EC → EC;
}.

(** The host side: the transaction mutex of [struct adv_ec_platform_data],
    the bytes behind the callers' pointers, the [dym_tbl] array, and the
    events so far, the latest first. *)
Record host_state := {
  lock : bool;
  heap : gmap N Z;
  dym_tbl : list ec_dynamic_table;
  trace : list event;
}.

Definition log (e : event) (h : host_state) : host_state :=
  {| lock := lock h; heap := heap h; dym_tbl := dym_tbl h; trace := e :: trace h |}.

Definition in_table (i : Z) (h : host_state) : Prop :=
  0 ≤ i < Z.of_nat (length (dym_tbl h)).

Definition with_device_id (v : Z) (e : ec_dynamic_table) : ec_dynamic_table :=
  {| device_id := v; hw_pin_num := hw_pin_num e |}.
Definition with_hw_pin_num (v : Z) (e : ec_dynamic_table) : ec_dynamic_table :=
  {| device_id := device_id e; hw_pin_num := v |}.

(** What an action does to the host.  [None]: the caller does not get past
    the action (the mutex is held, so [mutex_lock] sleeps) or the C program
    has no defined behaviour there (unlocking a free mutex, a table index
    outside the array). *)
Definition host_step (a : action) (h : host_state) : option host_state :=
  match a with
  | Inb _ | Outb _ _ | Udelay _ => Some h
  | MutexLock =>
      if lock h then None
      else Some {| lock := true; heap := heap h; dym_tbl := dym_tbl h; trace := trace h |}
  | MutexUnlock =>
      if lock h
      then Some {| lock := false; heap := heap h; dym_tbl := dym_tbl h; trace := trace h |}
      else None
  | StoreByte p v =>
      Some {| lock := lock h; heap := <[p := v]> (heap h); dym_tbl := dym_tbl h;
              trace := trace h |}
  | SetDeviceId i v =>
      if bool_decide (in_table i h)
      then Some {| lock := lock h; heap := heap h;
                   dym_tbl := alter (with_device_id v) (Z.to_nat i) (dym_tbl h);
                   trace := trace h |}
      else None
  | SetHwPinNum i v =>
      if bool_decide (in_table i h)
      then Some {| lock := lock h; heap := heap h;
                   dym_tbl := alter (with_hw_pin_num v) (Z.to_nat i) (dym_tbl h);
                   trace := trace h |}
      else None
  end.

(** The answers an action can get: [inb] returns a [u8], the others nothing. *)
Definition answers (a : action) (resp : Z) : Prop :=
  match a with
  | Inb _ => 0 ≤ resp < 256
  | _ => resp = 0
  end.

(** All executions at once: [wp p h post] holds when, whatever the
    controller answers, [p] started on the host state [h] runs to its end
    and ends with a result and a host state that satisfy [post]. *)
Fixpoint wp {A} (p : prog A) (h : host_state) (post : A → host_state → Prop) : Prop :=
  match p with
  | Ret a => post a h
  | Act a k =>
      ∀ resp, answers a resp →
        ∃ h', host_step a h = Some h' ∧ wp (k resp) (log (a, resp) h') post
  end.

Section run.
Context `{Transport}.

Record system := { ec : EC; host : host_state }.

(** What an action does to the controller, and its answer. *)
Definition ec_step (a : action) (e : EC) : Z * EC :=
  match a with
  | Inb port => let '(v, e') := port_in port e in (u8 v, e')
  | Outb v port => (0, port_out v port e)
  | Udelay usecs => (0, port_delay usecs e)
  | _ => (0, e)
  end.

Definition do_action (a : action) (s : system) : option (Z * system) :=
  h' ← host_step a (host s);
  let '(resp, e') := ec_step a (ec s) in
  Some (resp, {| ec := e'; host := log (a, resp) h' |}).

Fixpoint run {A} (p : prog A) (s : system) : option (A * system) :=
  match p with
  | Ret a => Some (a, s)
  | Act a k =>
      match do_action a s with
      | Some (resp, s') => run (k resp) s'
      | None => None
      end
  end.

(** ** Interleaved callers

    Each caller has the program it is in the middle of and the calls it
    still has to make.  A schedule names, step by step, the caller that
    performs its next action; a caller that cannot move (it sleeps on the
    mutex, or has nothing left to do) leaves the system as it is. *)
Record caller := { current : prog Z; pending : list op }.

Record pool := {
  shared : system;
  callers : list caller;
  ctrace : list (nat * event);      (* who did what, the latest first *)
}.

Definition caller_step (t : nat) (c : caller) (p : pool) : pool :=
  match current c with
  | Act a k =>
      match do_action a (shared p) with
      | Some (resp, s') =>
          {| shared := s';
             callers := <[t := {| current := k resp; pending := pending c |}]> (callers p);
             ctrace := (t, (a, resp)) :: ctrace p |}
      | None => p
      end
  | Ret _ =>
      match pending c with
      | o :: os =>
          {| shared := shared p;
             callers := <[t := {| current := call o; pending := os |}]> (callers p);
             ctrace := ctrace p |}
      | [] => p
      end
  end.

Definition sched_step (p : pool) (t : nat) : pool :=
  match callers p !! t with
  | Some c => caller_step t c p
  | None => p
  end.

Definition sched_run (sched : list nat) (p : pool) : pool :=
  foldl sched_step p sched.

Definition idle_pool (s : system) (calls : list (list op)) : pool :=
  {| shared := s;
     callers := (λ os, {| current := Ret 0; pending := os |}) <$> calls;
     ctrace := [] |}.
End run.

Arguments system : clear implicits.
Arguments caller : clear implicits.
Arguments pool : clear implicits.

(** ** Observing a trace

    The functions below read a trace in the order of time. *)

(** The events a call added to the host's trace. *)
Definition since (h h' : host_state) : list event :=
  rev (take (length (trace h') - length (trace h))%nat (trace h')).

Definition ibf_clear (st : Z) : bool := bool_decide (Z.land st EC_COMMAND_BIT_IBF = 0).
Definition obf_set (st : Z) : bool := bool_decide (Z.land st EC_COMMAND_BIT_OBF ≠ 0).

(** Polling: reads of the status bits and the delays between them. *)
Definition is_poll (e : event) : bool :=
  match e.1 with
  | Inb port => port =? EC_COMMAND_PORT
  | Udelay _ => true
  | _ => false
  end.

Definition is_port_access (e : event) : bool :=
  match e.1 with
  | Inb _ | Outb _ _ => true
  | _ => false
  end.

Definition data_read (e : event) : option Z :=
  match e.1 with
  | Inb port => if port =? EC_STATUS_PORT then Some e.2 else None
  | _ => None
  end.

(** The bytes read from the data port. *)
Definition data_reads (tr : list event) : list Z := omap data_read tr.

Definition port_write (e : event) : option (Z * Z) :=
  match e.1 with
  | Outb v port => Some (port, v)
  | _ => None
  end.

(** The bytes written, each with its port. *)
Definition port_writes (tr : list event) : list (Z * Z) := omap port_write tr.

(** The exchange with the controller: the port accesses without the
    polling of the status bits. *)
Definition exchanged (e : event) : option event :=
  if is_port_access e && negb (is_poll e) then Some e else None.

Definition exchange (tr : list event) : list event := omap exchanged tr.

Definition lock_event (e : event) : option action :=
  match e.1 with
  | MutexLock => Some MutexLock
  | MutexUnlock => Some MutexUnlock
  | _ => None
  end.

Definition lock_events (tr : list event) : list action := omap lock_event tr.

Definition store_of (e : event) : option (N * Z) :=
  match e.1 with
  | StoreByte p v => Some (p, v)
  | _ => None
  end.

(** The bytes written through the callers' pointers. *)
Definition stores (tr : list event) : list (N * Z) := omap store_of tr.

(** The number of times the status bits were read. *)
Definition is_status_read (e : event) : bool :=
  match e.1 with
  | Inb port => port =? EC_COMMAND_PORT
  | _ => false
  end.

Definition status_polls (tr : list event) : nat :=
  length (filter is_status_read tr).

(** The handshake of the two status bits: a byte is written only right
    after a read of the status bits that showed IBF clear, and the data
    port is read only right after one that showed OBF set. *)
Definition saw (ready : Z → bool) (prev : option event) : bool :=
  match prev with
  | Some (Inb port, st) => (port =? EC_COMMAND_PORT) && ready st
  | _ => false
  end.

Definition permitted (prev : option event) (e : event) : bool :=
  match e.1 with
  | Outb _ _ => saw ibf_clear prev
  | Inb port => if port =? EC_COMMAND_PORT then true else saw obf_set prev
  | _ => true
  end.

Fixpoint handshake_from (prev : option event) (tr : list event) : bool :=
  match tr with
  | [] => true
  | e :: tr' => permitted prev e && handshake_from (Some e) tr'
  end.

Definition handshake (tr : list event) : bool := handshake_from None tr.

(** The pin-indexed operations, with the opcode that selects the pin. *)
Definition pin_indexed (o : op) : option (Z * Z) :=
  match o with
  | ReadGpioStatus pin _ | WriteGpioStatus pin _
  | ReadGpioDir pin _ | WriteGpioDir pin _ => Some (EC_GPIO_INDEX_WRITE, pin)
  | ReadAdValue pin _ => Some (EC_AD_INDEX_WRITE, pin)
  | _ => None
  end.

(** The operations that return a byte through a pointer. *)
Definition byte_pointer (o : op) : option N :=
  match o with
  | ReadHwRam _ p | ReadAcpiValue _ p | ReadGpioStatus _ p | ReadGpioDir _ p => Some p
  | _ => None
  end.

(** The table as [adv_ec_init_ec_data] allocates it. *)
Definition table_allocated (h : host_state) : Prop :=
  length (dym_tbl h) = Z.to_nat EC_MAX_TBL_NUM.

Definition sentinel : ec_dynamic_table := {| device_id := 0xff; hw_pin_num := 0xff |}.

(** The status bytes that [n] rounds of reading the status bits and
    waiting would see. *)
Fixpoint statuses `{Transport} (n : nat) (e : EC) : list Z :=
  match n with
  | O => []
  | S n' =>
      let '(v, e') := port_in EC_COMMAND_PORT e in
      u8 v :: statuses n' (port_delay EC_RETRY_UDELAY e')
  end.

(** The state of the controller after [n] such rounds. *)
Fixpoint polled `{Transport} (n : nat) (e : EC) : EC :=
  match n with
  | O => e
  | S n' => polled n' (port_delay EC_RETRY_UDELAY (port_in EC_COMMAND_PORT e).2)
  end.

(** Whole operations, one after the other: outside an operation the next
    event is some caller taking the mutex, and until that caller releases
    it every event is that caller's. *)
Definition serial_step (owner : option nat) (e : nat * event) : option (option nat) :=
  match owner, e.2.1 with
  | None, MutexLock => Some (Some e.1)
  | None, _ => None
  | Some _, MutexLock => None
  | Some t, MutexUnlock => if bool_decide (e.1 = t) then Some None else None
  | Some t, _ => if bool_decide (e.1 = t) then Some (Some t) else None
  end.

Fixpoint serial_from (owner : option nat) (tr : list (nat * event)) : bool :=
  match tr with
  | [] => true
  | e :: tr' =>
      match serial_step owner e with
      | Some owner' => serial_from owner' tr'
      | None => false
      end
  end.

Definition serialized (tr : list (nat * event)) : bool := serial_from None tr.

(** ** A model of the controller

    A stateful controller to run the driver against: it keeps the hardware
    RAM, the dynamic table (slot to pin and device id) and the ADC pins
    (pin to low and high byte); it is busy for [m_latency] delays after
    each byte it accepts; and it may stop answering after [m_budget]
    accepted bytes. *)
Module Mock.

Inductive phase :=
| Idle
| RamReadAddr
| RamWriteAddr
| RamWriteData (addr : Z)
| TblItem
| TblSlot (slot : Z)
| AdcIndex
| AdcPin (pin : Z).

Record ec_state := {
  m_ram : gmap Z Z;
  m_tbl : list (Z * Z);
  m_adc : gmap Z (Z * Z);
  m_phase : phase;
  m_out : option Z;
  m_busy : nat;
  m_latency : nat;
  m_budget : option nat;
}.

Definition hung (m : ec_state) : bool :=
  match m_budget m with
  | Some O => true
  | _ => false
  end.

Definition status (m : ec_state) : Z :=
  if hung m then EC_COMMAND_BIT_IBF
  else
    match m_busy m with
    | O => if m_out m is Some _ then EC_COMMAND_BIT_OBF else 0
    | S _ => EC_COMMAND_BIT_IBF
    end.

Definition set_out (o : option Z) (ph : phase) (m : ec_state) : ec_state :=
  {| m_ram := m_ram m; m_tbl := m_tbl m; m_adc := m_adc m; m_phase := ph;
     m_out := o; m_busy := m_busy m; m_latency := m_latency m;
     m_budget := m_budget m |}.

Definition set_ram (a v : Z) (m : ec_state) : ec_state :=
  {| m_ram := <[a := v]> (m_ram m); m_tbl := m_tbl m; m_adc := m_adc m;
     m_phase := Idle; m_out := m_out m; m_busy := m_busy m;
     m_latency := m_latency m; m_budget := m_budget m |}.

(** Accepting a byte: one byte less in the budget, busy again. *)
Definition accept (m : ec_state) : ec_state :=
  {| m_ram := m_ram m; m_tbl := m_tbl m; m_adc := m_adc m; m_phase := m_phase m;
     m_out := m_out m; m_busy := m_latency m; m_latency := m_latency m;
     m_budget := Nat.pred <$> m_budget m |}.

(** The controller once it is no longer busy. *)
Definition settled (m : ec_state) : ec_state :=
  {| m_ram := m_ram m; m_tbl := m_tbl m; m_adc := m_adc m; m_phase := m_phase m;
     m_out := m_out m; m_busy := 0; m_latency := m_latency m;
     m_budget := m_budget m |}.

Definition tick (m : ec_state) : ec_state :=
  {| m_ram := m_ram m; m_tbl := m_tbl m; m_adc := m_adc m; m_phase := m_phase m;
     m_out := m_out m; m_busy := Nat.pred (m_busy m); m_latency := m_latency m;
     m_budget := m_budget m |}.

Definition command (c : Z) (m : ec_state) : ec_state :=
  if c =? EC_HW_RAM_READ then set_out None RamReadAddr m
  else if c =? EC_HW_RAM_WRITE then set_out None RamWriteAddr m
  else if c =? EC_TBL_WRITE_ITEM then set_out None TblItem m
  else if c =? EC_AD_INDEX_WRITE then set_out None AdcIndex m
  else
    match m_phase m with
    | TblSlot i =>
        if c =? EC_TBL_GET_PIN
        then set_out (fst <$> m_tbl m !! Z.to_nat i) (TblSlot i) m
        else if c =? EC_TBL_GET_DEVID
        then set_out (snd <$> m_tbl m !! Z.to_nat i) (TblSlot i) m
        else set_out None Idle m
    | AdcPin p =>
        if c =? EC_AD_LSB_READ
        then set_out (fst <$> m_adc m !! p) (AdcPin p) m
        else if c =? EC_AD_MSB_READ
        then set_out (snd <$> m_adc m !! p) (AdcPin p) m
        else set_out None Idle m
    | _ => set_out None Idle m
    end.

Definition data (v : Z) (m : ec_state) : ec_state :=
  match m_phase m with
  | RamReadAddr => set_out (Some (default 0 (m_ram m !! v))) Idle m
  | RamWriteAddr => set_out None (RamWriteData v) m
  | RamWriteData a => set_ram a v m
  | TblItem =>
      match m_tbl m !! Z.to_nat v with
      | Some _ => set_out (Some v) (TblSlot v) m
      | None => set_out (Some 0xff) Idle m
      end
  | AdcIndex =>
      match m_adc m !! v with
      | Some _ => set_out (Some v) (AdcPin v) m
      | None => set_out (Some 0xff) Idle m
      end
  | _ => m
  end.

Definition write (v port : Z) (m : ec_state) : ec_state :=
  if hung m then m
  else if port =? EC_COMMAND_PORT then command v (accept m)
  else if port =? EC_STATUS_PORT then data v (accept m)
  else m.

Definition read (port : Z) (m : ec_state) : Z * ec_state :=
  if port =? EC_COMMAND_PORT then (status m, m)
  else if port =? EC_STATUS_PORT
  then (default 0 (m_out m), set_out None (m_phase m) m)
  else (0xff, m).

Definition transport : Transport :=
  {| EC := ec_state; port_in := read; port_out := write;
     port_delay := λ _, tick |}.

(** A controller at rest. *)
Definition boot (ram : gmap Z Z) (tbl : list (Z * Z)) (adc : gmap Z (Z * Z))
    (latency : nat) (budget : option nat) : ec_state :=
  {| m_ram := ram; m_tbl := tbl; m_adc := adc; m_phase := Idle; m_out := None;
     m_busy := 0; m_latency := latency; m_budget := budget |}.

(** The host right after [adv_ec_init_ec_data] has initialised the mutex
    and allocated the zeroed table. *)
Definition fresh_host : host_state :=
  {| lock := false; heap := ∅;
     dym_tbl := replicate (Z.to_nat EC_MAX_TBL_NUM) {| device_id := 0; hw_pin_num := 0 |};
     trace := [] |}.

Definition sys (m : ec_state) (h : host_state) : system transport :=
  @Build_system transport m h.

Definition start (m : ec_state) : system transport := sys m fresh_host.

(** Three controllers: one that defines table slots 0 and 1 and ADC pin 5
    and always answers; the same one, but it stops answering after five
    bytes; and one with a byte waiting in its output buffer that it shows
    after [k] delays. *)
Definition demo : ec_state :=
  boot ∅ [(3, 0x50); (7, 0x62)] {[ 5 := (0x34, 0x01) ]} 2 None.

Definition flaky : ec_state :=
  boot ∅ [(3, 0x50); (7, 0x62)] {[ 5 := (0x34, 0x01) ]} 0 (Some 5%nat).

Definition answering (k : nat) : ec_state :=
  {| m_ram := ∅; m_tbl := []; m_adc := ∅; m_phase := Idle; m_out := Some 0x42;
     m_busy := k; m_latency := 0; m_budget := None |}.

End Mock.


(** ** Auxiliary notions for the proofs *)

(** The host state after more events, and without its history. *)
Definition extend (evs : list event) (h : host_state) : host_state :=
  {| lock := lock h; heap := heap h; dym_tbl := dym_tbl h; trace := evs ++ trace h |}.

Definition forget (h : host_state) : host_state :=
  {| lock := lock h; heap := heap h; dym_tbl := dym_tbl h; trace := [] |}.

(** Two host states that differ only in the history [t0] before a call. *)
Definition agrees (t0 : list event) (hs hw : host_state) : Prop :=
  lock hs = lock hw ∧ heap hs = heap hw ∧ dym_tbl hs = dym_tbl hw ∧
  trace hs = trace hw ++ t0.

(** Both busy-wait loops, by the bit they wait for. *)
Fixpoint poll_from (ready : Z → bool) (left : nat) : prog Z :=
  match left with
  | O => mret (- ETIMEDOUT)
  | S left' =>
      st ← inb EC_COMMAND_PORT;
      if ready st then mret 0 else udelay EC_RETRY_UDELAY;; poll_from ready left'
  end.

(** The events of unsuccessful polls, the latest first, by the status bytes
    they saw. *)
Fixpoint busy (sts : list Z) : list event :=
  match sts with
  | [] => []
  | st :: sts' => (Udelay EC_RETRY_UDELAY, 0) :: (Inb EC_COMMAND_PORT, st) :: busy sts'
  end.

(** The two ways a wait of at most [n] polls ends, with its result and its
    events, the latest first. *)
Inductive waited (ready : Z → bool) (n : nat) : Z → list event → Prop :=
| waited_ready st sts :
    ready st = true → 0 ≤ st < 256 → (length sts < n)%nat →
    Forall (λ st, ready st = false) sts →
    waited ready n 0 ((Inb EC_COMMAND_PORT, st) :: busy sts)
| waited_timeout sts :
    length sts = n → Forall (λ st, ready st = false) sts →
    waited ready n (- ETIMEDOUT) (busy sts).

Definition budget : nat := Z.to_nat EC_MAX_TIMEOUT_COUNT.

(** The handshake, read from the latest event backwards. *)
Fixpoint handshake_rev (l : list event) : bool :=
  match l with
  | [] => true
  | e :: l' => permitted (head l') e && handshake_rev l'
  end.

(** A call ended by a timeout: the last thing before the mutex was released
    is the delay of a poll. *)
Definition after_delay (l : list event) : bool :=
  match l with
  | (MutexUnlock, _) :: (Udelay _, _) :: _ => true
  | _ => false
  end.

Definition timed_out (tr : list event) : bool := after_delay (rev tr).

(** *** Dynamic table discovery *)

(** The events of the first loop of [adv_get_dynamic_tab], the latest
    first, for [n] slots from slot [i] on. *)
Fixpoint clears (n : nat) (i : Z) : list event :=
  match n with
  | O => []
  | S n' =>
      clears n' (i + 1) ++ [(SetHwPinNum i 0xff, 0); (SetDeviceId i 0xff, 0)]
  end.

(** The exchange for one defined slot: select the slot, read the item
    number back, ask for the pin, ask for the device id. *)
Definition slot_exchange (i item pin dev : Z) : list event :=
  [ (Outb EC_TBL_WRITE_ITEM EC_COMMAND_PORT, 0); (Outb (u8 i) EC_STATUS_PORT, 0);
    (Inb EC_STATUS_PORT, item);
    (Outb EC_TBL_GET_PIN EC_COMMAND_PORT, 0); (Inb EC_STATUS_PORT, pin);
    (Outb EC_TBL_GET_DEVID EC_COMMAND_PORT, 0); (Inb EC_STATUS_PORT, dev) ].

(** What the scan of [n] slots from slot [i] on exchanges with the
    controller, what it returns and the entries it stores:
    - no slot left: nothing, and success;
    - a poll times out somewhere in the exchange for slot [i];
    - the item number or the pin of slot [i] reads back as [0xff]: the scan
      stops there, and succeeds;
    - slot [i] is defined: its entry, and then the scan of the slots after
      it. *)
Inductive scanned : nat → Z → list event → Z → list ec_dynamic_table → Prop :=
| scanned_end i : scanned 0 i [] 0 []
| scanned_timeout n i item pin dev (k : nat) :
    (k < 7)%nat → ((3 ≤ k)%nat → item ≠ 0xff) → ((5 ≤ k)%nat → pin ≠ 0xff) →
    scanned (S n) i (take k (slot_exchange i item pin dev)) (- ETIMEDOUT) []
| scanned_no_item n i :
    scanned (S n) i (take 3 (slot_exchange i 0xff 0 0)) 0 []
| scanned_no_pin n i item :
    item ≠ 0xff →
    scanned (S n) i (take 5 (slot_exchange i item 0xff 0)) 0 []
| scanned_slot n i item pin dev exch r es :
    item ≠ 0xff → pin ≠ 0xff → 0 ≤ pin < 256 → 0 ≤ dev < 256 →
    scanned n (i + 1) exch r es →
    scanned (S n) i (slot_exchange i item pin dev ++ exch) r
      ({| device_id := dev; hw_pin_num := pin |} :: es).


(** *** Critical sections *)

(** A program that does not touch the mutex. *)
Fixpoint plain {A} (p : prog A) : Prop :=
  match p with
  | Ret _ => True
  | Act a k =>
      match a with
      | MutexLock | MutexUnlock => False
      | _ => ∀ resp, plain (k resp)
      end
  end.

(** A program inside its critical section: it does not take the mutex
    again, and releasing the mutex is the last thing it does. *)
Fixpoint critical (p : prog Z) : Prop :=
  match p with
  | Ret _ => False
  | Act a k =>
      match a with
      | MutexLock => False
      | MutexUnlock => ∀ resp, ∃ r, k resp = Ret r
      | _ => ∀ resp, critical (k resp)
      end
  end.

(** A program outside a critical section: it has returned, or is about to
    take the mutex. *)
Definition idle (p : prog Z) : Prop :=
  match p with
  | Ret _ => True
  | Act MutexLock k => ∀ resp, critical (k resp)
  | Act _ _ => False
  end.

(** The caller inside an operation after a trace, the latest event first;
    [None] when the trace is not one of whole operations. *)
Fixpoint owner_after (l : list (nat * event)) : option (option nat) :=
  match l with
  | [] => Some None
  | e :: l' => owner_after l' ≫= λ owner, serial_step owner e
  end.

(** The same, along a trace in the order of time. *)
Fixpoint serial_end (owner : option nat) (tr : list (nat * event)) : option (option nat) :=
  match tr with
  | [] => Some owner
  | e :: tr' => serial_step owner e ≫= λ owner', serial_end owner' tr'
  end.

Definition coherent `{Transport} (p : pool _) : Prop :=
  ∃ owner,
    owner_after (ctrace p) = Some owner ∧
    lock (host (shared p)) = bool_decide (is_Some owner) ∧
    ∀ t c, callers p !! t = Some c →
      if bool_decide (owner = Some t) then critical (current c) else idle (current c).

(** The operations that are one straight exchange (all but the table
    discovery, which loops). *)
Definition simple (o : op) : Prop :=
  match o with
  | AdvGetDynamicTab => False
  | _ => True
  end.

(** A list of events that does not start with a delay. *)
Definition no_delay_head (X : list event) : Prop :=
  match X with
  | (Udelay _, _) :: _ => False
  | _ => True
  end.

(** What holds after the scan of [n] slots that follow the entries [done],
    started with the mutex held and an empty history. *)
Definition scan_post (n : nat) (hp : gmap N Z) (done : list ec_dynamic_table)
    (r : Z) (h' : host_state) : Prop :=
  lock h' = false ∧ heap h' = hp ∧ (r = 0 ∨ r = - ETIMEDOUT) ∧
  (∃ T, trace h' = (MutexUnlock, 0) :: T ∧ omap lock_event T = [] ∧
     (r = - ETIMEDOUT → ∃ sts T', T = busy sts ++ T' ∧ length sts = budget) ∧
     (r = 0 → ∀ X, no_delay_head X → after_delay ((MutexUnlock, 0) :: T ++ X) = false)) ∧
  (∀ X, handshake_rev (trace h' ++ X) = handshake_rev X) ∧
  ∃ es, scanned n (Z.of_nat (length done)) (rev (omap exchanged (trace h'))) r es ∧
    dym_tbl h' = done ++ es ++ replicate (n - length es) sentinel.

(** What holds after [adv_get_dynamic_tab], started with the mutex free and
    an empty history. *)
Definition tab_post (hp : gmap N Z) (r : Z) (h' : host_state) : Prop :=
  lock h' = false ∧ heap h' = hp ∧ (r = 0 ∨ r = - ETIMEDOUT) ∧
  head (rev (trace h')) = Some (MutexLock, 0) ∧
  last (rev (trace h')) = Some (MutexUnlock, 0) ∧
  lock_events (rev (trace h')) = [MutexLock; MutexUnlock] ∧
  handshake (rev (trace h')) = true ∧
  (r = - ETIMEDOUT ↔ timed_out (rev (trace h')) = true) ∧
  ∃ es,
    scanned (Z.to_nat EC_MAX_TBL_NUM) 0 (exchange (rev (trace h'))) r es ∧
    dym_tbl h' = es ++ replicate (Z.to_nat EC_MAX_TBL_NUM - length es) sentinel.

(** ** What the operations ask of the controller *)

(** The microseconds a trace spent in [udelay]. *)
Definition delay_of (e : event) : Z :=
  match e.1 with
  | Udelay usecs => usecs
  | _ => 0
  end.

Definition delayed (tr : list event) : Z := foldr (λ e acc, delay_of e + acc) 0 tr.

(** The bytes an operation writes when nothing stops it, each with its
    port, in the order of the [outb] calls of its body. *)
Definition request (o : op) : list (Z * Z) :=
  match o with
  | ReadHwRam addr _ =>
      [(EC_COMMAND_PORT, EC_HW_RAM_READ); (EC_STATUS_PORT, u8 addr)]
  | WriteHwRam addr data =>
      [(EC_COMMAND_PORT, EC_HW_RAM_WRITE); (EC_STATUS_PORT, u8 addr);
       (EC_STATUS_PORT, u8 data)]
  | ReadAcpiValue addr _ =>
      [(EC_COMMAND_PORT, EC_ACPI_RAM_READ); (EC_STATUS_PORT, u8 addr)]
  | WriteAcpiValue addr value =>
      [(EC_COMMAND_PORT, EC_ACPI_DATA_WRITE); (EC_STATUS_PORT, u8 addr);
       (EC_STATUS_PORT, u8 value)]
  | ReadGpioStatus pin _ =>
      [(EC_COMMAND_PORT, EC_GPIO_INDEX_WRITE); (EC_STATUS_PORT, u8 pin);
       (EC_COMMAND_PORT, EC_GPIO_STATUS_READ)]
  | WriteGpioStatus pin value =>
      [(EC_COMMAND_PORT, EC_GPIO_INDEX_WRITE); (EC_STATUS_PORT, u8 pin);
       (EC_COMMAND_PORT, EC_GPIO_STATUS_WRITE); (EC_STATUS_PORT, u8 value)]
  | ReadGpioDir pin _ =>
      [(EC_COMMAND_PORT, EC_GPIO_INDEX_WRITE); (EC_STATUS_PORT, u8 pin);
       (EC_COMMAND_PORT, EC_GPIO_DIR_READ)]
  | WriteGpioDir pin value =>
      [(EC_COMMAND_PORT, EC_GPIO_INDEX_WRITE); (EC_STATUS_PORT, u8 pin);
       (EC_COMMAND_PORT, EC_GPIO_DIR_WRITE); (EC_STATUS_PORT, u8 value)]
  | ReadAdValue pin _ =>
      [(EC_COMMAND_PORT, EC_AD_INDEX_WRITE); (EC_STATUS_PORT, u8 pin);
       (EC_COMMAND_PORT, EC_AD_LSB_READ); (EC_COMMAND_PORT, EC_AD_MSB_READ)]
  | WriteHwramCommand data => [(EC_COMMAND_PORT, u8 data)]
  | AdvGetDynamicTab => []
  end.

(** The number of busy-waits on the longest path through an operation (the
    discovery waits seven times per slot). *)
Definition waits (o : op) : nat :=
  match o with
  | ReadHwRam _ _ | WriteHwRam _ _ | ReadAcpiValue _ _ | WriteAcpiValue _ _ => 3
  | ReadGpioStatus _ _ | WriteGpioStatus _ _ | ReadGpioDir _ _ | WriteGpioDir _ _ => 5
  | ReadAdValue _ _ => 7
  | WriteHwramCommand _ => 1
  | AdvGetDynamicTab => 7 * Z.to_nat EC_MAX_TBL_NUM
  end.

(** An operation that succeeded: [read_ad_value] returns the value it read,
    which is not negative, the others return [0]. *)
Definition succeeded (o : op) (r : Z) : Prop :=
  match o with
  | ReadAdValue _ _ => 0 ≤ r
  | _ => r = 0
  end.

(** The actions an operation may perform at all: accesses to the two ports
    of the controller with a byte, the retry delay, the mutex, stores, and
    writes to the table. *)
Definition tame (a : action) : bool :=
  match a with
  | Inb port => bool_decide (port = EC_COMMAND_PORT ∨ port = EC_STATUS_PORT)
  | Outb v port =>
      bool_decide ((port = EC_COMMAND_PORT ∨ port = EC_STATUS_PORT) ∧ 0 ≤ v < 256)
  | Udelay usecs => bool_decide (usecs = EC_RETRY_UDELAY)
  | _ => true
  end.

(** A program all of whose actions satisfy [ok], whatever it is answered. *)
Fixpoint only {A} (ok : action → bool) (p : prog A) : Prop :=
  match p with
  | Ret _ => True
  | Act a k => ok a = true ∧ ∀ resp, only ok (k resp)
  end.

(** A program whose actions weigh at most [n] in all, on every path. *)
Fixpoint within {A} (w : action → nat) (p : prog A) (n : nat) : Prop :=
  match p with
  | Ret _ => True
  | Act a k => (w a ≤ n)%nat ∧ ∀ resp, within w (k resp) (n - w a)
  end.

Definition total (w : action → nat) (tr : list event) : nat :=
  foldr (λ e acc, (w e.1 + acc)%nat) 0%nat tr.

(** One for each read of the status bits; the microseconds of a delay. *)
Definition poll_weight (a : action) : nat :=
  match a with
  | Inb port => if port =? EC_COMMAND_PORT then 1 else 0
  | _ => 0
  end.

Definition delay_weight (a : action) : nat :=
  match a with
  | Udelay usecs => Z.to_nat usecs
  | _ => 0
  end.

(** ** Watchdog driver (drivers/watchdog/ahc1ec0-wdt.c) *)

(** The kernel's errno values behind [-EINVAL] and [-ENOMEM]
    (asm-generic/errno-base.h). *)
Definition EINVAL : Z := 22.
Definition ENOMEM : Z := 12.

Definition EC_WDT_START : Z := 0x28.
Definition EC_WDT_STOP : Z := 0x29.
Definition EC_WDT_RESET : Z := 0x2A.

Definition EC_RESET_DELAY_TIME_H : Z := 0x5E.
Definition EC_RESET_DELAY_TIME_L : Z := 0x5F.

(** [unsigned long] has [BITS_PER_LONG] bits, by the architecture the
    kernel is built for. *)
Class Arch := { BITS_PER_LONG : Z }.

(** Conversion to [unsigned short], [unsigned long] and [long]. *)
Definition u16 (v : Z) : Z := v mod 2 ^ 16.
Definition ulong `{Arch} (v : Z) : Z := v mod 2 ^ BITS_PER_LONG.
Definition long `{Arch} (v : Z) : Z :=
  let v := ulong v in
  if bool_decide (v < 2 ^ (BITS_PER_LONG - 1)) then v else v - 2 ^ BITS_PER_LONG.

Definition set_delay (delay_timeout_in_ms : Z) : prog Z :=
  ret ← write_hw_ram EC_RESET_DELAY_TIME_L (Z.land delay_timeout_in_ms 0x00FF);
  if bool_decide (ret ≠ 0) then mret (- EINVAL) else
  ret ← write_hw_ram EC_RESET_DELAY_TIME_H (Z.shiftr (Z.land delay_timeout_in_ms 0xFF00) 8);
  if bool_decide (ret ≠ 0) then mret (- EINVAL) else
  mret 0.

(** [t] is the [unsigned long] argument; the product is returned as an
    [int]. *)
Definition advwdt_set_heartbeat (t : Z) : Z :=
  if bool_decide (t < 1 ∨ t > 6553) then - EINVAL else s32 (u32 (t * 10)).

(** [struct ec_wdt_data], with the fields of its [struct watchdog_device]
    that the driver reads: the timeout in seconds (an [unsigned int]) and
    whether the watchdog core has the device running
    ([watchdog_active]). *)
Record ec_wdt_data := {
  wdd_timeout : Z;
  wdd_active : bool;
  lock_ioctl : bool;
  is_enable : Z;
  current_timeout : Z;
}.

Definition with_timeout (t : Z) (w : ec_wdt_data) : ec_wdt_data :=
  {| wdd_timeout := t; wdd_active := wdd_active w; lock_ioctl := lock_ioctl w;
     is_enable := is_enable w; current_timeout := current_timeout w |}.
Definition with_lock_ioctl (l : bool) (w : ec_wdt_data) : ec_wdt_data :=
  {| wdd_timeout := wdd_timeout w; wdd_active := wdd_active w; lock_ioctl := l;
     is_enable := is_enable w; current_timeout := current_timeout w |}.
Definition with_is_enable (v : Z) (w : ec_wdt_data) : ec_wdt_data :=
  {| wdd_timeout := wdd_timeout w; wdd_active := wdd_active w; lock_ioctl := lock_ioctl w;
     is_enable := v; current_timeout := current_timeout w |}.
Definition with_current_timeout (v : Z) (w : ec_wdt_data) : ec_wdt_data :=
  {| wdd_timeout := wdd_timeout w; wdd_active := wdd_active w; lock_ioctl := lock_ioctl w;
     is_enable := is_enable w; current_timeout := v |}.

(** The watchdog operations return their result and the driver data they
    leave; [None] when the caller sleeps in [mutex_lock(&lock_ioctl)]. *)
Definition ec_wdt_start `{Arch} (w : ec_wdt_data) : prog (option (Z * ec_wdt_data)) :=
  let timeout := s32 (wdd_timeout w) in
  if lock_ioctl w then mret None else
  let w := with_lock_ioctl true w in
  let timeout_in_ms := advwdt_set_heartbeat (ulong timeout) in
  if bool_decide (timeout_in_ms < 0)
  then mret (Some (timeout_in_ms, with_lock_ioctl false w)) else
  ret ← set_delay (u16 (timeout_in_ms - 1));
  if bool_decide (ret ≠ 0) then mret (Some (ret, with_lock_ioctl false w)) else
  ret ← write_hwram_command EC_WDT_STOP;
  ret ← write_hwram_command EC_WDT_START;
  if bool_decide (ret ≠ 0) then mret (Some (ret, with_lock_ioctl false w)) else
  let w := with_is_enable 1 w in
  let w := with_current_timeout (timeout_in_ms `quot` 10) w in
  mret (Some (0, with_lock_ioctl false w)).

Definition ec_wdt_stop (w : ec_wdt_data) : prog (option (Z * ec_wdt_data)) :=
  if lock_ioctl w then mret None else
  let w := with_lock_ioctl true w in
  ret ← write_hwram_command EC_WDT_STOP;
  let w := with_lock_ioctl false w in
  if bool_decide (ret ≠ 0) then mret (Some (ret, w))
  else mret (Some (ret, with_is_enable 0 w)).

Definition ec_wdt_ping (w : ec_wdt_data) : prog (option (Z * ec_wdt_data)) :=
  if lock_ioctl w then mret None else
  let w := with_lock_ioctl true w in
  ret ← write_hwram_command EC_WDT_RESET;
  let w := with_lock_ioctl false w in
  if bool_decide (ret ≠ 0) then mret (Some (- EINVAL, w))
  else mret (Some (0, w)).

Definition ec_wdt_set_timeout `{Arch} (timeout : Z) (w : ec_wdt_data) :
    prog (option (Z * ec_wdt_data)) :=
  let w := with_timeout (u32 timeout) w in
  if wdd_active w then ec_wdt_start w else mret (Some (0, w)).

(** [SYS_DOWN] and [SYS_HALT] (linux/reboot.h) and [NOTIFY_DONE]
    (linux/notifier.h); the headers are not part of the driver.  The
    [NOTIFY_BAD] exit tests the result of [container_of], which is never
    null. *)
Definition SYS_DOWN : Z := 0x0001.
Definition SYS_HALT : Z := 0x0002.
Definition NOTIFY_DONE : Z := 0x0000.

(** [adv_ec_wdt_probe], by what the kernel gives it: the driver data of the
    parent device or null, whether [devm_kzalloc] succeeds, and the results
    of registering the reboot notifier and the watchdog device.  The
    result is the return value and the driver data, if allocated; a
    failure to register the watchdog device is only logged. *)
Definition EC_WDT_MIN_TIMEOUT : Z := 1.
Definition EC_WDT_MAX_TIMEOUT : Z := 600.
Definition EC_WDT_DEFAULT_TIMEOUT : Z := 45.

Definition adv_ec_wdt_probe (adv_ec_data alloc : bool) (notifier_ret register_ret : Z) :
    Z * option ec_wdt_data :=
  if negb adv_ec_data then (- EINVAL, None)
  else if negb alloc then (- ENOMEM, None)
  else
    let ec_wdt_data :=
      {| wdd_timeout := EC_WDT_DEFAULT_TIMEOUT; wdd_active := false; lock_ioctl := false;
         is_enable := 0; current_timeout := EC_WDT_DEFAULT_TIMEOUT |} in
    if bool_decide (notifier_ret ≠ 0) then (notifier_ret, Some ec_wdt_data)
    else (0, Some ec_wdt_data).

(** The driver data that a successful [adv_ec_wdt_probe] leaves. *)
Definition default_wdt : ec_wdt_data :=
  default
    {| wdd_timeout := 0; wdd_active := false; lock_ioctl := false; is_enable := 0;
       current_timeout := 0 |}
    (adv_ec_wdt_probe true true 0 0).2.

(** A 64-bit kernel. *)
Definition lp64 : Arch := {| BITS_PER_LONG := 64 |}.

Definition advwdt_notify_sys (code : Z) (w : ec_wdt_data) : prog (Z * ec_wdt_data) :=
  if bool_decide (code = SYS_DOWN ∨ code = SYS_HALT) then
    ret ← write_hwram_command EC_WDT_STOP;
    if bool_decide (ret ≠ 0) then mret (- EINVAL, w)
    else mret (NOTIFY_DONE, with_is_enable 0 w)
  else mret (NOTIFY_DONE, w).

(** ** Hardware monitor (drivers/hwmon/ahc1ec0-hwmon.c) *)

(** Device ids of the dynamic table (include/linux/mfd/ahc1ec0.h). *)
Definition EC_DID_SMBOEM0 : Z := 0x28.
Definition EC_DID_CMOSBAT : Z := 0x50.
Definition EC_DID_CMOSBAT_X2 : Z := 0x51.
Definition EC_DID_CMOSBAT_X10 : Z := 0x52.
Definition EC_DID_5VS0 : Z := 0x56.
Definition EC_DID_5VS0_X2 : Z := 0x57.
Definition EC_DID_5VS0_X10 : Z := 0x58.
Definition EC_DID_5VS5 : Z := 0x59.
Definition EC_DID_5VS5_X2 : Z := 0x5A.
Definition EC_DID_5VS5_X10 : Z := 0x5B.
Definition EC_DID_12VS0 : Z := 0x62.
Definition EC_DID_12VS0_X2 : Z := 0x63.
Definition EC_DID_12VS0_X10 : Z := 0x64.
Definition EC_DID_VCOREA : Z := 0x65.
Definition EC_DID_VCOREA_X2 : Z := 0x66.
Definition EC_DID_VCOREA_X10 : Z := 0x67.
Definition EC_DID_VCOREB : Z := 0x68.
Definition EC_DID_VCOREB_X2 : Z := 0x69.
Definition EC_DID_VCOREB_X10 : Z := 0x6A.
Definition EC_DID_DC : Z := 0x6B.
Definition EC_DID_DC_X2 : Z := 0x6C.
Definition EC_DID_DC_X10 : Z := 0x6D.
Definition EC_DID_CURRENT : Z := 0x74.

(** The kernel's errno value behind [-EOPNOTSUPP] (asm-generic/errno.h). *)
Definition EOPNOTSUPP : Z := 95.

(** [struct ec_hw_pin_table]: for each rail the two elements of its array,
    the ADC pin and the multiplier. *)
Record ec_hw_pin_table := {
  vbat : Z * Z;
  v5 : Z * Z;
  v12 : Z * Z;
  vcore : Z * Z;
  vdc : Z * Z;
  ec_current : Z * Z;
  power : Z * Z;
}.

Definition with_vbat (v : Z * Z) (t : ec_hw_pin_table) : ec_hw_pin_table :=
  {| vbat := v; v5 := v5 t; v12 := v12 t; vcore := vcore t; vdc := vdc t;
     ec_current := ec_current t; power := power t |}.
Definition with_v5 (v : Z * Z) (t : ec_hw_pin_table) : ec_hw_pin_table :=
  {| vbat := vbat t; v5 := v; v12 := v12 t; vcore := vcore t; vdc := vdc t;
     ec_current := ec_current t; power := power t |}.
Definition with_v12 (v : Z * Z) (t : ec_hw_pin_table) : ec_hw_pin_table :=
  {| vbat := vbat t; v5 := v5 t; v12 := v; vcore := vcore t; vdc := vdc t;
     ec_current := ec_current t; power := power t |}.
Definition with_vcore (v : Z * Z) (t : ec_hw_pin_table) : ec_hw_pin_table :=
  {| vbat := vbat t; v5 := v5 t; v12 := v12 t; vcore := v; vdc := vdc t;
     ec_current := ec_current t; power := power t |}.
Definition with_vdc (v : Z * Z) (t : ec_hw_pin_table) : ec_hw_pin_table :=
  {| vbat := vbat t; v5 := v5 t; v12 := v12 t; vcore := vcore t; vdc := v;
     ec_current := ec_current t; power := power t |}.
Definition with_ec_current (v : Z * Z) (t : ec_hw_pin_table) : ec_hw_pin_table :=
  {| vbat := vbat t; v5 := v5 t; v12 := v12 t; vcore := vcore t; vdc := vdc t;
     ec_current := v; power := power t |}.

(** [enum ec_hwmon_in_type] and [enum ec_temp_type]. *)
Definition EC_HWMON_IN_VBAT : Z := 0.
Definition EC_HWMON_IN_5VSB : Z := 1.
Definition EC_HWMON_IN_12V : Z := 2.
Definition EC_HWMON_IN_VCORE : Z := 3.
Definition EC_HWMON_IN_VIN1 : Z := 4.
Definition EC_HWMON_IN_VIN2 : Z := 5.
Definition EC_HWMON_IN_SYS_VOL : Z := 6.
Definition EC_HWMON_IN_CURRENT : Z := 7.

Definition EC_TEMP_CPU : Z := 0.
Definition EC_TEMP_SYS : Z := 1.

(** [struct adv_hwmon_profile], without the fields no function reads. *)
Record adv_hwmon_profile := {
  offset : Z;
  resolution : Z;
  r1 : Z;
  r2 : Z;
  hwmon_in_list_cnt : Z;
  temp_list_cnt : Z;
  hwmon_in_list : list Z;
  temp_list : list Z;
}.

Definition hwmon_in_list_0 : list Z :=
  [EC_HWMON_IN_VBAT; EC_HWMON_IN_5VSB; EC_HWMON_IN_12V; EC_HWMON_IN_VCORE;
   EC_HWMON_IN_CURRENT].
Definition hwmon_in_list_1 : list Z :=
  [EC_HWMON_IN_VBAT; EC_HWMON_IN_5VSB; EC_HWMON_IN_12V; EC_HWMON_IN_VCORE].
Definition temp_list_0 : list Z := [EC_TEMP_CPU].
Definition temp_list_1 : list Z := [EC_TEMP_CPU; EC_TEMP_SYS].

Definition ARRAY_SIZE {A} (l : list A) : Z := Z.of_nat (length l).

(** The elements of [advec_profile], by the names that
    include/dt-bindings/mfd/ahc1ec0-dt.h gives their indices. *)
Definition AHC1EC0_HWMON_PRO_TEMPLATE : adv_hwmon_profile :=
  {| resolution := 2929; r1 := 1912; r2 := 1000; offset := 0;
     hwmon_in_list_cnt := ARRAY_SIZE hwmon_in_list_0;
     temp_list_cnt := ARRAY_SIZE temp_list_0;
     hwmon_in_list := hwmon_in_list_0; temp_list := temp_list_0 |}.

Definition AHC1EC0_HWMON_PRO_TPC5XXX : adv_hwmon_profile :=
  {| resolution := 2929; r1 := 1912; r2 := 1000; offset := 0;
     hwmon_in_list_cnt := ARRAY_SIZE hwmon_in_list_1;
     temp_list_cnt := ARRAY_SIZE temp_list_0;
     hwmon_in_list := hwmon_in_list_1; temp_list := temp_list_0 |}.

Definition AHC1EC0_HWMON_PRO_PRVR4 : adv_hwmon_profile :=
  {| resolution := 2929; r1 := 1912; r2 := 1000; offset := 0;
     hwmon_in_list_cnt := ARRAY_SIZE hwmon_in_list_1;
     temp_list_cnt := ARRAY_SIZE temp_list_1;
     hwmon_in_list := hwmon_in_list_1; temp_list := temp_list_1 |}.

Definition AHC1EC0_HWMON_PRO_UNO2271G : adv_hwmon_profile :=
  {| resolution := 2929; r1 := 1912; r2 := 1000; offset := 0;
     hwmon_in_list_cnt := ARRAY_SIZE hwmon_in_list_1;
     temp_list_cnt := ARRAY_SIZE temp_list_0;
     hwmon_in_list := hwmon_in_list_1; temp_list := temp_list_0 |}.

Definition advec_profile : list adv_hwmon_profile :=
  [ AHC1EC0_HWMON_PRO_TEMPLATE; AHC1EC0_HWMON_PRO_TPC5XXX; AHC1EC0_HWMON_PRO_PRVR4;
    AHC1EC0_HWMON_PRO_UNO2271G ].

(** [struct ec_hwmon_data], without the arrays no function touches:
    [voltage] and [ec_currents] are its [voltage[7]] and [ec_current[5]],
    and [profile] is null or points into [advec_profile]. *)
Record ec_hwmon_data := {
  voltage : list Z;
  ec_currents : list Z;
  pin_tbl : ec_hw_pin_table;
  ec_smboem0 : Z;
  profile : option adv_hwmon_profile;
}.

Definition with_voltage (i : nat) (v : Z) (d : ec_hwmon_data) : ec_hwmon_data :=
  {| voltage := <[i := v]> (voltage d); ec_currents := ec_currents d;
     pin_tbl := pin_tbl d; ec_smboem0 := ec_smboem0 d; profile := profile d |}.
Definition with_ec_currents (i : nat) (v : Z) (d : ec_hwmon_data) : ec_hwmon_data :=
  {| voltage := voltage d; ec_currents := <[i := v]> (ec_currents d);
     pin_tbl := pin_tbl d; ec_smboem0 := ec_smboem0 d; profile := profile d |}.
Definition with_pin_tbl (f : ec_hw_pin_table → ec_hw_pin_table) (d : ec_hwmon_data) :
    ec_hwmon_data :=
  {| voltage := voltage d; ec_currents := ec_currents d;
     pin_tbl := f (pin_tbl d); ec_smboem0 := ec_smboem0 d; profile := profile d |}.
Definition with_ec_smboem0 (v : Z) (d : ec_hwmon_data) : ec_hwmon_data :=
  {| voltage := voltage d; ec_currents := ec_currents d;
     pin_tbl := pin_tbl d; ec_smboem0 := v; profile := profile d |}.
Definition with_profile (p : option adv_hwmon_profile) (d : ec_hwmon_data) : ec_hwmon_data :=
  {| voltage := voltage d; ec_currents := ec_currents d;
     pin_tbl := pin_tbl d; ec_smboem0 := ec_smboem0 d; profile := p |}.

(** The driver data as [devm_kzalloc] returns it in [adv_ec_hwmon_probe]:
    all zero. *)
Definition zeroed : ec_hwmon_data :=
  {| voltage := replicate 7 0; ec_currents := replicate 5 0;
     pin_tbl := {| vbat := (0, 0); v5 := (0, 0); v12 := (0, 0); vcore := (0, 0);
                   vdc := (0, 0); ec_current := (0, 0); power := (0, 0) |};
     ec_smboem0 := 0; profile := None |}.

(** The [switch] of [adv_ec_init_hwmon_profile] for one slot of the table. *)
Definition init_slot (e : ec_dynamic_table) (d : ec_hwmon_data) : ec_hwmon_data :=
  let id := device_id e in
  let pin := hw_pin_num e in
  if id =? EC_DID_CMOSBAT then with_pin_tbl (with_vbat (pin, 1)) d
  else if id =? EC_DID_CMOSBAT_X2 then with_pin_tbl (with_vbat (pin, 2)) d
  else if id =? EC_DID_CMOSBAT_X10 then with_pin_tbl (with_vbat (pin, 10)) d
  else if (id =? EC_DID_5VS0) || (id =? EC_DID_5VS5)
  then with_pin_tbl (with_v5 (pin, 1)) d
  else if (id =? EC_DID_5VS0_X2) || (id =? EC_DID_5VS5_X2)
  then with_pin_tbl (with_v5 (pin, 2)) d
  else if (id =? EC_DID_5VS0_X10) || (id =? EC_DID_5VS5_X10)
  then with_pin_tbl (with_v5 (pin, 10)) d
  else if id =? EC_DID_12VS0 then with_pin_tbl (with_v12 (pin, 1)) d
  else if id =? EC_DID_12VS0_X2 then with_pin_tbl (with_v12 (pin, 2)) d
  else if id =? EC_DID_12VS0_X10 then with_pin_tbl (with_v12 (pin, 10)) d
  else if (id =? EC_DID_VCOREA) || (id =? EC_DID_VCOREB)
  then with_pin_tbl (with_vcore (pin, 1)) d
  else if (id =? EC_DID_VCOREA_X2) || (id =? EC_DID_VCOREB_X2)
  then with_pin_tbl (with_vcore (pin, 2)) d
  else if (id =? EC_DID_VCOREA_X10) || (id =? EC_DID_VCOREB_X10)
  then with_pin_tbl (with_vcore (pin, 10)) d
  else if id =? EC_DID_DC then with_pin_tbl (with_vdc (pin, 1)) d
  else if id =? EC_DID_DC_X2 then with_pin_tbl (with_vdc (pin, 2)) d
  else if id =? EC_DID_DC_X10 then with_pin_tbl (with_vdc (pin, 10)) d
  else if id =? EC_DID_CURRENT then with_pin_tbl (with_ec_current (pin, 1)) d
  else if id =? EC_DID_SMBOEM0 then with_ec_smboem0 pin d
  else d.

(** The loop over the slots [i .. i + left - 1]; [None] when it reads past
    the end of the table. *)
Fixpoint init_slots (left : nat) (i : nat) (dym_tbl : list ec_dynamic_table)
    (d : ec_hwmon_data) : option ec_hwmon_data :=
  match left with
  | O => Some d
  | S left' =>
      e ← dym_tbl !! i;
      init_slots left' (S i) dym_tbl (init_slot e d)
  end.

Definition adv_ec_init_hwmon_profile (profile : Z) (dym_tbl : list ec_dynamic_table)
    (lmsensor_data : ec_hwmon_data) : option ec_hwmon_data :=
  if bool_decide (ARRAY_SIZE advec_profile ≤ profile) then Some lmsensor_data
  else
    init_slots (Z.to_nat EC_MAX_TBL_NUM) 0 dym_tbl
      (with_profile (advec_profile !! Z.to_nat profile) lmsensor_data).

(** The driver data of a board whose table gives the coin battery ADC pin
    5 and the 12V rail ADC pin 9, with the first profile. *)
Definition demo_hwmon : ec_hwmon_data :=
  default zeroed
    (adv_ec_init_hwmon_profile 0
       ([ {| device_id := EC_DID_CMOSBAT_X2; hw_pin_num := 5 |};
          {| device_id := EC_DID_12VS0; hw_pin_num := 9 |} ] ++
        replicate (Z.to_nat EC_MAX_TBL_NUM - 2) sentinel)
       zeroed).

(** The rails of the pin table, and the rail and multiplier that the
    header gives each voltage and current device id. *)
Inductive rail := Vbat | V5 | V12 | Vcore | Vdc | Current.

#[global] Instance rail_eq_dec : EqDecision rail.
Proof. solve_decision. Defined.

Definition rail_pin (r : rail) (t : ec_hw_pin_table) : Z * Z :=
  match r with
  | Vbat => vbat t
  | V5 => v5 t
  | V12 => v12 t
  | Vcore => vcore t
  | Vdc => vdc t
  | Current => ec_current t
  end.

Definition rails : list (Z * (rail * Z)) :=
  [ (EC_DID_CMOSBAT, (Vbat, 1)); (EC_DID_CMOSBAT_X2, (Vbat, 2));
    (EC_DID_CMOSBAT_X10, (Vbat, 10));
    (EC_DID_5VS0, (V5, 1)); (EC_DID_5VS0_X2, (V5, 2)); (EC_DID_5VS0_X10, (V5, 10));
    (EC_DID_5VS5, (V5, 1)); (EC_DID_5VS5_X2, (V5, 2)); (EC_DID_5VS5_X10, (V5, 10));
    (EC_DID_12VS0, (V12, 1)); (EC_DID_12VS0_X2, (V12, 2)); (EC_DID_12VS0_X10, (V12, 10));
    (EC_DID_VCOREA, (Vcore, 1)); (EC_DID_VCOREA_X2, (Vcore, 2));
    (EC_DID_VCOREA_X10, (Vcore, 10));
    (EC_DID_VCOREB, (Vcore, 1)); (EC_DID_VCOREB_X2, (Vcore, 2));
    (EC_DID_VCOREB_X10, (Vcore, 10));
    (EC_DID_DC, (Vdc, 1)); (EC_DID_DC_X2, (Vdc, 2)); (EC_DID_DC_X10, (Vdc, 10));
    (EC_DID_CURRENT, (Current, 1)) ].

(** The pin and multiplier a slot of the table gives the rail [r], if it
    is a slot for that rail. *)
Definition slot_for (r : rail) (e : ec_dynamic_table) : option (Z * Z) :=
  '(_, (r', multi)) ← list_find (λ x, x.1 = device_id e) rails ≫= Some ∘ snd;
  if bool_decide (r' = r) then Some (hw_pin_num e, multi) else None.

(** *** Reading a sensor

    The voltage and current getters return their result, what they store
    through [val] (a [long]) and the driver data they leave.  Conversions
    between the integer types are written out: [u32] and [s32] for
    [unsigned int] and [int], [ulong] and [long] for [unsigned long] and
    [long].  The kernel is built with [-fno-strict-overflow], so [int]
    arithmetic wraps around. *)

Definition get_ec_in_vbat_input `{Arch} (lmsensor_data : ec_hwmon_data)
    (profile : adv_hwmon_profile) : prog (Z * Z * ec_hwmon_data) :=
  let ptbl := pin_tbl lmsensor_data in
  ret ← read_ad_value (vbat ptbl).1 (vbat ptbl).2;
  let temp := u32 ret in
  let voltage := 0 in
  let voltage :=
    if bool_decide (r2 profile ≠ 0)
    then ulong (temp * ulong (r1 profile + r2 profile)) / r2 profile else voltage in
  let voltage :=
    if bool_decide (resolution profile ≠ 0)
    then ulong (temp * resolution profile) / 1000 / 1000 else voltage in
  let voltage :=
    if bool_decide (offset profile ≠ 0)
    then ulong (voltage + s32 (u32 (offset profile * 100))) else voltage in
  let lmsensor_data := with_voltage 0 (ulong (10 * voltage)) lmsensor_data in
  mret (0, long (ulong (10 * voltage)), lmsensor_data).

Definition get_ec_in_v5_input `{Arch} (lmsensor_data : ec_hwmon_data)
    (profile : adv_hwmon_profile) : prog (Z * Z * ec_hwmon_data) :=
  let ptbl := pin_tbl lmsensor_data in
  ret ← read_ad_value (v5 ptbl).1 (v5 ptbl).2;
  let temp := u32 ret in
  let voltage := 0 in
  let voltage :=
    if bool_decide (r2 profile ≠ 0)
    then ulong (temp * ulong (r1 profile + r2 profile)) / r2 profile else voltage in
  let voltage :=
    if bool_decide (resolution profile ≠ 0)
    then ulong (temp * resolution profile) / 1000 / 1000 else voltage in
  let voltage :=
    if bool_decide (offset profile ≠ 0)
    then ulong (voltage + s32 (u32 (offset profile * 100))) else voltage in
  let lmsensor_data := with_voltage 1 (ulong (10 * voltage)) lmsensor_data in
  mret (0, long (ulong (10 * voltage)), lmsensor_data).

(** Here [temp] is an [int]: it is converted to [unsigned long] in the
    products. *)
Definition get_ec_in_v12_input `{Arch} (lmsensor_data : ec_hwmon_data)
    (profile : adv_hwmon_profile) : prog (Z * Z * ec_hwmon_data) :=
  let ptbl := pin_tbl lmsensor_data in
  temp ← read_ad_value (v12 ptbl).1 (v12 ptbl).2;
  temp ← (if bool_decide (temp = -1) then read_ad_value (vdc ptbl).1 (vdc ptbl).2
          else mret temp);
  let voltage := 0 in
  let voltage :=
    if bool_decide (r2 profile ≠ 0)
    then ulong (ulong temp * ulong (r1 profile + r2 profile)) / r2 profile else voltage in
  let voltage :=
    if bool_decide (resolution profile ≠ 0)
    then ulong (ulong temp * resolution profile) / 1000 / 1000 else voltage in
  let voltage :=
    if bool_decide (offset profile ≠ 0)
    then ulong (voltage + s32 (u32 (offset profile * 100))) else voltage in
  let lmsensor_data := with_voltage 2 (ulong (10 * voltage)) lmsensor_data in
  mret (0, long (ulong (10 * voltage)), lmsensor_data).

(** Here [voltage] is an [unsigned int]. *)
Definition get_ec_in_vcore_input `{Arch} (lmsensor_data : ec_hwmon_data)
    (profile : adv_hwmon_profile) : prog (Z * Z * ec_hwmon_data) :=
  let ptbl := pin_tbl lmsensor_data in
  temp ← read_ad_value (vcore ptbl).1 (vcore ptbl).2;
  let voltage := 0 in
  let voltage :=
    if bool_decide (r2 profile ≠ 0)
    then u32 (ulong (ulong temp * ulong (r1 profile + r2 profile)) / r2 profile)
    else voltage in
  let voltage :=
    if bool_decide (resolution profile ≠ 0)
    then u32 (ulong (ulong temp * resolution profile) / 1000 / 1000) else voltage in
  let voltage :=
    if bool_decide (offset profile ≠ 0)
    then u32 (voltage + s32 (u32 (offset profile * 100))) else voltage in
  let lmsensor_data := with_voltage 3 (u32 (10 * voltage)) lmsensor_data in
  mret (0, long (u32 (10 * voltage)), lmsensor_data).

(** Here every step is assigned back to the [int] [temp]. *)
Definition get_ec_current1_input `{Arch} (lmsensor_data : ec_hwmon_data)
    (profile : adv_hwmon_profile) : prog (Z * Z * ec_hwmon_data) :=
  let ptbl := pin_tbl lmsensor_data in
  temp ← read_ad_value (ec_current ptbl).1 (ec_current ptbl).2;
  let temp :=
    if bool_decide (r2 profile ≠ 0)
    then s32 (u32 (ulong (ulong temp * ulong (r1 profile + r2 profile)) / r2 profile))
    else temp in
  let temp :=
    if bool_decide (resolution profile ≠ 0)
    then s32 (u32 (ulong (ulong temp * resolution profile) / 1000 / 1000)) else temp in
  let temp :=
    if bool_decide (offset profile ≠ 0)
    then s32 (u32 (temp + s32 (u32 (offset profile * 100)))) else temp in
  let lmsensor_data := with_ec_currents 3 (ulong (s32 (u32 (10 * temp)))) lmsensor_data in
  mret (0, long (ulong (s32 (u32 (10 * temp)))), lmsensor_data).

(** What a function left behind its [long *val] or [const char **str]
    argument: nothing, a value, or a value computed from an uninitialised
    variable. *)
Inductive out (A : Type) :=
| Untouched
| Written (v : A)
| Indeterminate.
Arguments Untouched {A}.
Arguments Written {A} v.
Arguments Indeterminate {A}.

(** The octal literal [0444]. *)
Definition mode_0444 : Z := 292.

Definition EC_ACPI_THERMAL1_REMOTE_TEMP : Z := 0x61.
Definition EC_ACPI_THERMAL1_LOCAL_TEMP : Z := 0x60.

(** Element [i] of a C array, for an [int] index; [None] outside the array. *)
Definition element {A} (l : list A) (i : Z) : option A :=
  if bool_decide (0 ≤ i) then l !! Z.to_nat i else None.

(** The attributes and sensor types of the hwmon core that the driver
    tests ([enum hwmon_sensor_types], [enum hwmon_in_attributes] and
    [enum hwmon_temp_attributes] of linux/hwmon.h); the header is not part
    of the driver, and the values are the kernel's to choose. *)
Class Hwmon := {
  hwmon_in : Z;
  hwmon_temp : Z;
  hwmon_in_input : Z;
  hwmon_in_label : Z;
  hwmon_temp_input : Z;
  hwmon_temp_crit : Z;
  hwmon_temp_label : Z;
}.

(** One assignment of numbers to them, to run the functions with. *)
Definition sample_hwmon : Hwmon :=
  {| hwmon_in := 2; hwmon_temp := 1; hwmon_in_input := 0; hwmon_in_label := 9;
     hwmon_temp_input := 0; hwmon_temp_crit := 8; hwmon_temp_label := 19 |}.

Section hwmon_read.
Context `{Transport} `{Arch} `{Hwmon}.

(** From here on a function takes the state of the system and returns its
    results and the state it leaves; [None] where the C function has no
    defined behaviour (a call through a null pointer, an index outside an
    array) or does not return. *)

(** [value] is the address of the local variable of that name. *)
Definition get_ec_cpu_temp (value : N) (s : system _) : option (Z * out Z * system _) :=
  '(_, s) ← run (read_acpi_value EC_ACPI_THERMAL1_REMOTE_TEMP value) s;
  let val :=
    match heap (host s) !! value with
    | Some value => Written (1000 * value)
    | None => Indeterminate
    end in
  Some (0, val, s).

Definition get_ec_sys_temp (value : N) (s : system _) : option (Z * out Z * system _) :=
  '(_, s) ← run (read_acpi_value EC_ACPI_THERMAL1_LOCAL_TEMP value) s;
  let val :=
    match heap (host s) !! value with
    | Some value => Written (1000 * value)
    | None => Indeterminate
    end in
  Some (0, val, s).

(** [struct ec_hwmon_attrs]: name, mode, and the [read] function or null. *)
Definition ec_hwmon_in_attr_template :
    list (string * Z *
          option (ec_hwmon_data → adv_hwmon_profile → prog (Z * Z * ec_hwmon_data))) :=
  [ ("VBAT"%string, mode_0444, Some get_ec_in_vbat_input);
    ("5VSB"%string, mode_0444, Some get_ec_in_v5_input);
    ("Vin"%string, mode_0444, Some get_ec_in_v12_input);
    ("VCORE"%string, mode_0444, Some get_ec_in_vcore_input);
    ("Vin1"%string, mode_0444, None);
    ("Vin2"%string, mode_0444, None);
    ("System Voltage"%string, mode_0444, None);
    ("Current"%string, mode_0444, Some get_ec_current1_input) ].

Definition ec_temp_attrs_template :
    list (string * Z * option (N → system _ → option (Z * out Z * system _))) :=
  [ ("CPU Temp"%string, mode_0444, Some get_ec_cpu_temp);
    ("System Temp"%string, mode_0444, Some get_ec_sys_temp) ].

(** [lmsensor_data] is what [dev_get_drvdata] returns: the driver data, or
    null. *)
Definition ahc1ec0_read_in (lmsensor_data : option ec_hwmon_data) (attr channel : Z)
    (s : system _) : option (Z * out Z * option ec_hwmon_data * system _) :=
  match lmsensor_data ≫= λ d, pair d <$> profile d with
  | None => Some (- EINVAL, Untouched, lmsensor_data, s)
  | Some (d, p) =>
      if bool_decide (attr = hwmon_in_input ∧ hwmon_in_list_cnt p > channel) then
        index ← element (hwmon_in_list p) channel;
        ec_hwmon_attr ← element ec_hwmon_in_attr_template index;
        read ← ec_hwmon_attr.2;
        '(ret, val, d, s) ← run (read d p) s;
        Some (ret, Written val, Some d, s)
      else Some (- EOPNOTSUPP, Untouched, lmsensor_data, s)
  end.

Definition ahc1ec0_read_temp (lmsensor_data : option ec_hwmon_data) (attr channel : Z)
    (value : N) (s : system _) : option (Z * out Z * option ec_hwmon_data * system _) :=
  match lmsensor_data ≫= λ d, pair d <$> profile d with
  | None => Some (- EINVAL, Untouched, lmsensor_data, s)
  | Some (d, p) =>
      if bool_decide (attr = hwmon_temp_input) then
        if bool_decide (temp_list_cnt p > channel) then
          index ← element (temp_list p) channel;
          devec_hwmon_attr ← element ec_temp_attrs_template index;
          read ← devec_hwmon_attr.2;
          '(ret, val, s) ← read value s;
          Some (ret, val, lmsensor_data, s)
        else Some (- EOPNOTSUPP, Untouched, lmsensor_data, s)
      else if bool_decide (attr = hwmon_temp_crit) then
        Some (0, Written 100000, lmsensor_data, s)
      else Some (- EOPNOTSUPP, Untouched, lmsensor_data, s)
  end.

Definition ahc1ec0_read_string (lmsensor_data : option ec_hwmon_data)
    (type attr channel : Z) : option (Z * out string) :=
  match lmsensor_data ≫= λ d, pair d <$> profile d with
  | None => Some (- EINVAL, Untouched)
  | Some (d, p) =>
      if bool_decide ((type = hwmon_in ∧ attr = hwmon_in_label) ∧
                      hwmon_in_list_cnt p > channel) then
        index ← element (hwmon_in_list p) channel;
        ec_hwmon_attr ← element ec_hwmon_in_attr_template index;
        Some (0, Written ec_hwmon_attr.1.1)
      else if bool_decide ((type = hwmon_temp ∧ attr = hwmon_temp_label) ∧
                           temp_list_cnt p > channel) then
        index ← element (temp_list p) channel;
        ec_hwmon_attr ← element ec_temp_attrs_template index;
        Some (0, Written ec_hwmon_attr.1.1)
      else Some (- EOPNOTSUPP, Untouched)
  end.

Definition ahc1ec0_read (lmsensor_data : option ec_hwmon_data) (type attr channel : Z)
    (value : N) (s : system _) : option (Z * out Z * option ec_hwmon_data * system _) :=
  if bool_decide (type = hwmon_in) then ahc1ec0_read_in lmsensor_data attr channel s
  else if bool_decide (type = hwmon_temp)
  then ahc1ec0_read_temp lmsensor_data attr channel value s
  else Some (- EOPNOTSUPP, Untouched, lmsensor_data, s).
End hwmon_read.

Section hwmon_visible.
Context `{Hwmon}.

Definition ec_hwmon_in_visible (attr channel : Z) : Z :=
  if bool_decide (attr = hwmon_in_input ∨ attr = hwmon_in_label) then mode_0444 else 0.

Definition ec_temp_in_visible (attr channel : Z) : Z :=
  if bool_decide (attr = hwmon_temp_input ∨ attr = hwmon_temp_crit ∨
                  attr = hwmon_temp_label)
  then mode_0444 else 0.

Definition ahc1ec0_is_visible (type attr channel : Z) : Z :=
  if bool_decide (type = hwmon_in) then ec_hwmon_in_visible attr channel
  else if bool_decide (type = hwmon_temp) then ec_temp_in_visible attr channel
  else 0.
End hwmon_visible.

(** ** Initialisation of the core driver (ahc1ec0.c, lines 606-763) *)

(** The kernel's errno value behind [-ENODEV] (asm-generic/errno-base.h). *)
Definition ENODEV : Z := 19.

Definition AMI_ADVANTECH_BOARD_ID_LENGTH : Z := 32.

(** [enum { ADVEC_SUBDEV_BRIGHTNESS = 0, ..., ADVEC_SUBDEV_MAX }] *)
Definition ADVEC_SUBDEV_BRIGHTNESS : Z := 0.
Definition ADVEC_SUBDEV_EEPROM : Z := 1.
Definition ADVEC_SUBDEV_GPIO : Z := 2.
Definition ADVEC_SUBDEV_HWMON : Z := 3.
Definition ADVEC_SUBDEV_LED : Z := 4.
Definition ADVEC_SUBDEV_WDT : Z := 5.
Definition ADVEC_SUBDEV_MAX : Z := 6.

Definition BIT (nr : Z) : Z := Z.shiftl 1 nr.

(** The bytes of a string literal, with its terminator. *)
Definition literal (s : string) : list Z :=
  (Z.of_N ∘ Ascii.N_of_ascii <$> list_ascii_of_string s) ++ [0].

Definition space : Z := 32.

(** The [while] loop of [adv_ec_get_productname], by the number of
    increments of [length] that are left; [device] is the memory from the
    pointer on, and reading outside it has no defined behaviour. *)
Fixpoint product_length (left : nat) (device : list Z) (length : nat) : option nat :=
  c ← device !! length;
  if bool_decide (c ≠ space) && bool_decide (Z.of_nat length < AMI_ADVANTECH_BOARD_ID_LENGTH)
  then
    match left with
    | S left' => product_length left' device (S length)
    | O => None
    end
  else Some length.

(** Whether [memcmp(a, b, n)] is [0]: the bytes are compared up to the first
    difference, and reading outside [a] or [b] has no defined behaviour. *)
Fixpoint memcmp (a b : list Z) (n : nat) {struct n} : option bool :=
  match n with
  | O => Some true
  | S n' =>
      match a, b with
      | x :: a', y :: b' => if bool_decide (x = y) then memcmp a' b' n' else Some false
      | _, _ => None
      end
  end.

(** [vendor] and [device] are what [dmi_get_system_info] returns: null, or
    the memory from the pointer on.  The result is the return value and
    the [AMI_ADVANTECH_BOARD_ID_LENGTH] bytes of [product]. *)
Definition adv_ec_get_productname (vendor device : option (list Z)) (product : list Z) :
    option (Z * list Z) :=
  vendor ← vendor;
  same ← memcmp vendor (literal "Advantech") (length (literal "Advantech"));
  if negb same then Some (- ENODEV, product)
  else
    match device with
    | Some device =>
        length ← product_length (Z.to_nat AMI_ADVANTECH_BOARD_ID_LENGTH) device 0;
        let product := replicate (Z.to_nat AMI_ADVANTECH_BOARD_ID_LENGTH) 0 in
        let product := take length device ++ drop length product in
        Some (0, product)
    | None => Some (- ENODEV, product)
    end.

(** The name of a device as a C string: the bytes before the first [0]. *)
Fixpoint cstring (mem : list Z) : list Z :=
  match mem with
  | [] => []
  | c :: mem' => if bool_decide (c = 0) then [] else c :: cstring mem'
  end.

(** The loop of [adv_ec_parse_prop] over [sub_dev[i .. nb - 1]]. *)
Fixpoint sub_dev_mask_from (left : nat) (i : nat) (sub_dev : list Z) (mask : Z) : option Z :=
  match left with
  | O => Some mask
  | S left' =>
      v ← sub_dev !! i;
      let mask :=
        if bool_decide (v = ADVEC_SUBDEV_BRIGHTNESS ∨ v = ADVEC_SUBDEV_EEPROM ∨
                        v = ADVEC_SUBDEV_GPIO ∨ v = ADVEC_SUBDEV_HWMON ∨
                        v = ADVEC_SUBDEV_LED ∨ v = ADVEC_SUBDEV_WDT)
        then u32 (Z.lor mask (BIT v)) else mask in
      sub_dev_mask_from left' (S i) sub_dev mask
  end.

(** [nb_ret] and [nb] are the result of [device_property_read_u32] and the
    value it stored; [sub_ret] and [sub_dev] those of
    [device_property_read_u32_array], which stores [nb] values in the
    array of [ADVEC_SUBDEV_MAX] elements.  The result is the return value,
    [sub_dev_nb] and [sub_dev_mask]. *)
Definition adv_ec_parse_prop (nb_ret nb sub_ret : Z) (sub_dev : list Z)
    (sub_dev_nb sub_dev_mask : Z) : option (Z * Z * Z) :=
  if bool_decide (nb_ret < 0) then Some (nb_ret, sub_dev_nb, sub_dev_mask)
  else
    let sub_dev_nb := s32 nb in
    if bool_decide (sub_ret < 0) then Some (sub_ret, sub_dev_nb, sub_dev_mask)
    else if bool_decide (ADVEC_SUBDEV_MAX < nb) then None
    else
      mask ← sub_dev_mask_from (Z.to_nat nb) 0 sub_dev sub_dev_mask;
      Some (0, sub_dev_nb, mask).

Definition adv_ec_sub_cells : list string :=
  [ "adv-ec-brightness"; "adv-ec-eeprom"; "adv-ec-gpio"; "ahc1ec0-hwmon";
    "adv-ec-led"; "ahc1ec0-wdt" ]%string.

(** What the platform gives the probe: whether the three allocations
    succeed, the two DMI strings, and the results of reading the two
    device properties. *)
Record platform := {
  alloc_data : bool;
  alloc_name : bool;
  alloc_tbl : bool;
  dmi_sys_vendor : option (list Z);
  dmi_product_name : option (list Z);
  nb_ret : Z;
  nb : Z;
  sub_ret : Z;
  sub_dev : list Z;
}.

(** [struct adv_ec_platform_data], but for the mutex and the table, which
    are part of the host state. *)
Record adv_ec_platform_data := {
  bios_product_name : option (list Z);
  sub_dev_nb : Z;
  sub_dev_mask : Z;
}.

(** What the platform gives on a board with the product name "UNO-2271G
    E22AE" that lists the hardware monitor, the watchdog and a sub-device
    number the driver does not know. *)
Definition demo_platform : platform :=
  {| alloc_data := true; alloc_name := true; alloc_tbl := true;
     dmi_sys_vendor := Some (literal "Advantech");
     dmi_product_name := Some (literal "UNO-2271G E22AE");
     nb_ret := 0; nb := 3; sub_ret := 0;
     sub_dev := [ADVEC_SUBDEV_WDT; 9; ADVEC_SUBDEV_HWMON] |}.

Section probe.
Context `{Transport}.

(** [mutex_init], and the table pointer set to null or to fresh zeroed
    memory. *)
Definition fresh (tbl : list ec_dynamic_table) (s : system _) : system _ :=
  {| ec := ec s;
     host := {| lock := false; heap := heap (host s); dym_tbl := tbl;
                trace := trace (host s) |} |}.

Definition adv_ec_init_ec_data (pf : platform) (s : system _) :
    option (Z * adv_ec_platform_data * system _) :=
  let s := fresh [] s in
  let data := {| bios_product_name := None; sub_dev_nb := 0; sub_dev_mask := 0 |} in
  if negb (alloc_name pf) then Some (- ENOMEM, data, s) else
  let product := replicate (Z.to_nat AMI_ADVANTECH_BOARD_ID_LENGTH) 0 in
  '(ret, product) ← adv_ec_get_productname (dmi_sys_vendor pf) (dmi_product_name pf) product;
  let data :=
    {| bios_product_name := Some product; sub_dev_nb := 0; sub_dev_mask := 0 |} in
  if bool_decide (ret ≠ 0) then Some (ret, data, s) else
  if negb (alloc_tbl pf) then Some (- ENOMEM, data, s) else
  let s :=
    fresh (replicate (Z.to_nat EC_MAX_TBL_NUM) {| device_id := 0; hw_pin_num := 0 |}) s in
  '(ret, s) ← run adv_get_dynamic_tab s;
  Some (ret, data, s).

(** The loop of [adv_ec_probe] over [adv_ec_sub_cells]: the cells it hands
    to [mfd_add_hotplug_devices], whose result it only logs. *)
Definition added_cells (mask : Z) : list string :=
  omap (λ '(i, cell), if Z.testbit mask (Z.of_nat i) then Some cell else None)
    (imap pair adv_ec_sub_cells).

(** The result is the return value, the cells added, the driver data
    (null when its allocation failed) and the state of the system. *)
Definition adv_ec_probe (pf : platform) (s : system _) :
    option (Z * list string * option adv_ec_platform_data * system _) :=
  if negb (alloc_data pf) then Some (- ENOMEM, [], None, s) else
  '(ret, data, s) ← adv_ec_init_ec_data pf s;
  if bool_decide (ret ≠ 0) then Some (ret, [], Some data, s) else
  '(ret, sub_dev_nb, sub_dev_mask) ←
    adv_ec_parse_prop (nb_ret pf) (nb pf) (sub_ret pf) (sub_dev pf)
      (sub_dev_nb data) (sub_dev_mask data);
  let data :=
    {| bios_product_name := bios_product_name data; sub_dev_nb := sub_dev_nb;
       sub_dev_mask := sub_dev_mask |} in
  if bool_decide (ret ≠ 0) then Some (ret, [], Some data, s) else
  Some (0, added_cells sub_dev_mask, Some data, s).
End probe.

(** * Lemmas *)

Section wp.
Context {A B : Type}.
Implicit Types (p : prog A) (h : host_state).

Lemma wp_mono p h (post post' : A → host_state → Prop) :
  wp p h post → (∀ a h', post a h' → post' a h') → wp p h post'.
Proof.
  revert h post post'. induction p as [a|a k IH]; simpl; intros h post post' Hwp Himp.
  - by apply Himp.
  - intros resp Hresp. destruct (Hwp resp Hresp) as (h' & Hstep & Hk).
    exists h'. split; [done|]. by eapply IH.
Qed.

Lemma wp_bind p (f : A → prog B) h (post : B → host_state → Prop) :
  wp p h (λ a h', wp (f a) h' post) → wp (p ≫= f) h post.
Proof.
  revert h. induction p as [a|a k IH]; simpl; intros h Hwp; [done|].
  intros resp Hresp. destruct (Hwp resp Hresp) as (h' & Hstep & Hk).
  exists h'. split; [done|]. by apply IH.
Qed.
End wp.

Lemma ec_wait_write_poll n : ec_wait_write_from n = poll_from ibf_clear n.
Proof. induction n as [|n IH]; simpl; [done|]. by rewrite IH. Qed.

Lemma ec_wait_read_poll n : ec_wait_read_from n = poll_from obf_set n.
Proof. induction n as [|n IH]; simpl; [done|]. by rewrite IH. Qed.

Lemma busy_app sts1 sts2 : busy (sts1 ++ sts2) = busy sts1 ++ busy sts2.
Proof. induction sts1 as [|st sts1 IH]; simpl; [done|]. by rewrite IH. Qed.

Lemma extend_log evs e h : extend evs (log e h) = extend (evs ++ [e]) h.
Proof. unfold extend, log. simpl. by rewrite <-app_assoc. Qed.

Lemma wp_poll_from ready n h :
  wp (poll_from ready n) h (λ r h', ∃ polls, h' = extend polls h ∧ waited ready n r polls).
Proof.
  revert h. induction n as [|n IH]; intros h.
  - simpl. exists []. split; [by destruct h|]. by apply (waited_timeout _ _ []).
  - simpl. intros st Hst. eexists; split; [done|].
    destruct (ready st) eqn:Hready.
    + simpl. exists [(Inb EC_COMMAND_PORT, st)]. split; [done|].
      apply (waited_ready _ _ st []); simpl; auto with lia.
    + simpl. intros ? ->. eexists; split; [done|].
      eapply wp_mono; [apply IH|]. simpl. intros r h' (polls & -> & Hw).
      exists (polls ++ [(Udelay EC_RETRY_UDELAY, 0); (Inb EC_COMMAND_PORT, st)]).
      split; [unfold extend, log; simpl; by rewrite <-app_assoc|].
      destruct Hw as [st' sts Hr Hb Hlen Hall|sts Hlen Hall].
      * replace (_ ++ _) with ((Inb EC_COMMAND_PORT, st') :: busy (sts ++ [st]))
          by (by rewrite busy_app).
        apply waited_ready; [done|done|..].
        -- rewrite length_app. simpl. lia.
        -- apply Forall_app. split; [done|]. by constructor.
      * replace (_ ++ _) with (busy (sts ++ [st])) by (by rewrite busy_app).
        apply waited_timeout.
        -- rewrite length_app. simpl. lia.
        -- apply Forall_app. split; [done|]. by constructor.
Qed.

Lemma wp_ec_wait_write h :
  wp ec_wait_write h (λ r h', ∃ polls, h' = extend polls h ∧ waited ibf_clear budget r polls).
Proof. unfold ec_wait_write. rewrite ec_wait_write_poll. apply wp_poll_from. Qed.

Lemma wp_ec_wait_read h :
  wp ec_wait_read h (λ r h', ∃ polls, h' = extend polls h ∧ waited obf_set budget r polls).
Proof. unfold ec_wait_read. rewrite ec_wait_read_poll. apply wp_poll_from. Qed.

Lemma land_byte v : 0 ≤ v < 256 → Z.land v 255 = v.
Proof.
  intros Hv. change 255 with (Z.ones 8). rewrite Z.land_ones by lia.
  apply Z.mod_small. lia.
Qed.

Lemma u8_byte v : 0 ≤ v < 256 → u8 v = v.
Proof. intros Hv. by apply Z.mod_small. Qed.
Lemma host_step_agrees a t0 hs hw hw' :
  agrees t0 hs hw → host_step a hw = Some hw' →
  ∃ hs', host_step a hs = Some hs' ∧ agrees t0 hs' hw'.
Proof.
  destruct hs as [l1 hp1 tb1 tr1], hw as [l2 hp2 tb2 tr2].
  intros (Hl & Hh & Ht & Htr) Hstep. simpl in *. subst.
  destruct a; unfold host_step, in_table in *; simpl in *;
    repeat case_match; simplify_eq; eexists; (split; [done|]);
    by repeat split.
Qed.

Lemma agrees_log e t0 hs hw : agrees t0 hs hw → agrees t0 (log e hs) (log e hw).
Proof. intros (Hl & Hh & Ht & Htr). repeat split; simpl; try done. by rewrite Htr. Qed.

Section sound.
Context `{Transport}.

Lemma ec_step_answers a e : answers a (ec_step a e).1.
Proof.
  destruct a; simpl; try done. destruct (port_in port e) as [v e']. simpl.
  unfold u8. apply Z.mod_pos_bound. lia.
Qed.

Lemma wp_run_agrees {A} (p : prog A) s hw t0 post :
  wp p hw post → agrees t0 (host s) hw →
  ∃ r s' hw', run p s = Some (r, s') ∧ post r hw' ∧ agrees t0 (host s') hw'.
Proof.
  revert s hw. induction p as [a|a k IH]; simpl; intros s hw Hwp Hag.
  - by exists a, s, hw.
  - pose proof (ec_step_answers a (ec s)) as Hans.
    destruct (Hwp _ Hans) as (hw' & Hstep & Hk).
    destruct (host_step_agrees _ _ _ _ _ Hag Hstep) as (hs' & Hstep' & Hag').
    unfold do_action. rewrite Hstep'. simpl.
    destruct (ec_step a (ec s)) as [resp e'] eqn:He. simpl in *.
    eapply IH; [done|]. simpl. by apply agrees_log.
Qed.

Lemma since_app h h' new : trace h' = new ++ trace h → since h h' = rev new.
Proof.
  intros Htr. unfold since. rewrite Htr, length_app.
  replace (length new + length (trace h) - length (trace h))%nat with (length new) by lia.
  by rewrite take_app_length.
Qed.

Lemma wp_run {A} (p : prog A) s post :
  wp p (forget (host s)) post →
  ∃ r s' h', run p s = Some (r, s') ∧ post r h' ∧
    lock (host s') = lock h' ∧ heap (host s') = heap h' ∧
    dym_tbl (host s') = dym_tbl h' ∧ since (host s) (host s') = rev (trace h').
Proof.
  intros Hwp.
  destruct (wp_run_agrees p s (forget (host s)) (trace (host s)) post Hwp)
    as (r & s' & h' & Hrun & Hpost & Hl & Hh & Ht & Htr); [by repeat split|].
  exists r, s', h'. repeat split; try done. by apply since_app.
Qed.
End sound.

(** rules *)
Section rules.
Context {B : Type}.
Implicit Types (h : host_state) (post : B → host_state → Prop).

Lemma wp_wait_write_or_goto (lbl k : Z → prog B) h post :
  (∀ sts, length sts = budget → Forall (λ st, ibf_clear st = false) sts →
     wp (lbl (- ETIMEDOUT)) (extend (busy sts) h) post) →
  (∀ st sts, ibf_clear st = true → 0 ≤ st < 256 → (length sts < budget)%nat →
     wp (k 0) (extend ((Inb EC_COMMAND_PORT, st) :: busy sts) h) post) →
  wp (ec_wait_write ≫= λ x, if bool_decide (x ≠ 0) then lbl x else k x) h post.
Proof.
  intros Hto Hok. apply wp_bind. eapply wp_mono; [apply wp_ec_wait_write|].
  intros r h' (polls & -> & [st sts Hr Hb Hlen Hall|sts Hlen Hall]).
  - rewrite bool_decide_false by lia. by apply Hok.
  - rewrite bool_decide_true by done. by apply Hto.
Qed.

Lemma wp_wait_read_or_goto (lbl k : Z → prog B) h post :
  (∀ sts, length sts = budget → Forall (λ st, obf_set st = false) sts →
     wp (lbl (- ETIMEDOUT)) (extend (busy sts) h) post) →
  (∀ st sts, obf_set st = true → 0 ≤ st < 256 → (length sts < budget)%nat →
     wp (k 0) (extend ((Inb EC_COMMAND_PORT, st) :: busy sts) h) post) →
  wp (ec_wait_read ≫= λ x, if bool_decide (x ≠ 0) then lbl x else k x) h post.
Proof.
  intros Hto Hok. apply wp_bind. eapply wp_mono; [apply wp_ec_wait_read|].
  intros r h' (polls & -> & [st sts Hr Hb Hlen Hall|sts Hlen Hall]).
  - rewrite bool_decide_false by lia. by apply Hok.
  - rewrite bool_decide_true by done. by apply Hto.
Qed.

Lemma wp_act_unit a (k : unit → prog B) h h' post :
  host_step a h = Some h' →
  match a with Inb _ => False | _ => True end →
  wp (k tt) (log (a, 0) h') post →
  wp (Act a (λ _, Ret tt) ≫= k) h post.
Proof.
  intros Hstep Ha Hk. simpl. intros resp Hresp. exists h'. split; [done|].
  destruct a; simpl in *; try done; by subst.
Qed.

Lemma wp_inb port (k : Z → prog B) h post :
  (∀ v, 0 ≤ v < 256 → wp (k v) (log (Inb port, v) h) post) →
  wp (inb port ≫= k) h post.
Proof. intros Hk. simpl. intros v Hv. exists h. split; [done|]. by apply Hk. Qed.
End rules.

(** Symbolic execution of a program, one statement at a time. *)
Ltac wp_norm :=
  cbv beta zeta; unfold log, extend, forget; cbn [trace lock heap dym_tbl app].

Ltac wp_step :=
  lazymatch goal with
  | |- wp (ec_wait_write ≫= _) _ _ =>
      apply wp_wait_write_or_goto; [intros ? ? ?|intros ? ? ? ? ?]
  | |- wp (ec_wait_read ≫= _) _ _ =>
      apply wp_wait_read_or_goto; [intros ? ? ?|intros ? ? ? ? ?]
  | |- wp (inb _ ≫= _) _ _ =>
      let v := fresh "v" in let Hv := fresh "Hv" in
      apply wp_inb; intros v Hv; rewrite ?(land_byte v Hv)
  | |- wp (mutex_lock ≫= _) _ _ => eapply wp_act_unit; [reflexivity|exact I|]
  | |- wp (mutex_unlock ≫= _) _ _ => eapply wp_act_unit; [reflexivity|exact I|]
  | |- wp (outb _ _ ≫= _) _ _ => eapply wp_act_unit; [reflexivity|exact I|]
  | |- wp (store_byte _ _ ≫= _) _ _ => eapply wp_act_unit; [reflexivity|exact I|]
  | |- wp (if bool_decide _ then _ else _) _ _ => case_bool_decide
  | |- wp (error _) _ _ => unfold error
  | |- wp pass _ _ => unfold pass
  | |- wp invalid_pin _ _ => unfold invalid_pin
  | |- wp (mret _) _ _ => change (wp (mret ?r) ?h ?post) with (post r h)
  end; wp_norm.

(** ** Observations of symbolic traces *)

Lemma omap_rev {X Y} (f : X → option Y) l : omap f (rev l) = rev (omap f l).
Proof.
  induction l as [|x l IH]; [done|].
  change (rev (x :: l)) with (rev l ++ [x]). rewrite omap_app, IH.
  simpl. destruct (f x) eqn:Hx; simpl; [done|]. by rewrite app_nil_r.
Qed.

Lemma fmap_rev {X Y} (f : X → Y) l : f <$> rev l = rev (f <$> l).
Proof.
  induction l as [|x l IH]; [done|].
  change (rev (x :: l)) with (rev l ++ [x]). rewrite fmap_app, IH. done.
Qed.

Lemma lock_events_busy sts l : omap lock_event (busy sts ++ l) = omap lock_event l.
Proof. by induction sts. Qed.
Lemma data_reads_busy sts l : omap data_read (busy sts ++ l) = omap data_read l.
Proof. by induction sts. Qed.
Lemma port_writes_busy sts l : omap port_write (busy sts ++ l) = omap port_write l.
Proof. by induction sts. Qed.
Lemma stores_busy sts l : omap store_of (busy sts ++ l) = omap store_of l.
Proof. by induction sts. Qed.
Lemma exchange_busy sts l : omap exchanged (busy sts ++ l) = omap exchanged l.
Proof. by induction sts. Qed.

Lemma handshake_rev_busy sts l : handshake_rev (busy sts ++ l) = handshake_rev l.
Proof. by induction sts. Qed.

Lemma last_busy sts l : l ≠ [] → last (busy sts ++ l) = last l.
Proof.
  intros Hl. rewrite last_app. destruct (last l) eqn:Hlast; [done|].
  by apply last_None in Hlast.
Qed.

Lemma handshake_from_snoc prev tr e :
  handshake_from prev (tr ++ [e]) =
  handshake_from prev tr && permitted (match last tr with Some e' => Some e' | None => prev end) e.
Proof.
  revert prev. induction tr as [|e' tr IH]; intros prev; simpl.
  - by rewrite andb_true_r.
  - rewrite IH, andb_assoc. f_equal. f_equal. by destruct tr as [|e'' tr]; simpl;
      [|destruct (last (e'' :: tr)) eqn:Hl; [|by apply last_None in Hl]].
Qed.

Lemma last_rev {X} (l : list X) : last (rev l) = head l.
Proof. destruct l as [|x l]; [done|]. simpl. by rewrite last_snoc. Qed.

Lemma head_rev {X} (l : list X) : head (rev l) = last l.
Proof. by rewrite <-(rev_involutive l) at 2; rewrite last_rev. Qed.

Lemma handshake_rev_spec l : handshake (rev l) = handshake_rev l.
Proof.
  unfold handshake. induction l as [|e l IH]; [done|].
  simpl. rewrite handshake_from_snoc, IH, last_rev, andb_comm.
  by destruct (head l).
Qed.

Lemma last_skip_busy {e : event} sts e' l :
  last (e :: busy sts ++ e' :: l) = last (e' :: l).
Proof.
  change (e :: busy sts ++ e' :: l) with ((e :: busy sts) ++ e' :: l).
  rewrite last_app. destruct (last (e' :: l)) eqn:Hl; [done|]. by apply last_None in Hl.
Qed.

Lemma cmd_eqb_data : (EC_COMMAND_PORT =? EC_STATUS_PORT) = false.
Proof. done. Qed.
Lemma data_eqb_cmd : (EC_STATUS_PORT =? EC_COMMAND_PORT) = false.
Proof. done. Qed.

Lemma exchanged_status_read st : exchanged (Inb EC_COMMAND_PORT, st) = None.
Proof. done. Qed.
Lemma exchanged_data_read v :
  exchanged (Inb EC_STATUS_PORT, v) = Some (Inb EC_STATUS_PORT, v).
Proof. done. Qed.

Ltac use_ready :=
  repeat match goal with
  | H : ibf_clear ?st = true |- context [ibf_clear ?st] => rewrite H
  | H : obf_set ?st = true |- context [obf_set ?st] => rewrite H
  end.

Ltac obs :=
  unfold lock_events, data_reads, port_writes, stores, exchange;
  rewrite ?handshake_rev_spec, ?omap_rev, ?last_rev, ?head_rev;
  repeat (progress (cbn [omap list_omap lock_event data_read port_write store_of exchanged
                     is_port_access is_poll fst snd negb andb rev app head last
                     handshake_rev permitted saw];
          rewrite ?lock_events_busy, ?data_reads_busy, ?port_writes_busy, ?stores_busy,
            ?exchange_busy, ?handshake_rev_busy, ?last_skip_busy,
            ?Z.eqb_refl, ?cmd_eqb_data, ?data_eqb_cmd,
            ?exchanged_status_read, ?exchanged_data_read;
          use_ready)).

Lemma wp_simple_discipline o hp tb :
  simple o →
  wp (call o) {| lock := false; heap := hp; dym_tbl := tb; trace := [] |} (λ r h',
    lock h' = false ∧
    head (rev (trace h')) = Some (MutexLock, 0) ∧
    last (rev (trace h')) = Some (MutexUnlock, 0) ∧
    lock_events (rev (trace h')) = [MutexLock; MutexUnlock] ∧
    handshake (rev (trace h')) = true).
Proof.
  destruct o; intros []; cbn [call];
    unfold read_hw_ram, write_hw_ram, read_acpi_value, write_acpi_value,
      read_gpio_status, write_gpio_status, read_gpio_dir, write_gpio_dir,
      read_ad_value, write_hwram_command;
    repeat wp_step; obs; done.
Qed.

(** The sentinel exit of the pin-indexed operations. *)
Lemma wp_invalid_pin o opc pin hp tb :
  pin_indexed o = Some (opc, pin) →
  wp (call o) {| lock := false; heap := hp; dym_tbl := tb; trace := [] |} (λ r h',
    head (data_reads (rev (trace h'))) = Some 0xff →
    r = -1 ∧
    ∃ l, trace h' = (MutexUnlock, 0) :: (Inb EC_STATUS_PORT, 0xff) :: l ∧
      exchange (rev l) = [(Outb opc EC_COMMAND_PORT, 0); (Outb (u8 pin) EC_STATUS_PORT, 0)]).
Proof.
  destruct o; intros [= <- <-]; cbn [call];
    unfold read_gpio_status, write_gpio_status, read_gpio_dir, write_gpio_dir,
      read_ad_value;
    repeat wp_step; obs; intros Hhd; simplify_eq.
  all: split; [done|]; eexists; split; [done|]; by obs.
Qed.

(** The byte written through the caller's pointer. *)
Lemma wp_byte_pointer o p hp tb :
  byte_pointer o = Some p →
  wp (call o) {| lock := false; heap := hp; dym_tbl := tb; trace := [] |} (λ r h',
    (r = 0 ∧ ∃ v, last (data_reads (rev (trace h'))) = Some v ∧
       stores (rev (trace h')) = [(p, v)] ∧ heap h' = <[p := v]> hp) ∨
    ((r = - ETIMEDOUT ∨ r = -1) ∧ stores (rev (trace h')) = [] ∧ heap h' = hp)).
Proof.
  destruct o; intros [= <-]; cbn [call];
    unfold read_hw_ram, read_acpi_value, read_gpio_status, read_gpio_dir;
    repeat wp_step; obs; try (right; by auto).
  all: left; split; [done|]; eexists; rewrite (u8_byte _ Hv0) || rewrite (u8_byte _ Hv); done.
Qed.

(** The arithmetic of [read_ad_value] does not wrap around. *)
Lemma ad_value_spec low high multi :
  0 ≤ low < 256 → 0 ≤ high < 256 → 0 ≤ multi < 256 →
  ad_value low high multi = Z.land (Z.lor (Z.shiftl high 8) low) 0x03FF * multi * 100 ∧
  0 ≤ ad_value low high multi.
Proof.
  intros Hlow Hhigh Hmulti. unfold ad_value, u32, s32.
  assert (0 ≤ Z.shiftl high 8 < 2 ^ 32) as Hsh.
  { rewrite Z.shiftl_mul_pow2 by lia. lia. }
  rewrite (Z.mod_small (Z.shiftl high 8)) by done.
  assert (0 ≤ Z.land (Z.lor (Z.shiftl high 8) low) 1023 < 1024) as Hraw.
  { change 1023 with (Z.ones 10). rewrite Z.land_ones by lia. apply Z.mod_pos_bound. lia. }
  set (raw := Z.land _ _) in *.
  rewrite (Z.mod_small (raw * multi)) by nia.
  rewrite (Z.mod_small (raw * multi * 100)) by nia.
  rewrite bool_decide_true by nia. nia.
Qed.

Lemma wp_read_ad_value hwpin multi hp tb :
  0 ≤ multi < 256 →
  wp (read_ad_value hwpin multi) {| lock := false; heap := hp; dym_tbl := tb; trace := [] |}
    (λ r h',
      r = - ETIMEDOUT ∨ r = -1 ∨
      ∃ idx low high,
        exchange (rev (trace h')) =
          [ (Outb EC_AD_INDEX_WRITE EC_COMMAND_PORT, 0); (Outb (u8 hwpin) EC_STATUS_PORT, 0);
            (Inb EC_STATUS_PORT, idx);
            (Outb EC_AD_LSB_READ EC_COMMAND_PORT, 0); (Inb EC_STATUS_PORT, low);
            (Outb EC_AD_MSB_READ EC_COMMAND_PORT, 0); (Inb EC_STATUS_PORT, high) ] ∧
        idx ≠ 0xff ∧ 0 ≤ low < 256 ∧ 0 ≤ high < 256 ∧
        r = Z.land (Z.lor (Z.shiftl high 8) low) 0x03FF * multi * 100 ∧ 0 ≤ r).
Proof.
  intros Hmulti. unfold read_ad_value. repeat wp_step; obs; auto.
  right; right. eexists _, _, _. split; [done|].
  rewrite (u8_byte multi) by done.
  destruct (ad_value_spec v0 v1 multi) as [-> ?]; auto.
Qed.

(** ** The history before a call does not matter *)

Lemma wp_agrees {A} (p : prog A) t0 h hw post :
  wp p hw post → agrees t0 h hw →
  wp p h (λ r h', ∃ hw', post r hw' ∧ agrees t0 h' hw').
Proof.
  revert h hw. induction p as [a|a k IH]; simpl; intros h hw Hwp Hag.
  - by exists hw.
  - intros resp Hresp. destruct (Hwp resp Hresp) as (hw' & Hstep & Hk).
    destruct (host_step_agrees _ _ _ _ _ Hag Hstep) as (h' & Hstep' & Hag').
    exists h'. split; [done|]. eapply IH; [done|]. by apply agrees_log.
Qed.

Lemma wp_frame {A} (p : prog A) l hp tb tr (post : A → host_state → Prop) post' :
  wp p {| lock := l; heap := hp; dym_tbl := tb; trace := [] |} post' →
  (∀ r l' hp' tb' tr', post' r {| lock := l'; heap := hp'; dym_tbl := tb'; trace := tr' |} →
     post r {| lock := l'; heap := hp'; dym_tbl := tb'; trace := tr' ++ tr |}) →
  wp p {| lock := l; heap := hp; dym_tbl := tb; trace := tr |} post.
Proof.
  intros Hwp Hpost. eapply wp_mono.
  - eapply wp_agrees; [done|]. by repeat split.
  - intros r [l1 hp1 tb1 tr1] ([l2 hp2 tb2 tr2] & Hp & Hl & Hh & Ht & Htr).
    simpl in *. subst. by apply Hpost.
Qed.

(** ** Writing the table *)

Lemma wp_set_device_id {B} i v (k : unit → prog B) h post :
  in_table i h →
  wp (k tt) {| lock := lock h; heap := heap h;
               dym_tbl := alter (with_device_id (u8 v)) (Z.to_nat i) (dym_tbl h);
               trace := (SetDeviceId i (u8 v), 0) :: trace h |} post →
  wp (set_device_id i v ≫= k) h post.
Proof.
  intros Hi Hk. simpl. intros ? ->. eexists. split.
  - by rewrite bool_decide_true.
  - exact Hk.
Qed.

Lemma wp_set_hw_pin_num {B} i v (k : unit → prog B) h post :
  in_table i h →
  wp (k tt) {| lock := lock h; heap := heap h;
               dym_tbl := alter (with_hw_pin_num (u8 v)) (Z.to_nat i) (dym_tbl h);
               trace := (SetHwPinNum i (u8 v), 0) :: trace h |} post →
  wp (set_hw_pin_num i v ≫= k) h post.
Proof.
  intros Hi Hk. simpl. intros ? ->. eexists. split.
  - by rewrite bool_decide_true.
  - exact Hk.
Qed.

Lemma alter_middle {X} (f : X → X) done x rest :
  alter f (length done) (done ++ x :: rest) = done ++ f x :: rest.
Proof. by rewrite <-(Nat.add_0_r (length done)), alter_app_r. Qed.

Lemma wp_tab_clear n l hp done rest tr :
  length rest = n →
  wp (tab_clear n (Z.of_nat (length done)))
    {| lock := l; heap := hp; dym_tbl := done ++ rest; trace := tr |}
    (λ _ h', h' = {| lock := l; heap := hp; dym_tbl := done ++ replicate n sentinel;
                     trace := clears n (Z.of_nat (length done)) ++ tr |}).
Proof.
  revert done rest tr. induction n as [|n IH]; intros done rest tr Hlen.
  - destruct rest; [|done]. done.
  - destruct rest as [|x rest]; [done|]. injection Hlen as Hlen.
    cbn [tab_clear].
    apply wp_set_device_id.
    { unfold in_table. simpl. rewrite length_app. simpl. lia. }
    apply wp_set_hw_pin_num.
    { unfold in_table. simpl. rewrite length_alter, length_app. simpl. lia. }
    cbn [lock heap dym_tbl trace]. rewrite Nat2Z.id, !alter_middle.
    replace (Z.of_nat (length done) + 1) with (Z.of_nat (length (done ++ [sentinel])))
      by (rewrite length_app; simpl; lia).
    replace (done ++ _ :: rest) with ((done ++ [sentinel]) ++ rest)
      by (by rewrite <-app_assoc).
    eapply wp_mono; [by apply IH|]. intros _ h' ->. f_equal.
    + by rewrite <-app_assoc.
    + cbn [clears]. rewrite <-app_assoc. f_equal.
      rewrite length_app. simpl. do 2 f_equal; lia.
Qed.

Ltac solve_in_table :=
  unfold in_table; cbn [dym_tbl];
  rewrite ?length_alter, ?length_app, ?length_replicate; simpl; lia.

Ltac wp_step' :=
  lazymatch goal with
  | |- wp (set_device_id _ _ ≫= _) _ _ => apply wp_set_device_id; [solve_in_table|]; wp_norm
  | |- wp (set_hw_pin_num _ _ ≫= _) _ _ => apply wp_set_hw_pin_num; [solve_in_table|]; wp_norm
  | |- _ => wp_step
  end.

Ltac norm_app := repeat (cbn [app]; rewrite <-?app_assoc).

Ltac scan_leaf :=
  unfold scan_post; cbn [lock heap dym_tbl trace];
  split; [done|]; split; [done|]; split; [auto|];
  split;
  [ eexists; split; [reflexivity|]; split; [by obs|]; split;
    [ intros ?; first [done | eexists _, _; split; [reflexivity|done]]
    | intros ? X HX; try done ]
  | split; [intros X; norm_app; by obs|] ].

Lemma scanned_timeout_at n i item pin dev (k : nat) exch :
  exch = take k (slot_exchange i item pin dev) →
  (k < 7)%nat → ((3 ≤ k)%nat → item ≠ 0xff) → ((5 ≤ k)%nat → pin ≠ 0xff) →
  scanned (S n) i exch (- ETIMEDOUT) [].
Proof. intros ->. apply scanned_timeout. Qed.

Lemma scanned_no_item_at n i exch :
  exch = take 3 (slot_exchange i 0xff 0 0) → scanned (S n) i exch 0 [].
Proof. intros ->. apply scanned_no_item. Qed.

Lemma scanned_no_pin_at n i item exch :
  exch = take 5 (slot_exchange i item 0xff 0) → item ≠ 0xff → scanned (S n) i exch 0 [].
Proof. intros ->. apply scanned_no_pin. Qed.

Tactic Notation "scan_exit" uconstr(c) :=
  exists []; split;
  [ obs; eapply c; [reflexivity|..]; first [lia | by intros]
  | by rewrite Nat.sub_0_r ].

Lemma wp_tab_scan n hp done :
  wp (tab_scan n (Z.of_nat (length done)))
    {| lock := true; heap := hp; dym_tbl := done ++ replicate n sentinel; trace := [] |}
    (scan_post n hp done).
Proof.
  revert done. induction n as [|n IH]; intros done.
  - cbn [tab_scan]. repeat wp_step'. scan_leaf.
    + by destruct X as [|[[] ?] ?].
    + exists []. split; [constructor|]. done.
  - cbn [tab_scan]. unfold tab_item. repeat wp_step'.
    1-9: scan_leaf.
    + scan_exit (scanned_timeout_at n _ 0 0 0 0%nat).
    + scan_exit (scanned_timeout_at n _ 0 0 0 1%nat).
    + scan_exit (scanned_timeout_at n _ 0 0 0 2%nat).
    + subst v. scan_exit (scanned_no_item_at n).
    + scan_exit (scanned_timeout_at n _ v 0 0 3%nat).
    + scan_exit (scanned_timeout_at n _ v 0 0 4%nat).
    + match goal with H : v0 = _ |- _ => rewrite H end.
      scan_exit (scanned_no_pin_at n _ v).
    + scan_exit (scanned_timeout_at n _ v v0 0 5%nat).
    + scan_exit (scanned_timeout_at n _ v v0 0 6%nat).
    + rewrite Nat2Z.id, !(u8_byte v0), !(u8_byte v1) by done.
      change (replicate (S n) sentinel) with (sentinel :: replicate n sentinel).
      rewrite !alter_middle.
      change (with_hw_pin_num v0 (with_device_id v1 sentinel))
        with {| device_id := v1; hw_pin_num := v0 |}.
      set (entry := {| device_id := v1; hw_pin_num := v0 |}).
      replace (Z.of_nat (length done) + 1) with (Z.of_nat (length (done ++ [entry])))
        by (rewrite length_app; simpl; lia).
      replace (done ++ entry :: replicate n sentinel)
        with ((done ++ [entry]) ++ replicate n sentinel) by (by rewrite <-app_assoc).
      eapply wp_frame; [apply IH|].
      intros r l' hp' tb' tr' (Hl & Hh & Hr & (T & HT & Hlocks & Hto & Hok) & Hhs & es & Hes & Htb).
      cbn [lock heap dym_tbl trace] in *. subst.
      set (E := rev (omap exchanged ((MutexUnlock, 0) :: T))) in *.
      unfold scan_post; cbn [lock heap dym_tbl trace].
      split; [done|]. split; [done|]. split; [done|]. split; [|split].
      * rewrite <-app_comm_cons. eexists. split; [reflexivity|].
        split; [rewrite omap_app, Hlocks; by obs|]. split.
        -- intros Hr'. destruct (Hto Hr') as (sts' & T' & -> & Hlen).
           eexists sts', _. split; [by rewrite <-app_assoc|done].
        -- intros Hr' X HX. rewrite <-app_assoc. by apply (Hok Hr').
      * intros X. rewrite <-app_assoc, Hhs. norm_app. by obs.
      * exists (entry :: es). split.
        -- rewrite omap_app, rev_app_distr. fold E. obs.
           apply (scanned_slot n _ v v0 v1); try done.
           replace (Z.of_nat (length done) + 1) with (Z.of_nat (length (done ++ [entry])));
             [done|]. rewrite length_app. simpl. lia.
        -- by rewrite <-app_assoc.
Qed.

Lemma omap_clears {Y} (f : event → option Y) n i l :
  (∀ j v, f (SetHwPinNum j v, 0) = None ∧ f (SetDeviceId j v, 0) = None) →
  omap f (clears n i ++ l) = omap f l.
Proof.
  intros Hf. revert i l. induction n as [|n IH]; intros i l; [done|].
  cbn [clears]. rewrite <-app_assoc, IH. simpl.
  by destruct (Hf i 255) as [-> ->].
Qed.

Lemma handshake_rev_clears n i l : handshake_rev (clears n i ++ l) = handshake_rev l.
Proof.
  revert i l. induction n as [|n IH]; intros i l; [done|].
  cbn [clears]. by rewrite <-app_assoc, IH.
Qed.

Lemma no_delay_head_clears n i l : no_delay_head l → no_delay_head (clears n i ++ l).
Proof.
  revert i l. induction n as [|n IH]; intros i l Hl; [done|].
  cbn [clears]. rewrite <-app_assoc. by apply IH.
Qed.

Lemma budget_pos : (0 < budget)%nat.
Proof. unfold budget, EC_MAX_TIMEOUT_COUNT. lia. Qed.

Lemma wp_adv_get_dynamic_tab hp tb :
  length tb = Z.to_nat EC_MAX_TBL_NUM →
  wp adv_get_dynamic_tab {| lock := false; heap := hp; dym_tbl := tb; trace := [] |}
    (tab_post hp).
Proof.
  intros Hlen. unfold adv_get_dynamic_tab. wp_step.
  apply wp_bind. eapply wp_mono; [by apply (wp_tab_clear _ _ _ [] tb)|].
  intros _ h' ->. eapply wp_frame; [apply (wp_tab_scan _ hp [])|].
  intros r l' hp' tb' tr'
    (Hl & Hh & Hr & (T & HT & Hlocks & Hto & Hok) & Hhs & es & Hes & Htb).
  cbn [lock heap dym_tbl trace length] in *. subst.
  set (n := Z.to_nat EC_MAX_TBL_NUM) in *.
  unfold tab_post; cbn [lock heap dym_tbl trace].
  split; [done|]. split; [done|]. split; [done|].
  split; [by rewrite head_rev, !app_assoc, last_snoc|].
  split; [by rewrite last_rev|].
  split.
  { unfold lock_events. rewrite omap_rev. cbn [omap list_omap lock_event fst app].
    rewrite omap_app, Hlocks, omap_clears by done. done. }
  split.
  { rewrite handshake_rev_spec, Hhs. by rewrite handshake_rev_clears. }
  split.
  { unfold timed_out. rewrite rev_involutive. split.
    - intros Hr'. destruct (Hto Hr') as (sts & T' & -> & Hsts).
      pose proof budget_pos. by destruct sts as [|st sts]; [simpl in *; lia|].
    - intros Hd. destruct Hr as [->| ->]; [|done].
      rewrite <-app_comm_cons, Hok in Hd; [done|done|].
      by apply no_delay_head_clears.
  }
  exists es. split; [|done].
  unfold exchange. rewrite omap_rev, omap_app, omap_clears by done.
  by rewrite app_nil_r.
Qed.

Lemma wp_discipline o hp tb :
  length tb = Z.to_nat EC_MAX_TBL_NUM →
  wp (call o) {| lock := false; heap := hp; dym_tbl := tb; trace := [] |} (λ r h',
    lock h' = false ∧
    head (rev (trace h')) = Some (MutexLock, 0) ∧
    last (rev (trace h')) = Some (MutexUnlock, 0) ∧
    lock_events (rev (trace h')) = [MutexLock; MutexUnlock] ∧
    handshake (rev (trace h')) = true).
Proof.
  intros Hlen. destruct o; try (by apply wp_simple_discipline).
  eapply wp_mono; [by apply wp_adv_get_dynamic_tab|].
  intros r h' (? & ? & ? & ? & ? & ? & ? & ?). done.
Qed.

(** From all executions to the execution against a given controller. *)
Lemma run_of_wp `{Transport} {A} (p : prog A) (s : system _) post :
  lock (host s) = false →
  (∀ hp tb, length tb = length (dym_tbl (host s)) →
     wp p {| lock := false; heap := hp; dym_tbl := tb; trace := [] |} (post hp)) →
  ∃ r s' h', run p s = Some (r, s') ∧ post (heap (host s)) r h' ∧
    lock (host s') = lock h' ∧ heap (host s') = heap h' ∧
    dym_tbl (host s') = dym_tbl h' ∧ since (host s) (host s') = rev (trace h').
Proof.
  intros Hlock Hwp. apply wp_run. unfold forget. rewrite Hlock. by apply Hwp.
Qed.

Section operations.
Context `{Transport}.
Implicit Types (s : system _) (o : op).

(** C1: every protocol operation takes the transaction mutex first and
    releases it last, exactly once each, whatever the controller answers
    (success, poll timeout, sentinel pin): called with the mutex free, it
    returns with the mutex free. *)
Theorem lock_released_exactly_once o s :
  lock (host s) = false → table_allocated (host s) →
  ∃ r s', run (call o) s = Some (r, s') ∧
    lock (host s') = lock (host s) ∧
    head (since (host s) (host s')) = Some (MutexLock, 0) ∧
    last (since (host s) (host s')) = Some (MutexUnlock, 0) ∧
    lock_events (since (host s) (host s')) = [MutexLock; MutexUnlock].
Proof.
  intros Hlock Htb.
  destruct (run_of_wp (call o) s _ Hlock
              (λ hp tb Hlen, wp_discipline o hp tb (eq_trans Hlen Htb)))
    as (r & s' & h' & Hrun & (Hl & Hhd & Hlast & Hev & _) & Hl' & _ & _ & Hsince).
  exists r, s'. rewrite Hsince, Hlock, Hl'. done.
Qed.

(** C7: in the trace of every protocol operation, each write to a port
    comes right after a read of the status bits that showed IBF clear, and
    each read of the data port right after one that showed OBF set. *)
Theorem handshake_respected o s :
  lock (host s) = false → table_allocated (host s) →
  ∃ r s', run (call o) s = Some (r, s') ∧
    handshake (since (host s) (host s')) = true.
Proof.
  intros Hlock Htb.
  destruct (run_of_wp (call o) s _ Hlock
              (λ hp tb Hlen, wp_discipline o hp tb (eq_trans Hlen Htb)))
    as (r & s' & h' & Hrun & (_ & _ & _ & _ & Hhs) & _ & _ & _ & Hsince).
  exists r, s'. by rewrite Hsince.
Qed.

(** C4: in a pin-indexed operation, when the first byte read from the data
    port (the readback of the pin index) is the sentinel [0xff], the
    operation returns [-1], and that read is its last port access: before
    it only the index opcode and the pin were exchanged, after it only the
    mutex is released. *)
Theorem invalid_pin_stops_the_operation o opc pin s :
  pin_indexed o = Some (opc, pin) → lock (host s) = false →
  ∃ r s', run (call o) s = Some (r, s') ∧
    (head (data_reads (since (host s) (host s'))) = Some 0xff →
     r = -1 ∧
     ∃ pre, since (host s) (host s') =
              pre ++ [(Inb EC_STATUS_PORT, 0xff); (MutexUnlock, 0)] ∧
       exchange pre =
         [(Outb opc EC_COMMAND_PORT, 0); (Outb (u8 pin) EC_STATUS_PORT, 0)]).
Proof.
  intros Ho Hlock.
  destruct (run_of_wp (call o) s _ Hlock (λ hp tb _, wp_invalid_pin o opc pin hp tb Ho))
    as (r & s' & h' & Hrun & Hpost & _ & _ & _ & Hsince).
  exists r, s'. split; [done|]. rewrite Hsince. intros Hhd.
  destruct (Hpost Hhd) as (-> & l & -> & Hex). split; [done|].
  exists (rev l). split; [|done]. simpl. by rewrite <-app_assoc.
Qed.

(** C10: a byte-returning read writes through the caller's pointer exactly
    when it returns [0], and then the byte it last read from the data port;
    when it ends in [-ETIMEDOUT] or [-1] nothing is stored and the pointed-to
    byte is what it was. *)
Theorem output_written_only_on_success o p s :
  byte_pointer o = Some p → lock (host s) = false →
  ∃ r s', run (call o) s = Some (r, s') ∧
    ((r = 0 ∧ ∃ v, last (data_reads (since (host s) (host s'))) = Some v ∧
        stores (since (host s) (host s')) = [(p, v)] ∧
        heap (host s') = <[p := v]> (heap (host s))) ∨
     ((r = - ETIMEDOUT ∨ r = -1) ∧
        stores (since (host s) (host s')) = [] ∧
        heap (host s') = heap (host s))).
Proof.
  intros Ho Hlock.
  destruct (run_of_wp (call o) s _ Hlock (λ hp tb _, wp_byte_pointer o p hp tb Ho))
    as (r & s' & h' & Hrun & Hpost & _ & Hheap & _ & Hsince).
  exists r, s'. split; [done|]. by rewrite Hsince, Hheap.
Qed.

(** C3: [read_ad_value] ends in [-ETIMEDOUT], in [-1], or with the full
    exchange, and then, for the bytes [low] and [high] that answered the LSB
    and MSB opcodes and the multiplier byte, it returns
    [(((high << 8) | low) & 0x03FF) * multi * 100]; for [0x34], [0x01] and
    [2] that is [61600]. *)
Theorem read_ad_value_scaled hwpin multi s :
  0 ≤ multi < 256 → lock (host s) = false →
  (∃ r s', run (read_ad_value hwpin multi) s = Some (r, s') ∧
    (r = - ETIMEDOUT ∨ r = -1 ∨
     ∃ idx low high,
       exchange (since (host s) (host s')) =
         [ (Outb EC_AD_INDEX_WRITE EC_COMMAND_PORT, 0);
           (Outb (u8 hwpin) EC_STATUS_PORT, 0); (Inb EC_STATUS_PORT, idx);
           (Outb EC_AD_LSB_READ EC_COMMAND_PORT, 0); (Inb EC_STATUS_PORT, low);
           (Outb EC_AD_MSB_READ EC_COMMAND_PORT, 0); (Inb EC_STATUS_PORT, high) ] ∧
       idx ≠ 0xff ∧ 0 ≤ low < 256 ∧ 0 ≤ high < 256 ∧
       r = Z.land (Z.lor (Z.shiftl high 8) low) 0x03FF * multi * 100 ∧ 0 ≤ r)) ∧
  ad_value 0x34 0x01 2 = 61600.
Proof.
  intros Hmulti Hlock. split; [|done].
  destruct (run_of_wp (read_ad_value hwpin multi) s _ Hlock
              (λ hp tb _, wp_read_ad_value hwpin multi hp tb Hmulti))
    as (r & s' & h' & Hrun & Hpost & _ & _ & _ & Hsince).
  exists r, s'. split; [done|]. by rewrite Hsince.
Qed.
End operations.

(** The theorems above, on the model controller. *)

Lemma lock_released_exactly_once_witness :
  (lock (host (Mock.start Mock.demo)) = false ∧
   table_allocated (host (Mock.start Mock.demo))) ∧
  ∃ r s', run (call (ReadAdValue 9 2)) (Mock.start Mock.demo) = Some (r, s') ∧
    lock (host s') = lock (host (Mock.start Mock.demo)) ∧
    head (since (host (Mock.start Mock.demo)) (host s')) = Some (MutexLock, 0) ∧
    last (since (host (Mock.start Mock.demo)) (host s')) = Some (MutexUnlock, 0) ∧
    lock_events (since (host (Mock.start Mock.demo)) (host s')) = [MutexLock; MutexUnlock].
Proof.
  split; [split; reflexivity|].
  apply (lock_released_exactly_once (H := Mock.transport)); reflexivity.
Defined.

Lemma handshake_respected_witness :
  (lock (host (Mock.start Mock.demo)) = false ∧
   table_allocated (host (Mock.start Mock.demo))) ∧
  ∃ r s', run (call AdvGetDynamicTab) (Mock.start Mock.demo) = Some (r, s') ∧
    handshake (since (host (Mock.start Mock.demo)) (host s')) = true.
Proof.
  split; [split; reflexivity|].
  apply (handshake_respected (H := Mock.transport)); reflexivity.
Defined.

Lemma invalid_pin_stops_the_operation_witness :
  (pin_indexed (ReadAdValue 9 2) = Some (EC_AD_INDEX_WRITE, 9) ∧
   lock (host (Mock.start Mock.demo)) = false) ∧
  ∃ r s', run (call (ReadAdValue 9 2)) (Mock.start Mock.demo) = Some (r, s') ∧
    head (data_reads (since (host (Mock.start Mock.demo)) (host s'))) = Some 0xff ∧
    r = -1 ∧
    ∃ pre, since (host (Mock.start Mock.demo)) (host s') =
             pre ++ [(Inb EC_STATUS_PORT, 0xff); (MutexUnlock, 0)] ∧
      exchange pre =
        [(Outb EC_AD_INDEX_WRITE EC_COMMAND_PORT, 0); (Outb (u8 9) EC_STATUS_PORT, 0)].
Proof.
  split; [split; reflexivity|].
  destruct (invalid_pin_stops_the_operation (H := Mock.transport)
              (ReadAdValue 9 2) EC_AD_INDEX_WRITE 9 (Mock.start Mock.demo) eq_refl eq_refl)
    as (r & s' & Hrun & Hstop).
  exists r, s'. split; [exact Hrun|].
  assert (head (data_reads (since (host (Mock.start Mock.demo)) (host s'))) = Some 0xff)
    as Hhd.
  { vm_compute in Hrun. injection Hrun as <- <-. vm_compute. reflexivity. }
  split; [exact Hhd|]. exact (Hstop Hhd).
Defined.

Lemma output_written_only_on_success_witness :
  (byte_pointer (ReadHwRam 0x5E 7) = Some 7%N ∧
   lock (host (Mock.start Mock.demo)) = false) ∧
  ∃ r s', run (call (ReadHwRam 0x5E 7)) (Mock.start Mock.demo) = Some (r, s') ∧
    ((r = 0 ∧ ∃ v, last (data_reads (since (host (Mock.start Mock.demo)) (host s'))) = Some v ∧
        stores (since (host (Mock.start Mock.demo)) (host s')) = [(7%N, v)] ∧
        heap (host s') = <[7%N := v]> (heap (host (Mock.start Mock.demo)))) ∨
     ((r = - ETIMEDOUT ∨ r = -1) ∧
        stores (since (host (Mock.start Mock.demo)) (host s')) = [] ∧
        heap (host s') = heap (host (Mock.start Mock.demo)))).
Proof.
  split; [split; reflexivity|].
  apply (output_written_only_on_success (H := Mock.transport)); reflexivity.
Defined.

Lemma read_ad_value_scaled_witness :
  (0 ≤ 2 < 256 ∧ lock (host (Mock.start Mock.demo)) = false) ∧
  (∃ r s', run (read_ad_value 5 2) (Mock.start Mock.demo) = Some (r, s') ∧
     (r = - ETIMEDOUT ∨ r = -1 ∨
      ∃ idx low high,
        exchange (since (host (Mock.start Mock.demo)) (host s')) =
          [ (Outb EC_AD_INDEX_WRITE EC_COMMAND_PORT, 0);
            (Outb (u8 5) EC_STATUS_PORT, 0); (Inb EC_STATUS_PORT, idx);
            (Outb EC_AD_LSB_READ EC_COMMAND_PORT, 0); (Inb EC_STATUS_PORT, low);
            (Outb EC_AD_MSB_READ EC_COMMAND_PORT, 0); (Inb EC_STATUS_PORT, high) ] ∧
        idx ≠ 0xff ∧ 0 ≤ low < 256 ∧ 0 ≤ high < 256 ∧
        r = Z.land (Z.lor (Z.shiftl high 8) low) 0x03FF * 2 * 100 ∧ 0 ≤ r)) ∧
  ad_value 0x34 0x01 2 = 61600.
Proof.
  split; [split; [lia|reflexivity]|].
  apply (read_ad_value_scaled (H := Mock.transport)); [lia|reflexivity].
Defined.

(** The run behind the example of C3: pin 5 of the model controller holds
    the bytes [0x34] and [0x01]. *)
Example read_ad_value_61600 :
  fst <$> run (read_ad_value 5 2) (Mock.start Mock.demo) = Some 61600.
Proof. vm_compute. reflexivity. Qed.


Lemma data_reads_slot_exchange i item pin dev exch :
  data_reads (slot_exchange i item pin dev ++ exch) = item :: pin :: dev :: data_reads exch.
Proof. done. Qed.

Lemma data_reads_slot_prefix i item pin dev (k : nat) :
  (k < 7)%nat →
  data_reads (take k (slot_exchange i item pin dev)) =
    if bool_decide (k < 3)%nat then []
    else if bool_decide (k < 5)%nat then [item] else [item; pin].
Proof. intros Hk. by do 7 (destruct k as [|k]; [done|]); lia. Qed.


Lemma scanned_defined n i exch r es item pin dev more :
  scanned n i exch r es →
  data_reads exch = item :: pin :: dev :: more → item ≠ 0xff → pin ≠ 0xff →
  ∃ n' exch' es',
    n = S n' ∧ exch = slot_exchange i item pin dev ++ exch' ∧
    es = {| device_id := dev; hw_pin_num := pin |} :: es' ∧
    scanned n' (i + 1) exch' r es' ∧ data_reads exch' = more.
Proof.
  intros Hscan Hreads Hitem Hpin.
  destruct Hscan as [i|n i item' pin' dev' k Hk Hitem' Hpin'|n i|n i item' Hitem'
                    |n i item' pin' dev' exch r es Hitem' Hpin' Hpinb Hdev Hscan].
  - done.
  - rewrite data_reads_slot_prefix in Hreads by done. by repeat case_bool_decide.
  - done.
  - done.
  - rewrite data_reads_slot_exchange in Hreads. simplify_eq. by eexists _, _, _.
Qed.

Lemma scanned_undefined n i exch r es more :
  scanned n i exch r es → data_reads exch = 0xff :: more →
  r = 0 ∧ more = [] ∧ es = [] ∧ exch = take 3 (slot_exchange i 0xff 0 0).
Proof.
  intros Hscan Hreads.
  destruct Hscan as [i|n i item' pin' dev' k Hk Hitem' Hpin'|n i|n i item' Hitem'
                    |n i item' pin' dev' exch r es Hitem' Hpin' Hpinb Hdev Hscan].
  - done.
  - rewrite data_reads_slot_prefix in Hreads by done.
    repeat case_bool_decide; simplify_eq; exfalso; apply Hitem'; [lia|done|lia|done].
  - by injection Hreads as <-.
  - by injection Hreads as Hreads.
  - rewrite data_reads_slot_exchange in Hreads. by simplify_eq.
Qed.

Lemma omap_cons {X Y} (f : X → option Y) x l :
  omap f (x :: l) = match f x with Some y => y :: omap f l | None => omap f l end.
Proof. done. Qed.

Lemma data_reads_exchange tr : data_reads (exchange tr) = data_reads tr.
Proof.
  unfold data_reads, exchange. induction tr as [|[a resp] tr IH]; [done|].
  rewrite !omap_cons.
  destruct a as [port| | | | | | |]; try done.
  destruct (decide (port = EC_COMMAND_PORT)) as [->|Hne].
  - by rewrite exchanged_status_read.
  - unfold exchanged, is_poll, is_port_access. cbn [fst snd].
    rewrite (proj2 (Z.eqb_neq _ _) Hne). cbn [negb andb].
    rewrite omap_cons. case_match; [f_equal|]; apply IH.
Qed.

Section discovery.
Context `{Transport}.
Implicit Types (s : system _) (o : op).

Lemma run_adv_get_dynamic_tab s :
  lock (host s) = false → table_allocated (host s) →
  ∃ r s' h', run adv_get_dynamic_tab s = Some (r, s') ∧ 
    tab_post (heap (host s)) r h' ∧
    lock (host s') = lock h' ∧ heap (host s') = heap h' ∧
    dym_tbl (host s') = dym_tbl h' ∧ since (host s) (host s') = rev (trace h').
Proof.
  intros Hlock Htb.
  apply (run_of_wp adv_get_dynamic_tab s tab_post Hlock).
  intros hp tb Hlen. apply wp_adv_get_dynamic_tab. by rewrite Hlen.
Qed.


(** C6: when the controller defines slots 0 and 1 and answers [0xff] for
    slot 2, discovery returns [0]; the sentinel is the last byte it reads,
    slot 2 is the last slot it selects, and the table holds the two entries
    followed by sentinel pairs only. *)
Theorem discovery_halts_at_first_undefined_slot s :
  lock (host s) = false → table_allocated (host s) →
  ∃ r s', run adv_get_dynamic_tab s = Some (r, s') ∧
    ∀ item0 pin0 dev0 item1 pin1 dev1 rest,
      data_reads (since (host s) (host s')) =
        [item0; pin0; dev0; item1; pin1; dev1; 0xff] ++ rest →
      item0 ≠ 0xff → pin0 ≠ 0xff → item1 ≠ 0xff → pin1 ≠ 0xff →
      r = 0 ∧ rest = [] ∧
      exchange (since (host s) (host s')) =
        slot_exchange 0 item0 pin0 dev0 ++ slot_exchange 1 item1 pin1 dev1 ++
        take 3 (slot_exchange 2 0xff 0 0) ∧
      last (since (host s) (host s')) = Some (MutexUnlock, 0) ∧
      dym_tbl (host s') =
        [ {| device_id := dev0; hw_pin_num := pin0 |};
          {| device_id := dev1; hw_pin_num := pin1 |} ] ++
        replicate (Z.to_nat EC_MAX_TBL_NUM - 2) sentinel.
Proof.
  intros Hlock Htb.
  destruct (run_adv_get_dynamic_tab s Hlock Htb)
    as (r & s' & h' & Hrun & Hpost & Hl & _ & Htbl & Hsince).
  destruct Hpost as (_ & _ & _ & _ & Hlast & _ & _ & _ & es & Hscan & Hes).
  exists r, s'. split; [done|]. rewrite Hsince, Htbl.
  intros item0 pin0 dev0 item1 pin1 dev1 rest Hreads Hi0 Hp0 Hi1 Hp1.
  rewrite <-data_reads_exchange in Hreads.
  destruct (scanned_defined _ _ _ _ _ _ _ _ _ Hscan Hreads Hi0 Hp0)
    as (n1 & exch1 & es1 & Hn1 & -> & -> & Hscan1 & Hreads1).
  destruct (scanned_defined _ _ _ _ _ _ _ _ _ Hscan1 Hreads1 Hi1 Hp1)
    as (n2 & exch2 & es2 & Hn2 & -> & -> & Hscan2 & Hreads2).
  destruct (scanned_undefined _ _ _ _ _ _ Hscan2 Hreads2) as (-> & -> & -> & ->).
  rewrite Hes. done.
Qed.
End discovery.



Lemma discovery_halts_at_first_undefined_slot_witness :
  (lock (host (Mock.start Mock.demo)) = false ∧
   table_allocated (host (Mock.start Mock.demo))) ∧
  ∃ r s', run adv_get_dynamic_tab (Mock.start Mock.demo) = Some (r, s') ∧
    data_reads (since (host (Mock.start Mock.demo)) (host s')) =
      [0; 3; 0x50; 1; 7; 0x62; 0xff] ++ [] ∧
    r = 0 ∧
    exchange (since (host (Mock.start Mock.demo)) (host s')) =
      slot_exchange 0 0 3 0x50 ++ slot_exchange 1 1 7 0x62 ++
      take 3 (slot_exchange 2 0xff 0 0) ∧
    last (since (host (Mock.start Mock.demo)) (host s')) = Some (MutexUnlock, 0) ∧
    dym_tbl (host s') =
      [ {| device_id := 0x50; hw_pin_num := 3 |};
        {| device_id := 0x62; hw_pin_num := 7 |} ] ++
      replicate (Z.to_nat EC_MAX_TBL_NUM - 2) sentinel.
Proof.
  split; [split; reflexivity|].
  destruct (discovery_halts_at_first_undefined_slot (H := Mock.transport)
              (Mock.start Mock.demo) eq_refl eq_refl) as (r & s' & Hrun & Hhalt).
  exists r, s'. split; [exact Hrun|].
  assert (data_reads (since (host (Mock.start Mock.demo)) (host s')) =
            [0; 3; 0x50; 1; 7; 0x62; 0xff] ++ []) as Hreads.
  { vm_compute in Hrun. injection Hrun as <- <-. vm_compute. reflexivity. }
  split; [exact Hreads|].
  destruct (Hhalt 0 3 0x50 1 7 0x62 [] Hreads) as (Hr & _ & Hex & Hlast & Htbl); [lia..|].
  split; [exact Hr|]. split; [exact Hex|]. split; [exact Hlast|exact Htbl].
Defined.


Lemma status_polls_app tr1 tr2 :
  status_polls (tr1 ++ tr2) = (status_polls tr1 + status_polls tr2)%nat.
Proof. unfold status_polls. by rewrite filter_app, length_app. Qed.

Lemma status_polls_rev tr : status_polls (rev tr) = status_polls tr.
Proof.
  induction tr as [|e tr IH]; [done|].
  change (rev (e :: tr)) with (rev tr ++ [e]).
  change (e :: tr) with ([e] ++ tr). rewrite !status_polls_app, IH. lia.
Qed.

Lemma status_polls_busy sts : status_polls (busy sts) = length sts.
Proof.
  induction sts as [|st sts IH]; [done|].
  change (busy (st :: sts))
    with ([(Udelay EC_RETRY_UDELAY, 0); (Inb EC_COMMAND_PORT, st)] ++ busy sts).
  rewrite status_polls_app, IH. done.
Qed.

Section polling.
Context `{Transport}.
Implicit Types (s : system _).

Lemma length_statuses n e : length (statuses n e) = n.
Proof.
  revert e. induction n as [|n IH]; intros e; [done|].
  simpl. destruct (port_in EC_COMMAND_PORT e) as [v e']. simpl. by rewrite IH.
Qed.

Lemma run_poll_step ready n e h v e1 :
  port_in EC_COMMAND_PORT e = (v, e1) →
  run (poll_from ready (S n)) {| ec := e; host := h |} =
    if ready (u8 v)
    then Some (0, {| ec := e1; host := log (Inb EC_COMMAND_PORT, u8 v) h |})
    else run (poll_from ready n)
           {| ec := port_delay EC_RETRY_UDELAY e1;
              host := log (Udelay EC_RETRY_UDELAY, 0) (log (Inb EC_COMMAND_PORT, u8 v) h) |}.
Proof.
  intros Hin. cbn [poll_from]. simpl. unfold do_action. simpl. rewrite Hin.
  change (v mod 256) with (u8 v). by destruct (ready (u8 v)).
Qed.

Lemma run_poll_timeout ready n s :
  Forall (λ st, ready st = false) (statuses n (ec s)) →
  run (poll_from ready n) s =
    Some (- ETIMEDOUT,
          {| ec := polled n (ec s);
             host := extend (busy (rev (statuses n (ec s)))) (host s) |}).
Proof.
  revert s. induction n as [|n IH]; intros [e h] Hall.
  - by destruct h.
  - cbn [statuses ec host] in *.
    destruct (port_in EC_COMMAND_PORT e) as [v e1] eqn:Hin.
    apply Forall_cons in Hall as [Hv Hall].
    rewrite (run_poll_step _ _ _ _ _ _ Hin), Hv.
    rewrite (IH {| ec := port_delay EC_RETRY_UDELAY e1;
                   host := log (Udelay EC_RETRY_UDELAY, 0) (log (Inb EC_COMMAND_PORT, u8 v) h) |}
                Hall).
    cbn [polled ec host rev]. rewrite Hin. do 3 f_equal. rewrite busy_app.
    unfold extend, log. simpl. by rewrite <-app_assoc.
Qed.

Lemma run_poll_ready ready n s sts st :
  (length sts < n)%nat →
  statuses (S (length sts)) (ec s) = sts ++ [st] →
  Forall (λ st, ready st = false) sts → ready st = true →
  run (poll_from ready n) s =
    Some (0, {| ec := (port_in EC_COMMAND_PORT (polled (length sts) (ec s))).2;
                host := extend ((Inb EC_COMMAND_PORT, st) :: busy (rev sts)) (host s) |}).
Proof.
  revert n s. induction sts as [|st0 sts IH]; intros n [e h] Hlen Hsts Hall Hst.
  - destruct n as [|n]; [simpl in *; lia|].
    cbn [statuses ec host length] in *.
    destruct (port_in EC_COMMAND_PORT e) as [v e1] eqn:Hin.
    injection Hsts as <-. rewrite (run_poll_step _ _ _ _ _ _ Hin), Hst.
    cbn [polled]. by rewrite Hin.
  - destruct n as [|n]; [simpl in *; lia|].
    cbn [length ec host] in *. remember (S (length sts)) as m.
    cbn [statuses] in Hsts. destruct (port_in EC_COMMAND_PORT e) as [v e1] eqn:Hin.
    injection Hsts as <- Hsts. subst m.
    apply Forall_cons in Hall as [Hv Hall].
    rewrite (run_poll_step _ _ _ _ _ _ Hin), Hv.
    rewrite (IH n {| ec := port_delay EC_RETRY_UDELAY e1;
                     host := log (Udelay EC_RETRY_UDELAY, 0) (log (Inb EC_COMMAND_PORT, u8 v) h) |});
      [|lia|done|done|done].
    cbn [polled ec host rev]. rewrite Hin. do 3 f_equal. rewrite busy_app.
    unfold extend, log. simpl. by rewrite <-app_assoc.
Qed.

Lemma since_extend evs h : since h (extend evs h) = rev evs.
Proof. by apply since_app. Qed.

(** C5: [ec_wait_read] returns [-ETIMEDOUT] after exactly
    [EC_MAX_TIMEOUT_COUNT] reads of the status bits when none of them shows
    OBF, and returns [0] at the [k]-th read when that is the first one that
    shows OBF, for every [k] up to [EC_MAX_TIMEOUT_COUNT]. *)
Theorem ec_wait_read_polls_exactly s :
  (forallb (λ st, negb (obf_set st))
     (statuses (Z.to_nat EC_MAX_TIMEOUT_COUNT) (ec s)) = true →
   ∃ s', run ec_wait_read s = Some (- ETIMEDOUT, s') ∧
     status_polls (since (host s) (host s')) = Z.to_nat EC_MAX_TIMEOUT_COUNT) ∧
  (∀ k : nat,
     (0 < k ≤ Z.to_nat EC_MAX_TIMEOUT_COUNT)%nat →
     forallb (λ st, negb (obf_set st)) (take (k - 1) (statuses k (ec s))) = true →
     obf_set <$> last (statuses k (ec s)) = Some true →
     ∃ s' st, run ec_wait_read s = Some (0, s') ∧
       status_polls (since (host s) (host s')) = k ∧
       last (since (host s) (host s')) = Some (Inb EC_COMMAND_PORT, st) ∧
       obf_set st = true).
Proof.
  unfold ec_wait_read. rewrite ec_wait_read_poll. split.
  - intros Hall.
    rewrite (run_poll_timeout obf_set (Z.to_nat EC_MAX_TIMEOUT_COUNT) s).
    2:{ apply Forall_forall. intros st Hst. apply negb_true_iff.
      by eapply (proj1 (forallb_forall _ _) Hall), list_elem_of_In. }
    eexists. split; [done|]. cbn [host].
    by rewrite since_extend, status_polls_rev, status_polls_busy, length_rev, length_statuses.
  - intros k Hk Hall Hlast.
    destruct (last (statuses k (ec s))) as [st|] eqn:Hst; [|done].
    injection Hlast as Hready.
    apply last_Some in Hst as [sts Hsts].
    assert (length sts = (k - 1)%nat) as Hlen.
    { apply (f_equal length) in Hsts. rewrite length_statuses, length_app in Hsts.
      simpl in Hsts. lia. }
    rewrite Hsts, <-Hlen, take_app_length in Hall.
    rewrite (run_poll_ready obf_set (Z.to_nat EC_MAX_TIMEOUT_COUNT) s sts st);
      [|lia| |..|done].
    2:{ by replace (S (length sts)) with k by lia. }
    2:{ apply Forall_forall. intros st' Hst'. apply negb_true_iff.
        by eapply (proj1 (forallb_forall _ _) Hall), list_elem_of_In. }
    eexists _, st. split; [done|]. cbn [host].
    rewrite since_extend. cbn [rev]. rewrite last_snoc, status_polls_app.
    rewrite status_polls_rev, status_polls_busy, length_rev. split; [|done].
    simpl. unfold status_polls. simpl. lia.
Qed.
End polling.

Lemma ec_wait_read_polls_exactly_witness :
  (forallb (λ st, negb (obf_set st))
     (statuses (H := Mock.transport) (Z.to_nat EC_MAX_TIMEOUT_COUNT)
        (ec (Mock.start Mock.demo))) = true ∧
   ∃ s', run ec_wait_read (Mock.start Mock.demo) = Some (- ETIMEDOUT, s') ∧
     status_polls (since (host (Mock.start Mock.demo)) (host s')) =
       Z.to_nat EC_MAX_TIMEOUT_COUNT) ∧
  (((0 < 4 ≤ Z.to_nat EC_MAX_TIMEOUT_COUNT)%nat ∧
    forallb (λ st, negb (obf_set st))
      (take (4 - 1) (statuses (H := Mock.transport) 4
                       (ec (Mock.start (Mock.answering 3))))) = true ∧
    obf_set <$> last (statuses (H := Mock.transport) 4
                        (ec (Mock.start (Mock.answering 3)))) = Some true) ∧
   ∃ s' st, run ec_wait_read (Mock.start (Mock.answering 3)) = Some (0, s') ∧
     status_polls (since (host (Mock.start (Mock.answering 3))) (host s')) = 4%nat ∧
     last (since (host (Mock.start (Mock.answering 3))) (host s')) =
       Some (Inb EC_COMMAND_PORT, st) ∧
     obf_set st = true).
Proof.
  assert (forallb (λ st, negb (obf_set st))
            (statuses (H := Mock.transport) (Z.to_nat EC_MAX_TIMEOUT_COUNT)
               (ec (Mock.start Mock.demo))) = true) as Hnever.
  { vm_compute. reflexivity. }
  assert ((0 < 4 ≤ Z.to_nat EC_MAX_TIMEOUT_COUNT)%nat) as Hk.
  { unfold EC_MAX_TIMEOUT_COUNT. lia. }
  split.
  - split; [exact Hnever|].
    exact (proj1 (ec_wait_read_polls_exactly (H := Mock.transport) (Mock.start Mock.demo))
             Hnever).
  - split; [split; [exact Hk|split; reflexivity]|].
    exact (proj2 (ec_wait_read_polls_exactly (H := Mock.transport)
                    (Mock.start (Mock.answering 3))) 4%nat Hk eq_refl eq_refl).
Defined.


Section run_rules.
Context `{Transport}.
Implicit Types (s : system _).

Lemma run_bind {A B} (m : prog A) (f : A → prog B) s :
  run (m ≫= f) s =
    match run m s with
    | Some (a, s') => run (f a) s'
    | None => None
    end.
Proof.
  revert s. induction m as [a|a k IH]; intros s; [done|].
  simpl. destruct (do_action a s) as [[resp s']|]; [|done]. apply IH.
Qed.

Lemma run_outb {B} v port (k : unit → prog B) e h :
  run (outb v port ≫= k) {| ec := e; host := h |} =
    run (k tt) {| ec := port_out (u8 v) port e; host := log (Outb (u8 v) port, 0) h |}.
Proof. done. Qed.

Lemma run_inb {B} port (k : Z → prog B) e h :
  run (inb port ≫= k) {| ec := e; host := h |} =
    run (k (u8 (port_in port e).1))
      {| ec := (port_in port e).2; host := log (Inb port, u8 (port_in port e).1) h |}.
Proof. simpl. unfold do_action. simpl. by destruct (port_in port e). Qed.

Lemma run_mutex_lock {B} (k : unit → prog B) e hp tb tr :
  run (mutex_lock ≫= k)
      {| ec := e; host := {| lock := false; heap := hp; dym_tbl := tb; trace := tr |} |} =
    run (k tt)
      {| ec := e;
         host := {| lock := true; heap := hp; dym_tbl := tb;
                    trace := (MutexLock, 0) :: tr |} |}.
Proof. done. Qed.

Lemma run_mutex_unlock {B} (k : unit → prog B) e hp tb tr :
  run (mutex_unlock ≫= k)
      {| ec := e; host := {| lock := true; heap := hp; dym_tbl := tb; trace := tr |} |} =
    run (k tt)
      {| ec := e;
         host := {| lock := false; heap := hp; dym_tbl := tb;
                    trace := (MutexUnlock, 0) :: tr |} |}.
Proof. done. Qed.

Lemma run_store_byte {B} p v (k : unit → prog B) e h :
  run (store_byte p v ≫= k) {| ec := e; host := h |} =
    run (k tt)
      {| ec := e;
         host := {| lock := lock h; heap := <[p := u8 v]> (heap h); dym_tbl := dym_tbl h;
                    trace := (StoreByte p (u8 v), 0) :: trace h |} |}.
Proof. done. Qed.
End run_rules.

Lemma statuses_S `{Transport} n e :
  statuses (S n) e =
    u8 (port_in EC_COMMAND_PORT e).1 ::
    statuses n (port_delay EC_RETRY_UDELAY (port_in EC_COMMAND_PORT e).2).
Proof. simpl. by destruct (port_in EC_COMMAND_PORT e). Qed.

Lemma u8_u8 v : u8 (u8 v) = u8 v.
Proof. unfold u8. by rewrite Z.mod_mod. Qed.

Section mock.
Import Mock.

Lemma mock_settled_tick m : settled (tick m) = settled m.
Proof. done. Qed.

Lemma mock_polled m :
polled (H := transport) (m_busy m) m = settled m.
Proof.
remember (m_busy m) as b eqn:Hb. revert m Hb.
induction b as [|b IH]; intros m Hb.
- destruct m. simpl in *. by subst.
- cbn [polled]. change ((@port_in transport EC_COMMAND_PORT m).2) with m.
  change (@port_delay transport EC_RETRY_UDELAY m) with (tick m).
  rewrite IH; [done|]. simpl. by rewrite <-Hb.
Qed.

Lemma mock_statuses m :
m_budget m = None →
statuses (H := transport) (S (m_busy m)) m =
  replicate (m_busy m) EC_COMMAND_BIT_IBF ++ [status (settled m)].
Proof.
intros Hbud. remember (m_busy m) as b eqn:Hb. revert m Hbud Hb.
induction b as [|b IH]; intros m Hbud Hb.
- destruct m as [? ? ? ? o ? ? ?]. simpl in *. subst. unfold status, hung. simpl.
  by destruct o.
- rewrite (statuses_S (S b)).
  change (@port_in transport EC_COMMAND_PORT m) with (status m, m).
  change (@port_delay transport EC_RETRY_UDELAY (status m, m).2) with (tick m).
  rewrite (IH (tick m)); [|done|simpl; by rewrite <-Hb].
  rewrite mock_settled_tick. unfold status at 1, hung. rewrite Hbud, <-Hb. done.
Qed.

Lemma mock_wait_write {B} (lbl k : Z → prog B) m h :
m_budget m = None → (m_busy m < budget)%nat →
∃ evs,
  run (ec_wait_write ≫= λ x, if bool_decide (x ≠ 0) then lbl x else k x) (sys m h) =
  run (k 0) (sys (settled m) (extend evs h)).
Proof.
intros Hbud Hbusy. eexists. rewrite run_bind.
unfold ec_wait_write. rewrite ec_wait_write_poll.
rewrite (run_poll_ready (H := transport) ibf_clear _ (sys m h)
           (replicate (m_busy m) EC_COMMAND_BIT_IBF) (status (settled m))).
- cbn [ec host sys]. rewrite length_replicate, mock_polled. done.
- by rewrite length_replicate.
- rewrite length_replicate. by apply mock_statuses.
- by apply Forall_replicate.
- unfold status, hung. cbn [settled m_budget m_busy m_out]. rewrite Hbud.
  by destruct (m_out m).
Qed.

Lemma mock_wait_read {B} (lbl k : Z → prog B) m h v :
m_budget m = None → (m_busy m < budget)%nat → m_out m = Some v →
∃ evs,
  run (ec_wait_read ≫= λ x, if bool_decide (x ≠ 0) then lbl x else k x) (sys m h) =
  run (k 0) (sys (settled m) (extend evs h)).
Proof.
intros Hbud Hbusy Hout. eexists. rewrite run_bind.
unfold ec_wait_read. rewrite ec_wait_read_poll.
rewrite (run_poll_ready (H := transport) obf_set _ (sys m h)
           (replicate (m_busy m) EC_COMMAND_BIT_IBF) (status (settled m))).
- cbn [ec host sys]. rewrite length_replicate, mock_polled. done.
- by rewrite length_replicate.
- rewrite length_replicate. by apply mock_statuses.
- by apply Forall_replicate.
- unfold status, hung. cbn [settled m_budget m_busy m_out]. by rewrite Hbud, Hout.
Qed.

Ltac mock_state :=
unfold sys;
match goal with
| |- context [run ?k (Build_system ?m ?h)] =>
    let K := fresh "K" in
    remember k as K; unfold extend, log;
    repeat (progress (unfold write, read, command, data, accept, settled, set_out,
              set_ram, hung; simpl));
    subst K
end.

Ltac mock_wait_write :=
edestruct (mock_wait_write (B := Z)) as [? ->]; [done|simpl; lia|]; mock_state.
Ltac mock_wait_read :=
edestruct (mock_wait_read (B := Z)) as [? ->]; [done|simpl; lia|done|]; mock_state.
Ltac mock_outb := rewrite (run_outb (H := transport)); mock_state.
Ltac mock_inb := rewrite (run_inb (H := transport)); mock_state.

Lemma mock_write_hw_ram ram tbl adc ph o b lat hp tb tr addr v :
(b < budget)%nat → (lat < budget)%nat →
∃ tr',
  run (write_hw_ram addr v)
    (sys {| m_ram := ram; m_tbl := tbl; m_adc := adc; m_phase := ph; m_out := o;
            m_busy := b; m_latency := lat; m_budget := None |}
         {| lock := false; heap := hp; dym_tbl := tb; trace := tr |}) =
  Some (0,
    sys {| m_ram := <[u8 addr := u8 v]> ram; m_tbl := tbl; m_adc := adc; m_phase := Idle;
           m_out := None; m_busy := lat; m_latency := lat; m_budget := None |}
        {| lock := false; heap := hp; dym_tbl := tb; trace := tr' |}).
Proof.
intros Hb Hlat. unfold write_hw_ram, sys.
rewrite (run_mutex_lock (H := transport)).
mock_wait_write. mock_outb. mock_wait_write. mock_outb. mock_wait_write. mock_outb.
rewrite (run_mutex_unlock (H := transport)). by eexists.
Qed.

Lemma mock_read_hw_ram ram tbl adc ph o b lat hp tb tr addr data :
(b < budget)%nat → (lat < budget)%nat →
∃ tr',
  run (read_hw_ram addr data)
    (sys {| m_ram := ram; m_tbl := tbl; m_adc := adc; m_phase := ph; m_out := o;
            m_busy := b; m_latency := lat; m_budget := None |}
         {| lock := false; heap := hp; dym_tbl := tb; trace := tr |}) =
  Some (0,
    sys {| m_ram := ram; m_tbl := tbl; m_adc := adc; m_phase := Idle;
           m_out := None; m_busy := 0; m_latency := lat; m_budget := None |}
        {| lock := false; heap := <[data := u8 (default 0 (ram !! u8 addr))]> hp;
           dym_tbl := tb; trace := tr' |}).
Proof.
intros Hb Hlat. unfold read_hw_ram, sys.
rewrite (run_mutex_lock (H := transport)).
mock_wait_write. mock_outb. mock_wait_write. mock_outb. mock_wait_read. mock_inb.
rewrite (run_store_byte (H := transport)). mock_state.
rewrite (run_mutex_unlock (H := transport)), u8_u8. by eexists.
Qed.

(** C8: against the model controller (not hung, its latency within the
    retry budget) [write_hw_ram addr v] succeeds and stores [v] in the RAM
    cell [addr], and [read_hw_ram addr] after it succeeds and hands [v] back
    through the pointer. *)
Theorem hw_ram_round_trip (m : ec_state) (h : host_state) (addr v : Z) (data : N) :
m_budget m = None →
(m_busy m < Z.to_nat EC_MAX_TIMEOUT_COUNT)%nat →
(m_latency m < Z.to_nat EC_MAX_TIMEOUT_COUNT)%nat →
lock h = false → 0 ≤ addr < 256 → 0 ≤ v < 256 →
∃ s1 s2,
  run (write_hw_ram addr v) (sys m h) = Some (0, s1) ∧
  m_ram (ec s1) !! addr = Some v ∧
  run (read_hw_ram addr data) s1 = Some (0, s2) ∧
  heap (host s2) !! data = Some v.
Proof.
intros Hbud Hbusy Hlat Hlock Haddr Hv.
destruct m as [ram tbl adc ph o b lat bud], h as [l hp tb tr].
  cbn [m_budget m_busy m_latency lock] in *. subst.
destruct (mock_write_hw_ram ram tbl adc ph o b lat hp tb tr addr v) as [tr1 Hw]; [done..|].
destruct (mock_read_hw_ram (<[u8 addr := u8 v]> ram) tbl adc Idle None lat lat hp tb tr1
            addr data) as [tr2 Hr]; [done..|].
eexists _, _. split; [exact Hw|]. split; [|split; [exact Hr|]].
- cbn [ec sys m_ram]. by rewrite !u8_byte, lookup_insert_eq.
- cbn [host sys heap]. rewrite lookup_insert_eq, (lookup_insert_eq ram).
  change (default 0 (Some (u8 v))) with (u8 v). by rewrite u8_u8, u8_byte.
Qed.
End mock.

Lemma hw_ram_round_trip_witness :
  (Mock.m_budget Mock.demo = None ∧
   (Mock.m_busy Mock.demo < Z.to_nat EC_MAX_TIMEOUT_COUNT)%nat ∧
   (Mock.m_latency Mock.demo < Z.to_nat EC_MAX_TIMEOUT_COUNT)%nat ∧
   lock Mock.fresh_host = false ∧ 0 ≤ 0x5E < 256 ∧ 0 ≤ 0x2C < 256) ∧
  ∃ s1 s2,
    run (write_hw_ram 0x5E 0x2C) (Mock.sys Mock.demo Mock.fresh_host) = Some (0, s1) ∧
    Mock.m_ram (ec s1) !! 0x5E = Some 0x2C ∧
    run (read_hw_ram 0x5E 7) s1 = Some (0, s2) ∧
    heap (host s2) !! 7%N = Some 0x2C.
Proof.
  assert ((Mock.m_busy Mock.demo < Z.to_nat EC_MAX_TIMEOUT_COUNT)%nat) as Hbusy.
  { unfold EC_MAX_TIMEOUT_COUNT. simpl. lia. }
  assert ((Mock.m_latency Mock.demo < Z.to_nat EC_MAX_TIMEOUT_COUNT)%nat) as Hlat.
  { unfold EC_MAX_TIMEOUT_COUNT. simpl. lia. }
  split; [split_and!; [reflexivity|exact Hbusy|exact Hlat|reflexivity|lia..]|].
  apply hw_ram_round_trip; [reflexivity|exact Hbusy|exact Hlat|reflexivity|lia|lia].
Defined.


(** ** Critical sections *)

Lemma plain_bind {A B} (m : prog A) (f : A → prog B) :
  plain m → (∀ a, plain (f a)) → plain (m ≫= f).
Proof.
  intros Hm Hf. induction m as [a|a k IH]; simpl in *; [done|].
  destruct a; try done; intros resp; by apply IH.
Qed.

Lemma critical_bind {A} (m : prog A) (f : A → prog Z) :
  plain m → (∀ a, critical (f a)) → critical (m ≫= f).
Proof.
  intros Hm Hf. induction m as [a|a k IH]; simpl in *; [done|].
  destruct a; try done; intros resp; by apply IH.
Qed.

Lemma plain_poll_from ready n : plain (poll_from ready n).
Proof.
  induction n as [|n IH]; simpl; [done|].
  intros st. destruct (ready st); simpl; [done|]. intros _. apply IH.
Qed.

Lemma plain_ec_wait_write : plain ec_wait_write.
Proof. unfold ec_wait_write. rewrite ec_wait_write_poll. apply plain_poll_from. Qed.

Lemma plain_ec_wait_read : plain ec_wait_read.
Proof. unfold ec_wait_read. rewrite ec_wait_read_poll. apply plain_poll_from. Qed.

Lemma plain_tab_clear n i : plain (tab_clear n i).
Proof. revert i. induction n as [|n IH]; intros i; simpl; [done|]. intros _ _. apply IH. Qed.

Lemma critical_unlock r : critical (mutex_unlock ≫= λ _, mret r).
Proof. simpl. intros _. by exists r. Qed.

Ltac crit :=
  repeat first
    [ apply critical_unlock
    | apply critical_bind;
        [ lazymatch goal with
          | |- plain ec_wait_write => apply plain_ec_wait_write
          | |- plain ec_wait_read => apply plain_ec_wait_read
          | |- plain (tab_clear _ _) => apply plain_tab_clear
          | |- _ => by simpl
          end
        | intros ? ]
    | case_bool_decide
    | progress unfold error, pass, invalid_pin ].

Lemma critical_tab_scan n i : critical (tab_scan n i).
Proof.
  revert i. induction n as [|n IH]; intros i; cbn [tab_scan]; [by crit|].
  unfold tab_item. crit. apply IH.
Qed.

Lemma idle_call o : idle (call o).
Proof.
  destruct o; cbn [call];
    [ unfold read_hw_ram, write_hw_ram, read_acpi_value, write_acpi_value,
        read_gpio_status, write_gpio_status, read_gpio_dir, write_gpio_dir,
        read_ad_value, write_hwram_command;
      intros _; change (bind (Ret tt) ?k) with (k tt); cbv beta; crit .. | ].
  unfold adv_get_dynamic_tab. intros _.
  change (critical (tab_clear (Z.to_nat EC_MAX_TBL_NUM) 0
                    ≫= λ _, tab_scan (Z.to_nat EC_MAX_TBL_NUM) 0)).
  apply critical_bind; [apply plain_tab_clear|]. intros _. apply critical_tab_scan.
Qed.

(** ** Interleavings *)

Lemma serial_from_end owner tr :
  serial_from owner tr = true ↔ is_Some (serial_end owner tr).
Proof.
  revert owner. induction tr as [|e tr IH]; intros owner; simpl.
  - split; [by eexists|done].
  - destruct (serial_step owner e) as [owner'|]; simpl; [apply IH|].
    split; [done|]. by intros [? ?].
Qed.

Lemma serial_end_snoc owner tr e :
  serial_end owner (tr ++ [e]) = serial_end owner tr ≫= λ owner', serial_step owner' e.
Proof.
  revert owner. induction tr as [|e' tr IH]; intros owner; simpl.
  - by destruct (serial_step owner e).
  - destruct (serial_step owner e') as [owner'|]; simpl; [apply IH|done].
Qed.

Lemma owner_after_end l : owner_after l = serial_end None (rev l).
Proof.
  induction l as [|e l IH]; [done|]. simpl. by rewrite serial_end_snoc, IH.
Qed.

Lemma host_step_lock a h h' :
  host_step a h = Some h' →
  match a with
  | MutexLock => lock h = false ∧ lock h' = true
  | MutexUnlock => lock h = true ∧ lock h' = false
  | _ => lock h' = lock h
  end.
Proof.
  destruct a; simpl; intros Hstep; repeat case_match; by simplify_eq.
Qed.

Section pool.
Context `{Transport}.
Implicit Types (s : system _) (p : pool _).

Lemma do_action_host a s resp s' :
  do_action a s = Some (resp, s') →
  ∃ h', host_step a (host s) = Some h' ∧ host s' = log (a, resp) h'.
Proof.
  unfold do_action. destruct (host_step a (host s)) as [h'|]; simpl; [|done].
  destruct (ec_step a (ec s)) as [resp' e']. intros [= <- <-]. by exists h'.
Qed.

Lemma coherent_idle_pool s calls : lock (host s) = false → coherent (idle_pool s calls).
Proof.
  intros Hlock. exists None. split; [done|]. split; [done|].
  intros t c Hc. simpl in *. apply list_lookup_fmap_Some in Hc as (os & -> & _).
  done.
Qed.

Lemma coherent_sched_step p t : coherent p → coherent (sched_step p t).
Proof.
  intros (owner & Hown & Hlock & Hcallers). unfold sched_step.
  destruct (callers p !! t) as [c|] eqn:Hc; [|by exists owner].
  pose proof (Hcallers t c Hc) as Hcur. unfold caller_step.
  destruct (current c) as [r|a k] eqn:Hcurrent.
  - destruct (pending c) as [|o os]; [by exists owner|].
    exists owner. split; [done|]. split; [done|]. cbn [callers].
    intros t' c' [(<- & <- & _)|[Hne Hc']]%list_lookup_insert_Some; [|by apply Hcallers].
    cbn [current]. case_bool_decide; [done|]. apply idle_call.
  - destruct (do_action a (shared p)) as [[resp s']|] eqn:Hdo; [|by exists owner].
    apply do_action_host in Hdo as (h' & Hstep & Hhost).
    apply host_step_lock in Hstep.
    case_bool_decide as Howner.
    + (* the caller is inside its operation *)
      subst owner. destruct (decide (a = MutexUnlock)) as [->|Hunlock].
      * exists None. cbn [ctrace shared callers owner_after]. rewrite Hown, Hhost. simpl.
        rewrite bool_decide_true by done. split; [done|]. split; [by destruct Hstep|].
        intros t' c' [(<- & <- & _)|[Hne Hc']]%list_lookup_insert_Some.
        -- cbn [current]. by destruct (Hcur resp) as [r ->].
        -- specialize (Hcallers t' c' Hc'). by rewrite bool_decide_false in Hcallers by congruence.
      * exists (Some t). cbn [ctrace shared callers owner_after]. rewrite Hown, Hhost. simpl.
        split; [destruct a; try done; by rewrite bool_decide_true|].
        split; [destruct a; try done; simpl in *; congruence|].
        intros t' c' [(<- & <- & _)|[Hne Hc']]%list_lookup_insert_Some.
        -- cbn [current]. rewrite bool_decide_true by done. destruct a; try done; apply Hcur.
        -- by apply Hcallers.
    + (* the caller is about to take the mutex *)
      destruct a; try done. destruct Hstep as [Hfree Hheld].
      rewrite Hfree in Hlock. destruct owner as [t0|]; [done|].
      exists (Some t). cbn [ctrace shared callers owner_after]. rewrite Hown, Hhost. simpl.
      split; [done|]. split; [done|].
      intros t' c' [(<- & <- & _)|[Hne Hc']]%list_lookup_insert_Some.
      * cbn [current]. rewrite bool_decide_true by done. apply Hcur.
      * specialize (Hcallers t' c' Hc'). rewrite bool_decide_false in Hcallers by done.
        by rewrite bool_decide_false by congruence.
Qed.

Lemma coherent_sched_run sched p : coherent p → coherent (sched_run sched p).
Proof.
  revert p. induction sched as [|t sched IH]; intros p Hp; [done|].
  apply IH. by apply coherent_sched_step.
Qed.

Lemma coherent_serialized p : coherent p → serialized (rev (ctrace p)) = true.
Proof.
  intros (owner & Hown & _). apply serial_from_end. rewrite <-owner_after_end, Hown.
  by eexists.
Qed.

(** The port accesses the host sees are those of the callers. *)
Lemma sched_step_trace p t :
  ∃ new, ctrace (sched_step p t) = new ++ ctrace p ∧
    trace (host (shared (sched_step p t))) = new.*2 ++ trace (host (shared p)).
Proof.
  unfold sched_step. destruct (callers p !! t) as [c|]; [|by exists []].
  unfold caller_step. destruct (current c) as [r|a k].
  - destruct (pending c); by exists [].
  - destruct (do_action a (shared p)) as [[resp s']|] eqn:Hdo; [|by exists []].
    apply do_action_host in Hdo as (h' & Hstep & Hhost).
    exists [(t, (a, resp))]. split; [done|]. cbn [shared]. rewrite Hhost. simpl.
    f_equal. by destruct a; simpl in *; repeat case_match; simplify_eq.
Qed.

Lemma sched_run_trace sched p :
  ∃ new, ctrace (sched_run sched p) = new ++ ctrace p ∧
    trace (host (shared (sched_run sched p))) = new.*2 ++ trace (host (shared p)).
Proof.
  revert p. induction sched as [|t sched IH]; intros p; [by exists []|].
  destruct (sched_step_trace p t) as (new1 & Hc1 & Ht1).
  destruct (IH (sched_step p t)) as (new2 & Hc2 & Ht2).
  exists (new2 ++ new1). cbn [sched_run foldl] in *. unfold sched_run in *.
  rewrite Hc2, Ht2, Hc1, Ht1, fmap_app, !app_assoc. done.
Qed.

(** C9: whatever the callers, their calls and the schedule, the trace of
    the interleaved execution is a sequence of whole operations: between a
    caller's [mutex_lock] and its [mutex_unlock] every event is that
    caller's, and outside such a stretch there is no event at all.  The
    trace the host sees is this trace. *)
Theorem operations_are_serialized s (calls : list (list op)) (sched : list nat) :
  lock (host s) = false →
  let p := sched_run sched (idle_pool s calls) in
  serialized (rev (ctrace p)) = true ∧
  since (host s) (host (shared p)) = (rev (ctrace p)).*2.
Proof.
  intros Hlock p. split.
  - apply coherent_serialized, coherent_sched_run. by apply coherent_idle_pool.
  - destruct (sched_run_trace sched (idle_pool s calls)) as (new & Hc & Ht).
    fold p in Hc, Ht. cbn [idle_pool ctrace shared] in *. rewrite app_nil_r in Hc.
    rewrite Hc. erewrite since_app; [|done]. symmetry. apply fmap_rev.
Qed.
End pool.

Lemma operations_are_serialized_witness :
  lock (host (Mock.start Mock.demo)) = false ∧
  let p := sched_run [0; 1; 0; 1; 1; 0; 0; 1; 0]%nat
             (idle_pool (Mock.start Mock.demo)
                [[WriteHwRam 0x5E 0x2C]; [ReadHwRam 0x5E 7]]) in
  serialized (rev (ctrace p)) = true ∧
  since (host (Mock.start Mock.demo)) (host (shared p)) = (rev (ctrace p)).*2.
Proof.
  split; [reflexivity|].
  apply (operations_are_serialized (H := Mock.transport)). reflexivity.
Defined.

(** Two callers on the model controller: the second one sleeps on the
    mutex until the first has released it, so after these steps the trace
    holds the whole write followed by the start of the read. *)
Example two_callers :
  let p := sched_run (replicate 40 0%nat ++ replicate 5 1%nat ++ [0; 1; 1; 1]%nat)
             (idle_pool (Mock.start Mock.demo)
                [[WriteHwRam 0x5E 0x2C]; [ReadHwRam 0x5E 7]]) in
  omap (λ e, if is_poll e.2 then None else Some (e.1, e.2.1)) (rev (ctrace p)) =
    [ (0%nat, MutexLock);
      (0%nat, Outb EC_HW_RAM_WRITE EC_COMMAND_PORT);
      (0%nat, Outb 0x5E EC_STATUS_PORT); (0%nat, Outb 0x2C EC_STATUS_PORT);
      (0%nat, MutexUnlock);
      (1%nat, MutexLock); (1%nat, Outb EC_HW_RAM_READ EC_COMMAND_PORT) ].
Proof. vm_compute. reflexivity. Qed.

(** * The operations, beyond the claims *)

Lemma delayed_app tr1 tr2 : delayed (tr1 ++ tr2) = delayed tr1 + delayed tr2.
Proof. induction tr1 as [|e tr1 IH]; simpl; [done|]. rewrite IH. lia. Qed.

Lemma delayed_rev tr : delayed (rev tr) = delayed tr.
Proof.
  induction tr as [|e tr IH]; [done|].
  change (rev (e :: tr)) with (rev tr ++ [e]). rewrite delayed_app, IH. simpl. lia.
Qed.

Lemma delayed_busy sts : delayed (busy sts) = EC_RETRY_UDELAY * Z.of_nat (length sts).
Proof.
  induction sts as [|st sts IH]; [done|].
  cbn [busy delayed foldr length]. fold (delayed (busy sts)). rewrite IH.
  cbn [delay_of fst]. lia.
Qed.

Section waiting.
Context `{Transport}.
Implicit Types (s : system _).

Lemma forallb_negb_Forall (ready : Z → bool) sts :
  forallb (λ st, negb (ready st)) sts = true → Forall (λ st, ready st = false) sts.
Proof.
  intros Hall. apply Forall_forall. intros st Hst. apply negb_true_iff.
  by eapply (proj1 (forallb_forall _ _) Hall), list_elem_of_In.
Qed.

(** [ec_wait_write] gives up after exactly [EC_MAX_TIMEOUT_COUNT] reads of
    the status bits, one second of delays in all, when IBF stays set; and
    it returns [0] at the first read that shows IBF clear, the [k]-th,
    after [k - 1] delays. *)
Theorem ec_wait_write_polls_exactly s :
  (forallb (λ st, negb (ibf_clear st))
     (statuses (Z.to_nat EC_MAX_TIMEOUT_COUNT) (ec s)) = true →
   ∃ s', run ec_wait_write s = Some (- ETIMEDOUT, s') ∧
     status_polls (since (host s) (host s')) = Z.to_nat EC_MAX_TIMEOUT_COUNT ∧
     delayed (since (host s) (host s')) = 1000000) ∧
  (∀ k : nat,
     (0 < k ≤ Z.to_nat EC_MAX_TIMEOUT_COUNT)%nat →
     forallb (λ st, negb (ibf_clear st)) (take (k - 1) (statuses k (ec s))) = true →
     ibf_clear <$> last (statuses k (ec s)) = Some true →
     ∃ s' st, run ec_wait_write s = Some (0, s') ∧
       status_polls (since (host s) (host s')) = k ∧
       delayed (since (host s) (host s')) = EC_RETRY_UDELAY * (Z.of_nat k - 1) ∧
       last (since (host s) (host s')) = Some (Inb EC_COMMAND_PORT, st) ∧
       ibf_clear st = true).
Proof.
  unfold ec_wait_write. rewrite ec_wait_write_poll. split.
  - intros Hall%forallb_negb_Forall.
    rewrite (run_poll_timeout ibf_clear (Z.to_nat EC_MAX_TIMEOUT_COUNT) s Hall).
    eexists. split; [done|]. cbn [host]. rewrite since_extend.
    rewrite status_polls_rev, status_polls_busy, delayed_rev, delayed_busy.
    by rewrite length_rev, length_statuses.
  - intros k Hk Hall Hlast.
    destruct (last (statuses k (ec s))) as [st|] eqn:Hst; [|done].
    injection Hlast as Hready.
    apply last_Some in Hst as [sts Hsts].
    assert (length sts = (k - 1)%nat) as Hlen.
    { apply (f_equal length) in Hsts. rewrite length_statuses, length_app in Hsts.
      simpl in Hsts. lia. }
    rewrite Hsts, <-Hlen, take_app_length in Hall.
    apply forallb_negb_Forall in Hall.
    rewrite (run_poll_ready ibf_clear (Z.to_nat EC_MAX_TIMEOUT_COUNT) s sts st);
      [|lia| |done|done].
    2:{ by replace (S (length sts)) with k by lia. }
    eexists _, st. split; [done|]. cbn [host].
    rewrite since_extend. cbn [rev]. rewrite last_snoc, status_polls_app, delayed_app.
    rewrite status_polls_rev, status_polls_busy, delayed_rev, delayed_busy, length_rev.
    split; [|split; [|done]].
    + unfold status_polls. simpl. lia.
    + cbn [delayed foldr delay_of fst]. unfold EC_RETRY_UDELAY. lia.
Qed.
End waiting.

(** ** Properties of a program that hold along every run *)

Lemma only_bind {A B} ok (m : prog A) (f : A → prog B) :
  only ok m → (∀ a, only ok (f a)) → only ok (m ≫= f).
Proof.
  intros Hm Hf. induction m as [a|a k IH]; simpl in *; [done|].
  destruct Hm as [Ha Hk]. split; [done|]. intros resp. by apply IH.
Qed.

Lemma within_mono {A} w (p : prog A) n n' :
  within w p n → (n ≤ n')%nat → within w p n'.
Proof.
  revert n n'. induction p as [a|a k IH]; simpl; intros n n' Hp Hn; [done|].
  destruct Hp as [Ha Hk]. split; [lia|]. intros resp. eapply IH; [done|lia].
Qed.

Lemma within_bind {A B} w (m : prog A) (f : A → prog B) n1 n2 :
  within w m n1 → (∀ a, within w (f a) n2) → within w (m ≫= f) (n1 + n2).
Proof.
  revert n1. induction m as [a|a k IH]; simpl; intros n1 Hm Hf.
  - eapply within_mono; [done|lia].
  - destruct Hm as [Ha Hk]. split; [lia|]. intros resp.
    replace (n1 + n2 - w a)%nat with (n1 - w a + n2)%nat by lia. by apply IH.
Qed.

Lemma total_app w tr1 tr2 : total w (tr1 ++ tr2) = (total w tr1 + total w tr2)%nat.
Proof. induction tr1 as [|e tr1 IH]; simpl; [done|]. rewrite IH. lia. Qed.

Lemma total_rev w tr : total w (rev tr) = total w tr.
Proof.
  induction tr as [|e tr IH]; [done|].
  change (rev (e :: tr)) with (rev tr ++ [e]). rewrite total_app, IH. simpl. lia.
Qed.

Lemma status_polls_total tr : status_polls tr = total poll_weight tr.
Proof.
  unfold status_polls. induction tr as [|[a resp] tr IH]; [done|].
  rewrite filter_cons. cbn [total foldr fst]. fold (total poll_weight tr). rewrite <-IH.
  unfold is_status_read. cbn [fst]. destruct a; try done.
  cbn [poll_weight]. by destruct (port =? EC_COMMAND_PORT).
Qed.

Lemma delayed_total tr : delayed tr ≤ Z.of_nat (total delay_weight tr).
Proof.
  induction tr as [|[a resp] tr IH]; [done|].
  cbn [delayed total foldr fst]. fold (delayed tr) (total delay_weight tr).
  unfold delay_of. cbn [fst]. destruct a; cbn [delay_weight]; lia.
Qed.

Lemma host_step_trace a h h' : host_step a h = Some h' → trace h' = trace h.
Proof.
  destruct a; unfold host_step; intros Hstep; repeat case_match; by simplify_eq.
Qed.

Section along.
Context `{Transport}.
Implicit Types (s : system _).

Lemma only_run {A} ok (p : prog A) s r s' :
  only ok p → run p s = Some (r, s') →
  Forall (λ e, ok e.1 = true) (since (host s) (host s')).
Proof.
  intros Hp Hrun.
  enough (∃ new, trace (host s') = new ++ trace (host s) ∧
            Forall (λ e, ok e.1 = true) new) as (new & Hnew & Hall).
  { rewrite (since_app _ _ _ Hnew). by apply Forall_rev. }
  revert s Hp Hrun. induction p as [a|a k IH]; simpl; intros s Hp Hrun.
  - injection Hrun as <- <-. by exists [].
  - destruct Hp as [Ha Hk].
    destruct (do_action a s) as [[resp s1]|] eqn:Hact; [|done].
    destruct (do_action_host _ _ _ _ Hact) as (h1 & Hstep & Hs1).
    destruct (IH _ _ (Hk resp) Hrun) as (new & Hnew & Hall).
    exists (new ++ [(a, resp)]). split.
    + rewrite Hnew, Hs1. cbn [log trace]. rewrite (host_step_trace _ _ _ Hstep).
      by rewrite <-app_assoc.
    + apply Forall_app. split; [done|]. by constructor.
Qed.

Lemma within_run {A} w (p : prog A) n s r s' :
  within w p n → run p s = Some (r, s') →
  (total w (since (host s) (host s')) ≤ n)%nat.
Proof.
  intros Hp Hrun.
  enough (∃ new, trace (host s') = new ++ trace (host s) ∧
            (total w new ≤ n)%nat) as (new & Hnew & Hle).
  { by rewrite (since_app _ _ _ Hnew), total_rev. }
  revert s n Hp Hrun. induction p as [a|a k IH]; simpl; intros s n Hp Hrun.
  - injection Hrun as <- <-. exists []. split; [done|]. simpl. lia.
  - destruct Hp as [Ha Hk].
    destruct (do_action a s) as [[resp s1]|] eqn:Hact; [|done].
    destruct (do_action_host _ _ _ _ Hact) as (h1 & Hstep & Hs1).
    destruct (IH _ _ _ (Hk resp) Hrun) as (new & Hnew & Hle).
    exists (new ++ [(a, resp)]). split.
    + rewrite Hnew, Hs1. cbn [log trace]. rewrite (host_step_trace _ _ _ Hstep).
      by rewrite <-app_assoc.
    + rewrite total_app. simpl. lia.
Qed.
End along.

(** ** Every action of every operation *)

Lemma only_inb port :
  port = EC_COMMAND_PORT ∨ port = EC_STATUS_PORT → only tame (inb port).
Proof. intros Hport. split; [by apply bool_decide_eq_true_2|done]. Qed.

Lemma only_outb v port :
  port = EC_COMMAND_PORT ∨ port = EC_STATUS_PORT → only tame (outb v port).
Proof.
  intros Hport. split; [|done]. apply bool_decide_eq_true_2. split; [done|].
  apply Z.mod_pos_bound. lia.
Qed.

Lemma only_poll_from ready n : only tame (poll_from ready n).
Proof.
  induction n as [|n IH]; [done|]. cbn [poll_from].
  apply only_bind; [apply only_inb; by left|]. intros st.
  destruct (ready st); [done|]. by apply only_bind.
Qed.

Lemma only_ec_wait_write : only tame ec_wait_write.
Proof. unfold ec_wait_write. rewrite ec_wait_write_poll. apply only_poll_from. Qed.

Lemma only_ec_wait_read : only tame ec_wait_read.
Proof. unfold ec_wait_read. rewrite ec_wait_read_poll. apply only_poll_from. Qed.

Lemma only_tab_clear n i : only tame (tab_clear n i).
Proof. revert i. induction n as [|n IH]; intros i; simpl; [done|]. auto. Qed.

Ltac tamed :=
  repeat first
    [ apply only_bind;
        [ lazymatch goal with
          | |- only _ ec_wait_write => apply only_ec_wait_write
          | |- only _ ec_wait_read => apply only_ec_wait_read
          | |- only _ (tab_clear _ _) => apply only_tab_clear
          | |- only _ (outb _ _) => apply only_outb; auto
          | |- only _ (inb _) => apply only_inb; auto
          | |- _ => by simpl
          end
        | intros ? ]
    | case_bool_decide
    | progress unfold error, pass, invalid_pin
    | lazymatch goal with |- only _ (mret _) => exact I end ].

Lemma only_tab_scan n i : only tame (tab_scan n i).
Proof.
  revert i. induction n as [|n IH]; intros i; cbn [tab_scan]; [by tamed|].
  unfold tab_item. tamed. apply IH.
Qed.

Lemma only_call o : only tame (call o).
Proof.
  destruct o; cbn [call];
    [ unfold read_hw_ram, write_hw_ram, read_acpi_value, write_acpi_value,
        read_gpio_status, write_gpio_status, read_gpio_dir, write_gpio_dir,
        read_ad_value, write_hwram_command; by tamed .. | ].
  unfold adv_get_dynamic_tab. apply only_bind; [done|]. intros _.
  apply only_bind; [apply only_tab_clear|]. intros _. apply only_tab_scan.
Qed.

(** ** How long an operation can wait *)

Lemma within_free {A B} w (m : prog A) (f : A → prog B) n :
  within w m 0 → (∀ a, within w (f a) n) → within w (m ≫= f) n.
Proof. intros Hm Hf. by apply (within_bind w m f 0 n). Qed.

Lemma within_polls ready n : within poll_weight (poll_from ready n) n.
Proof.
  induction n as [|n IH]; [done|]. cbn [poll_from].
  apply (within_bind _ _ _ 1 n); [by split|]. intros st.
  destruct (ready st); [done|]. apply within_free; [by split|]. intros _. apply IH.
Qed.

Lemma within_delays ready n :
  within delay_weight (poll_from ready n) (n * Z.to_nat EC_RETRY_UDELAY).
Proof.
  induction n as [|n IH]; [done|]. cbn [poll_from].
  apply within_free; [by split|]. intros st.
  destruct (ready st); [done|].
  change (S n * Z.to_nat EC_RETRY_UDELAY)%nat
    with (Z.to_nat EC_RETRY_UDELAY + n * Z.to_nat EC_RETRY_UDELAY)%nat.
  apply within_bind; [by split|]. intros _. apply IH.
Qed.

Section bounds.
Variables (w : action → nat) (b : nat).
Hypothesis wait_weighs : ∀ ready, within w (poll_from ready budget) b.
Hypothesis rest_is_free :
  ∀ a, match a with
       | Inb port => port ≠ EC_COMMAND_PORT
       | Udelay _ => False
       | _ => True
       end → w a = 0%nat.

Lemma within_ec_wait_write : within w ec_wait_write b.
Proof. unfold ec_wait_write. rewrite ec_wait_write_poll. apply wait_weighs. Qed.

Lemma within_ec_wait_read : within w ec_wait_read b.
Proof. unfold ec_wait_read. rewrite ec_wait_read_poll. apply wait_weighs. Qed.

Lemma within_act {A} a (k : Z → prog A) n :
  match a with
  | Inb port => port ≠ EC_COMMAND_PORT
  | Udelay _ => False
  | _ => True
  end →
  (∀ resp, within w (k resp) n) → within w (Act a k) n.
Proof.
  intros Ha Hk. cbn [within]. rewrite (rest_is_free a Ha).
  split; [lia|]. intros resp. rewrite Nat.sub_0_r. apply Hk.
Qed.

Lemma within_tab_clear {A} n i (f : unit → prog A) m :
  within w (f tt) m → within w (tab_clear n i ≫= f) m.
Proof.
  revert i. induction n as [|n IH]; intros i Hf; [done|].
  cbn [tab_clear]. apply within_act; [done|]. intros _.
  apply within_act; [done|]. intros _. by apply IH.
Qed.

Ltac bounded :=
  repeat first
    [ lazymatch goal with
      | |- within _ (ec_wait_write ≫= _) _ =>
          apply within_bind; [apply within_ec_wait_write|intros ?]
      | |- within _ (ec_wait_read ≫= _) _ =>
          apply within_bind; [apply within_ec_wait_read|intros ?]
      | |- within _ (mret _) _ => exact I
      | |- within _ (_ ≫= _) _ => apply within_act; [done|intros ?]
      end
    | case_bool_decide
    | progress unfold error, pass, invalid_pin ].

Lemma within_tab_scan n i : within w (tab_scan n i) (n * (7 * b)).
Proof.
  revert i. induction n as [|n IH]; intros i; cbn [tab_scan]; [by bounded|].
  eapply within_mono with (b + (b + (b + (b + (b + (b + (b + n * (7 * b))))))))%nat; [|lia].
  unfold tab_item. bounded. apply IH.
Qed.

Lemma within_call o : within w (call o) (waits o * b).
Proof.
  destruct o; cbn [call waits Nat.mul];
    [ unfold read_hw_ram, write_hw_ram, read_acpi_value, write_acpi_value,
        read_gpio_status, write_gpio_status, read_gpio_dir, write_gpio_dir,
        read_ad_value, write_hwram_command; by bounded .. | ].
  unfold adv_get_dynamic_tab. apply within_act; [done|]. intros _.
  apply within_tab_clear.
  eapply within_mono; [apply within_tab_scan|]. lia.
Qed.
End bounds.

Section everywhere.
Context `{Transport}.
Implicit Types (s : system _) (o : op).

Lemma run_call o s :
  lock (host s) = false → table_allocated (host s) →
  ∃ r s', run (call o) s = Some (r, s').
Proof.
  intros Hlock Htb.
  destruct (run_of_wp (call o) s _ Hlock
              (λ hp tb Hlen, wp_discipline o hp tb (eq_trans Hlen Htb)))
    as (r & s' & h' & Hrun & _).
  by exists r, s'.
Qed.

(** Whatever the controller answers, an operation touches no port but the
    command port [0x29A] and the data port [0x299], writes only bytes, and
    delays only by [EC_RETRY_UDELAY]. *)
Theorem operations_use_only_the_two_ports o s :
  lock (host s) = false → table_allocated (host s) →
  ∃ r s', run (call o) s = Some (r, s') ∧
    Forall (λ e, tame e.1 = true) (since (host s) (host s')).
Proof.
  intros Hlock Htb. destruct (run_call o s Hlock Htb) as (r & s' & Hrun).
  exists r, s'. split; [done|]. eapply only_run; [apply only_call|done].
Qed.

(** Every operation returns after at most [EC_MAX_TIMEOUT_COUNT] reads of
    the status bits per busy-wait on its longest path, and so after at most
    that many delays of [EC_RETRY_UDELAY] microseconds. *)
Theorem operations_wait_within_bounds o s :
  lock (host s) = false → table_allocated (host s) →
  ∃ r s', run (call o) s = Some (r, s') ∧
    (status_polls (since (host s) (host s')) ≤
       waits o * Z.to_nat EC_MAX_TIMEOUT_COUNT)%nat ∧
    delayed (since (host s) (host s')) ≤
      Z.of_nat (waits o) * (EC_MAX_TIMEOUT_COUNT * EC_RETRY_UDELAY).
Proof.
  intros Hlock Htb. destruct (run_call o s Hlock Htb) as (r & s' & Hrun).
  exists r, s'. split; [done|]. split.
  - rewrite status_polls_total.
    apply (within_run poll_weight (call o) _ s r s'); [|done].
    apply within_call; [intros ready; apply within_polls|].
    intros [port| | | | | | |] Ha; try done. cbn [poll_weight].
    by apply Z.eqb_neq in Ha as ->.
  - etrans; [apply delayed_total|].
    pose proof (within_run delay_weight (call o)
                  (waits o * (budget * Z.to_nat EC_RETRY_UDELAY)) s r s') as Hle.
    unfold budget, EC_MAX_TIMEOUT_COUNT, EC_RETRY_UDELAY in *.
    enough (total delay_weight (since (host s) (host s')) ≤
              waits o * (Z.to_nat 5000 * Z.to_nat 200))%nat by lia.
    apply Hle; [|done].
    apply within_call; [intros ready; apply within_delays|].
    by intros [] Ha.
Qed.
End everywhere.

(** ** What an operation writes, and how it ends *)

Lemma after_delay_busy sts l :
  length sts = budget → after_delay ((MutexUnlock, 0) :: busy sts ++ l) = true.
Proof.
  destruct sts as [|st sts]; [|done]. intros Hlen. pose proof budget_pos. simpl in Hlen. lia.
Qed.

Ltac timeouts :=
  unfold timed_out; rewrite ?rev_involutive;
  repeat match goal with
  | Hlen : length ?sts = budget |- context [after_delay ((MutexUnlock, 0) :: busy ?sts ++ _)] =>
      rewrite (after_delay_busy sts _ Hlen)
  end.

Lemma wp_simple_request o hp tb :
  simple o →
  wp (call o) {| lock := false; heap := hp; dym_tbl := tb; trace := [] |} (λ r h',
    port_writes (rev (trace h')) `prefix_of` request o ∧
    (succeeded o r → port_writes (rev (trace h')) = request o)).
Proof.
  destruct o; intros []; cbn [call];
    unfold read_hw_ram, write_hw_ram, read_acpi_value, write_acpi_value,
      read_gpio_status, write_gpio_status, read_gpio_dir, write_gpio_dir,
      read_ad_value, write_hwram_command;
    repeat wp_step; obs; cbn [request succeeded];
    (split; [by eexists|]); try done; unfold ETIMEDOUT; try lia.
Qed.

Lemma ad_value_nonneg low high multi :
  0 ≤ low < 256 → 0 ≤ high < 256 → 0 ≤ ad_value low high (u8 multi).
Proof.
  intros Hlow Hhigh. apply ad_value_spec; [done|done|].
  apply Z.mod_pos_bound. lia.
Qed.

Lemma wp_simple_outcome o hp tb :
  simple o →
  wp (call o) {| lock := false; heap := hp; dym_tbl := tb; trace := [] |} (λ r h',
    (r = - ETIMEDOUT ↔ timed_out (rev (trace h')) = true) ∧
    (r = -1 ↔ is_Some (pin_indexed o) ∧ head (data_reads (rev (trace h'))) = Some 0xff) ∧
    (r ≠ - ETIMEDOUT → r ≠ -1 → succeeded o r)).
Proof.
  destruct o; intros []; cbn [call];
    unfold read_hw_ram, write_hw_ram, read_acpi_value, write_acpi_value,
      read_gpio_status, write_gpio_status, read_gpio_dir, write_gpio_dir,
      read_ad_value, write_hwram_command;
    repeat wp_step; timeouts; obs; cbn [pin_indexed after_delay succeeded].
  all: try (pose proof (ad_value_nonneg v0 v1 multi Hv0 Hv1)).
  all: unfold ETIMEDOUT in *; split_and!; try (intros; lia).
  all: split; intros; destruct_and?; simplify_eq; try done; try lia.
  all: try (split; [by eexists|congruence]).
Qed.

Lemma wp_simple_frame o hp tb :
  simple o →
  wp (call o) {| lock := false; heap := hp; dym_tbl := tb; trace := [] |} (λ r h',
    dym_tbl h' = tb ∧ (byte_pointer o = None → heap h' = hp)).
Proof.
  destruct o; intros []; cbn [call];
    unfold read_hw_ram, write_hw_ram, read_acpi_value, write_acpi_value,
      read_gpio_status, write_gpio_status, read_gpio_dir, write_gpio_dir,
      read_ad_value, write_hwram_command;
    repeat wp_step; done.
Qed.

Section outcomes.
Context `{Transport}.
Implicit Types (s : system _) (o : op).

(** The bytes an operation writes to the ports are, in order, a prefix of
    its request (opcode, then address or pin, then opcode or data), and the
    whole request when it succeeds. *)
Theorem operations_write_their_request o s :
  simple o → lock (host s) = false →
  ∃ r s', run (call o) s = Some (r, s') ∧
    port_writes (since (host s) (host s')) `prefix_of` request o ∧
    (succeeded o r → port_writes (since (host s) (host s')) = request o).
Proof.
  intros Ho Hlock.
  destruct (run_of_wp (call o) s _ Hlock (λ hp tb _, wp_simple_request o hp tb Ho))
    as (r & s' & h' & Hrun & Hpost & _ & _ & _ & Hsince).
  exists r, s'. by rewrite Hsince.
Qed.

(** An operation fails in exactly two ways: with [-ETIMEDOUT], exactly when
    a busy-wait ran out of retries, and with [-1], exactly when it selects a
    pin and the controller answered the sentinel [0xff]; otherwise it
    succeeds. *)
Theorem operations_end_in_one_of_three_ways o s :
  simple o → lock (host s) = false →
  ∃ r s', run (call o) s = Some (r, s') ∧
    (r = - ETIMEDOUT ↔ timed_out (since (host s) (host s')) = true) ∧
    (r = -1 ↔ is_Some (pin_indexed o) ∧
              head (data_reads (since (host s) (host s'))) = Some 0xff) ∧
    (r ≠ - ETIMEDOUT → r ≠ -1 → succeeded o r).
Proof.
  intros Ho Hlock.
  destruct (run_of_wp (call o) s _ Hlock (λ hp tb _, wp_simple_outcome o hp tb Ho))
    as (r & s' & h' & Hrun & Hpost & _ & _ & _ & Hsince).
  exists r, s'. by rewrite Hsince.
Qed.

(** An operation changes nothing on the host but what it is for: only the
    discovery writes the table, and only the reads that return a byte
    through a pointer write memory. *)
Theorem operations_keep_to_their_outputs o s :
  lock (host s) = false → table_allocated (host s) →
  ∃ r s', run (call o) s = Some (r, s') ∧
    (simple o → dym_tbl (host s') = dym_tbl (host s)) ∧
    (byte_pointer o = None → heap (host s') = heap (host s)).
Proof.
  intros Hlock Htb.
  assert (o = AdvGetDynamicTab ∨ simple o) as [->|Hsimple] by (destruct o; auto; by right).
  - destruct (run_adv_get_dynamic_tab s Hlock Htb)
      as (r & s' & h' & Hrun & Hpost & _ & Hheap & _ & _).
    destruct Hpost as (_ & Hhp & _).
    exists r, s'. split; [done|]. split; [done|]. intros _. by rewrite Hheap.
  - pose proof (wp_simple_frame o (heap (host s)) (dym_tbl (host s)) Hsimple) as Hwp.
    rewrite <-Hlock in Hwp.
    destruct (wp_run (call o) s _ Hwp)
      as (r & s' & h' & Hrun & [Htbl Hhp] & _ & Hheap & Htbl' & _).
    exists r, s'. split; [done|]. split; [intros _; by rewrite Htbl'|].
    intros Hptr. rewrite Hheap. by apply Hhp.
Qed.
End outcomes.

(** * The watchdog driver *)

(** Symbolic execution through calls of the operations. *)
Ltac wp_call :=
  lazymatch goal with
  | |- wp (write_hw_ram _ _ ≫= _) _ _ => apply wp_bind; unfold write_hw_ram
  | |- wp (write_hwram_command _ ≫= _) _ _ => apply wp_bind; unfold write_hwram_command
  | |- wp (read_ad_value _ _ ≫= _) _ _ => apply wp_bind; unfold read_ad_value
  | |- wp (read_acpi_value _ _ ≫= _) _ _ => apply wp_bind; unfold read_acpi_value
  | |- wp (set_delay _ ≫= _) _ _ => apply wp_bind; unfold set_delay
  | |- wp ((_ ≫= _) ≫= _) _ _ => apply wp_bind
  end.

Ltac wp_auto :=
  repeat (first [wp_step | wp_call];
          try (exfalso; unfold ETIMEDOUT, EINVAL in *; lia)).

Lemma low_byte v : 0 ≤ v < 65536 → u8 (Z.land v 0x00FF) = v mod 256.
Proof.
  intros Hv. change 255 with (Z.ones 8). rewrite Z.land_ones by lia.
  apply Z.mod_small. apply Z.mod_pos_bound. lia.
Qed.

Lemma high_byte v : 0 ≤ v < 65536 → u8 (Z.shiftr (Z.land v 0xFF00) 8) = v / 256.
Proof.
  intros Hv.
  assert (Z.shiftr (Z.land v 0xFF00) 8 = v / 256) as ->.
  { rewrite Z.shiftr_land. change (Z.shiftr 65280 8) with (Z.ones 8).
    rewrite Z.land_ones, Z.shiftr_div_pow2 by lia.
    apply Z.mod_small. change (2 ^ 8) with 256. split.
    - apply Z.div_pos; lia.
    - apply Z.div_lt_upper_bound; lia. }
  apply Z.mod_small. split; [apply Z.div_pos; lia|apply Z.div_lt_upper_bound; lia].
Qed.

Lemma wp_set_delay delay hp tb :
  0 ≤ delay < 65536 →
  wp (set_delay delay) {| lock := false; heap := hp; dym_tbl := tb; trace := [] |}
    (λ r h',
      lock h' = false ∧ (r = 0 ∨ r = - EINVAL) ∧
      port_writes (rev (trace h')) `prefix_of`
        [ (EC_COMMAND_PORT, EC_HW_RAM_WRITE); (EC_STATUS_PORT, EC_RESET_DELAY_TIME_L);
          (EC_STATUS_PORT, delay mod 256);
          (EC_COMMAND_PORT, EC_HW_RAM_WRITE); (EC_STATUS_PORT, EC_RESET_DELAY_TIME_H);
          (EC_STATUS_PORT, delay / 256) ] ∧
      (r = 0 ↔ port_writes (rev (trace h')) =
        [ (EC_COMMAND_PORT, EC_HW_RAM_WRITE); (EC_STATUS_PORT, EC_RESET_DELAY_TIME_L);
          (EC_STATUS_PORT, delay mod 256);
          (EC_COMMAND_PORT, EC_HW_RAM_WRITE); (EC_STATUS_PORT, EC_RESET_DELAY_TIME_H);
          (EC_STATUS_PORT, delay / 256) ])).
Proof.
  intros Hdelay. unfold set_delay. wp_auto; obs;
    rewrite ?(low_byte delay Hdelay), ?(high_byte delay Hdelay).
  all: split_and!; [done|auto|by eexists|split; [by intros [=]|by intros [=]]].
Qed.

Lemma heartbeat_in_range `{Arch} t :
  BITS_PER_LONG = 32 ∨ BITS_PER_LONG = 64 → 1 ≤ t ≤ 6553 →
  advwdt_set_heartbeat (ulong (s32 t)) = t * 10.
Proof.
  intros Hbits Ht. unfold s32. rewrite bool_decide_true by lia.
  unfold ulong. rewrite Z.mod_small by (destruct Hbits as [-> | ->]; lia).
  unfold advwdt_set_heartbeat. rewrite bool_decide_false by lia.
  unfold u32, s32. rewrite Z.mod_small by lia. by rewrite bool_decide_true by lia.
Qed.

Lemma heartbeat_out_of_range `{Arch} t :
  BITS_PER_LONG = 32 ∨ BITS_PER_LONG = 64 → 0 ≤ t < 2 ^ 32 → t < 1 ∨ 6553 < t →
  advwdt_set_heartbeat (ulong (s32 t)) = - EINVAL.
Proof.
  intros Hbits Ht Hout. unfold advwdt_set_heartbeat. rewrite bool_decide_true; [done|].
  unfold s32, ulong. case_bool_decide.
  - rewrite Z.mod_small by (destruct Hbits as [-> | ->]; lia). lia.
  - right. destruct Hbits as [-> | ->].
    + replace (t - 2 ^ 32) with (t + -1 * 2 ^ 32) by lia.
      rewrite Z.mod_add, Z.mod_small by lia. lia.
    + replace ((t - 2 ^ 32) mod 2 ^ 64) with (t - 2 ^ 32 + 2 ^ 64); [lia|].
      apply Z.mod_unique with (-1); lia.
Qed.

Lemma wp_ec_wdt_start `{Arch} w hp tb :
  BITS_PER_LONG = 32 ∨ BITS_PER_LONG = 64 →
  lock_ioctl w = false → 1 ≤ wdd_timeout w ≤ 6553 →
  wp (ec_wdt_start w) {| lock := false; heap := hp; dym_tbl := tb; trace := [] |}
    (λ res h', ∃ r w',
      res = Some (r, w') ∧ lock h' = false ∧ lock_ioctl w' = false ∧
      wdd_timeout w' = wdd_timeout w ∧ wdd_active w' = wdd_active w ∧
      (r = 0 ∨ r = - EINVAL ∨ r = - ETIMEDOUT) ∧
      (r = 0 →
       is_enable w' = 1 ∧ current_timeout w' = wdd_timeout w ∧
       ∃ stop, (stop = [] ∨ stop = [(EC_COMMAND_PORT, EC_WDT_STOP)]) ∧
         port_writes (rev (trace h')) =
           [ (EC_COMMAND_PORT, EC_HW_RAM_WRITE); (EC_STATUS_PORT, EC_RESET_DELAY_TIME_L);
             (EC_STATUS_PORT, (wdd_timeout w * 10 - 1) mod 256);
             (EC_COMMAND_PORT, EC_HW_RAM_WRITE); (EC_STATUS_PORT, EC_RESET_DELAY_TIME_H);
             (EC_STATUS_PORT, (wdd_timeout w * 10 - 1) / 256) ] ++
           stop ++ [(EC_COMMAND_PORT, EC_WDT_START)]) ∧
      (r ≠ 0 → is_enable w' = is_enable w ∧ current_timeout w' = current_timeout w)).
Proof.
  intros Hbits Hlock Ht. unfold ec_wdt_start. rewrite Hlock. cbv zeta.
  rewrite (heartbeat_in_range _ Hbits Ht).
  rewrite bool_decide_false by lia.
  assert (0 ≤ wdd_timeout w * 10 - 1 < 65536) as Hdelay by lia.
  assert (u16 (wdd_timeout w * 10 - 1) = wdd_timeout w * 10 - 1) as ->
    by (by apply Z.mod_small).
  rewrite Z.quot_mul by lia.
  wp_auto; obs; rewrite ?(low_byte _ Hdelay), ?(high_byte _ Hdelay).
  all: eexists _, _; split; [done|]; cbn.
  all: unfold ETIMEDOUT, EINVAL in *; split_and!; try done; auto; try (intros; lia).
  all: intros _; split_and!; try done.
  all: first [ exists []; split; [by left|done]
             | exists [(EC_COMMAND_PORT, EC_WDT_STOP)]; split; [by right|done] ].
Qed.

Lemma wp_ec_wdt_stop w hp tb :
  lock_ioctl w = false →
  wp (ec_wdt_stop w) {| lock := false; heap := hp; dym_tbl := tb; trace := [] |}
    (λ res h',
      lock h' = false ∧
      ((res = Some (0, with_is_enable 0 w) ∧
        port_writes (rev (trace h')) = [(EC_COMMAND_PORT, EC_WDT_STOP)]) ∨
       (res = Some (- ETIMEDOUT, w) ∧ port_writes (rev (trace h')) = []))).
Proof.
  intros Hlock. unfold ec_wdt_stop. rewrite Hlock. cbv zeta.
  wp_auto; obs; (split; [done|]); destruct w; simpl in *; subst; auto.
Qed.

Lemma wp_ec_wdt_ping w hp tb :
  lock_ioctl w = false →
  wp (ec_wdt_ping w) {| lock := false; heap := hp; dym_tbl := tb; trace := [] |}
    (λ res h',
      lock h' = false ∧
      ((res = Some (0, w) ∧
        port_writes (rev (trace h')) = [(EC_COMMAND_PORT, EC_WDT_RESET)]) ∨
       (res = Some (- EINVAL, w) ∧ port_writes (rev (trace h')) = []))).
Proof.
  intros Hlock. unfold ec_wdt_ping. rewrite Hlock. cbv zeta.
  wp_auto; obs; (split; [done|]); destruct w; simpl in *; subst; auto.
Qed.

Lemma wp_advwdt_notify_sys code w hp tb :
  code = SYS_DOWN ∨ code = SYS_HALT →
  wp (advwdt_notify_sys code w) {| lock := false; heap := hp; dym_tbl := tb; trace := [] |}
    (λ res h',
      lock h' = false ∧
      ((res = (NOTIFY_DONE, with_is_enable 0 w) ∧
        port_writes (rev (trace h')) = [(EC_COMMAND_PORT, EC_WDT_STOP)]) ∨
       (res = (- EINVAL, w) ∧ port_writes (rev (trace h')) = []))).
Proof.
  intros Hcode. unfold advwdt_notify_sys. rewrite bool_decide_true by done.
  wp_auto; obs; (split; [done|]); auto.
Qed.

Section watchdog.
Context `{Transport} `{Arch}.
Implicit Types (s : system _) (w : ec_wdt_data).

(** [set_delay] writes the low byte of the delay to hardware RAM [0x5F] and
    then its high byte to [0x5E]; it returns [0] exactly when all six bytes
    of the two writes went out, and [-EINVAL] otherwise, having stopped at
    the write that failed. *)
Theorem set_delay_writes_both_bytes delay s :
  0 ≤ delay < 65536 → lock (host s) = false →
  ∃ r s', run (set_delay delay) s = Some (r, s') ∧
    lock (host s') = false ∧ (r = 0 ∨ r = - EINVAL) ∧
    port_writes (since (host s) (host s')) `prefix_of`
      [ (EC_COMMAND_PORT, EC_HW_RAM_WRITE); (EC_STATUS_PORT, EC_RESET_DELAY_TIME_L);
        (EC_STATUS_PORT, delay mod 256);
        (EC_COMMAND_PORT, EC_HW_RAM_WRITE); (EC_STATUS_PORT, EC_RESET_DELAY_TIME_H);
        (EC_STATUS_PORT, delay / 256) ] ∧
    (r = 0 ↔ port_writes (since (host s) (host s')) =
      [ (EC_COMMAND_PORT, EC_HW_RAM_WRITE); (EC_STATUS_PORT, EC_RESET_DELAY_TIME_L);
        (EC_STATUS_PORT, delay mod 256);
        (EC_COMMAND_PORT, EC_HW_RAM_WRITE); (EC_STATUS_PORT, EC_RESET_DELAY_TIME_H);
        (EC_STATUS_PORT, delay / 256) ]).
Proof.
  intros Hdelay Hlock.
  destruct (run_of_wp (set_delay delay) s _ Hlock (λ hp tb _, wp_set_delay delay hp tb Hdelay))
    as (r & s' & h' & Hrun & Hpost & Hl & _ & _ & Hsince).
  exists r, s'. by rewrite Hsince, Hl.
Qed.

(** The range check of [ec_wdt_start], as an equation on [run]. *)
Lemma run_ec_wdt_start_out_of_range w s :
  BITS_PER_LONG = 32 ∨ BITS_PER_LONG = 64 →
  lock_ioctl w = false → 0 ≤ wdd_timeout w < 2 ^ 32 →
  wdd_timeout w < 1 ∨ 6553 < wdd_timeout w →
  run (ec_wdt_start w) s = Some (Some (- EINVAL, w), s).
Proof.
  intros Hbits Hlock Ht Hout. unfold ec_wdt_start. rewrite Hlock. cbv zeta.
  rewrite (heartbeat_out_of_range _ Hbits Ht Hout).
  rewrite bool_decide_true by (unfold EINVAL; lia).
  destruct w; simpl in *; by subst.
Qed.

(** [ec_wdt_start] refuses a timeout outside 1..6553 seconds with [-EINVAL]
    before it touches the controller: nothing is written, and the driver
    data is left as it was. *)
Theorem ec_wdt_start_refuses_timeout_out_of_range w s :
  BITS_PER_LONG = 32 ∨ BITS_PER_LONG = 64 →
  lock_ioctl w = false → 0 ≤ wdd_timeout w < 2 ^ 32 →
  wdd_timeout w < 1 ∨ 6553 < wdd_timeout w →
  run (ec_wdt_start w) s = Some (Some (- EINVAL, w), s).
Proof. exact (run_ec_wdt_start_out_of_range w s). Qed.

(** With a timeout of [t] seconds in range, [ec_wdt_start] programs the
    reset delay [10 * t - 1], sends the stop command, whose failure it
    ignores, and then the start command.  When it returns [0] the watchdog
    is marked enabled with [t] as its current timeout; when it fails the
    two fields keep their values.  [lock_ioctl] and the transaction mutex
    are free again either way. *)
Theorem ec_wdt_start_arms_the_watchdog w s :
  BITS_PER_LONG = 32 ∨ BITS_PER_LONG = 64 →
  lock_ioctl w = false → 1 ≤ wdd_timeout w ≤ 6553 → lock (host s) = false →
  ∃ r w' s', run (ec_wdt_start w) s = Some (Some (r, w'), s') ∧
    lock (host s') = false ∧ lock_ioctl w' = false ∧
    wdd_timeout w' = wdd_timeout w ∧ wdd_active w' = wdd_active w ∧
    (r = 0 ∨ r = - EINVAL ∨ r = - ETIMEDOUT) ∧
    (r = 0 →
     is_enable w' = 1 ∧ current_timeout w' = wdd_timeout w ∧
     ∃ stop, (stop = [] ∨ stop = [(EC_COMMAND_PORT, EC_WDT_STOP)]) ∧
       port_writes (since (host s) (host s')) =
         [ (EC_COMMAND_PORT, EC_HW_RAM_WRITE); (EC_STATUS_PORT, EC_RESET_DELAY_TIME_L);
           (EC_STATUS_PORT, (wdd_timeout w * 10 - 1) mod 256);
           (EC_COMMAND_PORT, EC_HW_RAM_WRITE); (EC_STATUS_PORT, EC_RESET_DELAY_TIME_H);
           (EC_STATUS_PORT, (wdd_timeout w * 10 - 1) / 256) ] ++
         stop ++ [(EC_COMMAND_PORT, EC_WDT_START)]) ∧
    (r ≠ 0 → is_enable w' = is_enable w ∧ current_timeout w' = current_timeout w).
Proof.
  intros Hbits Hlockw Ht Hlock.
  destruct (run_of_wp (ec_wdt_start w) s _ Hlock
              (λ hp tb _, wp_ec_wdt_start w hp tb Hbits Hlockw Ht))
    as (res & s' & h' & Hrun & (r & w' & -> & Hpost) & Hl & _ & _ & Hsince).
  exists r, w', s'. by rewrite Hsince, Hl.
Qed.

(** [ec_wdt_stop] sends the stop command and returns what
    [write_hwram_command] returned; it clears [is_enable] exactly when that
    is [0]. *)
Theorem ec_wdt_stop_disables_on_success w s :
  lock_ioctl w = false → lock (host s) = false →
  ∃ r w' s', run (ec_wdt_stop w) s = Some (Some (r, w'), s') ∧
    lock (host s') = false ∧
    ((r = 0 ∧ w' = with_is_enable 0 w ∧
      port_writes (since (host s) (host s')) = [(EC_COMMAND_PORT, EC_WDT_STOP)]) ∨
     (r = - ETIMEDOUT ∧ w' = w ∧ port_writes (since (host s) (host s')) = [])).
Proof.
  intros Hlockw Hlock.
  destruct (run_of_wp (ec_wdt_stop w) s _ Hlock (λ hp tb _, wp_ec_wdt_stop w hp tb Hlockw))
    as (res & s' & h' & Hrun & [Hl' Hpost] & Hl & _ & _ & Hsince).
  destruct Hpost as [[-> Hw]|[-> Hw]]; eexists _, _, s'; (split; [done|]);
    rewrite Hsince, Hl; auto.
Qed.

(** [ec_wdt_ping] sends the reset command; it reports a failure as
    [-EINVAL] whatever the cause, and never changes the driver data. *)
Theorem ec_wdt_ping_resets_the_countdown w s :
  lock_ioctl w = false → lock (host s) = false →
  ∃ r s', run (ec_wdt_ping w) s = Some (Some (r, w), s') ∧
    lock (host s') = false ∧
    ((r = 0 ∧ port_writes (since (host s) (host s')) = [(EC_COMMAND_PORT, EC_WDT_RESET)]) ∨
     (r = - EINVAL ∧ port_writes (since (host s) (host s')) = [])).
Proof.
  intros Hlockw Hlock.
  destruct (run_of_wp (ec_wdt_ping w) s _ Hlock (λ hp tb _, wp_ec_wdt_ping w hp tb Hlockw))
    as (res & s' & h' & Hrun & [Hl' Hpost] & Hl & _ & _ & Hsince).
  destruct Hpost as [[-> Hw]|[-> Hw]]; eexists _, s'; (split; [done|]);
    rewrite Hsince, Hl; auto.
Qed.

(** While the watchdog is not running, [ec_wdt_set_timeout] only records
    the timeout, whatever its value, and returns [0] without touching the
    controller; the range check of [ec_wdt_start] applies when the
    watchdog is running. *)
Theorem ec_wdt_set_timeout_defers_the_check timeout w s :
  BITS_PER_LONG = 32 ∨ BITS_PER_LONG = 64 →
  lock_ioctl w = false → 0 ≤ timeout < 2 ^ 32 →
  (wdd_active w = false →
   run (ec_wdt_set_timeout timeout w) s = Some (Some (0, with_timeout timeout w), s)) ∧
  (wdd_active w = true → timeout < 1 ∨ 6553 < timeout →
   run (ec_wdt_set_timeout timeout w) s =
     Some (Some (- EINVAL, with_timeout timeout w), s)).
Proof.
  intros Hbits Hlockw Ht. unfold ec_wdt_set_timeout.
  assert (u32 timeout = timeout) as -> by (by apply Z.mod_small).
  cbv zeta. cbn [wdd_active with_timeout]. split.
  - by intros ->.
  - intros -> Hout. by apply run_ec_wdt_start_out_of_range.
Qed.

(** The reboot notifier stops the watchdog when the system goes down or
    halts, and does nothing for any other event. *)
Theorem advwdt_notify_sys_stops_on_shutdown code w s :
  lock (host s) = false →
  ∃ r w' s', run (advwdt_notify_sys code w) s = Some ((r, w'), s') ∧
    lock (host s') = false ∧
    (code ≠ SYS_DOWN → code ≠ SYS_HALT → r = NOTIFY_DONE ∧ w' = w ∧ s' = s) ∧
    (code = SYS_DOWN ∨ code = SYS_HALT →
     (r = NOTIFY_DONE ∧ w' = with_is_enable 0 w ∧
      port_writes (since (host s) (host s')) = [(EC_COMMAND_PORT, EC_WDT_STOP)]) ∨
     (r = - EINVAL ∧ w' = w ∧ port_writes (since (host s) (host s')) = [])).
Proof.
  intros Hlock. destruct (decide (code = SYS_DOWN ∨ code = SYS_HALT)) as [Hcode|Hcode].
  - destruct (run_of_wp (advwdt_notify_sys code w) s _ Hlock
                (λ hp tb _, wp_advwdt_notify_sys code w hp tb Hcode))
      as ([r w'] & s' & h' & Hrun & [Hl' Hpost] & Hl & _ & _ & Hsince).
    exists r, w', s'. rewrite Hsince, Hl. split; [done|]. split; [done|].
    split; [intros ? ?; by destruct Hcode|]. intros _.
    destruct Hpost as [[[= -> ->] Hw]|[[= -> ->] Hw]]; auto.
  - exists NOTIFY_DONE, w, s. unfold advwdt_notify_sys.
    rewrite bool_decide_false by done. split; [done|]. split; [done|].
    split; [done|]. intros ?. by destruct Hcode.
Qed.
End watchdog.

Section mock_watchdog.
Import Mock.

Lemma split_bytes v : 0 ≤ v < 65536 → v / 256 * 256 + v mod 256 = v ∧ 0 ≤ v / 256 < 256.
Proof.
  intros Hv. split.
  - pose proof (Z.div_mod v 256). lia.
  - split; [apply Z.div_pos; lia|apply Z.div_lt_upper_bound; lia].
Qed.

(** Against the model controller, the delay that [set_delay] wrote can be
    read back: [read_hw_ram] of the two registers returns the low and the
    high byte of the delay. *)
Theorem set_delay_round_trip (m : ec_state) (h : host_state) (delay : Z) (pl ph : N) :
  m_budget m = None →
  (m_busy m < Z.to_nat EC_MAX_TIMEOUT_COUNT)%nat →
  (m_latency m < Z.to_nat EC_MAX_TIMEOUT_COUNT)%nat →
  lock h = false → 0 ≤ delay < 65536 → pl ≠ ph →
  ∃ s1 s2 s3 lo hi,
    run (set_delay delay) (sys m h) = Some (0, s1) ∧
    run (read_hw_ram EC_RESET_DELAY_TIME_L pl) s1 = Some (0, s2) ∧
    run (read_hw_ram EC_RESET_DELAY_TIME_H ph) s2 = Some (0, s3) ∧
    heap (host s3) !! pl = Some lo ∧ heap (host s3) !! ph = Some hi ∧
    hi * 256 + lo = delay.
Proof.
  intros Hbud Hbusy Hlat Hlock Hdelay Hp.
  destruct m as [ram tbl adc ph0 o b lat bud], h as [l hp tb tr].
  cbn [m_budget m_busy m_latency lock] in *. subst.
  unfold set_delay. rewrite !run_bind.
  destruct (mock_write_hw_ram ram tbl adc ph0 o b lat hp tb tr EC_RESET_DELAY_TIME_L
              (Z.land delay 0x00FF)) as [tr1 Hw1]; [done..|]. rewrite Hw1.
  rewrite bool_decide_false by lia. rewrite !run_bind.
  destruct (mock_write_hw_ram (<[u8 EC_RESET_DELAY_TIME_L := u8 (Z.land delay 0x00FF)]> ram)
              tbl adc Idle None lat lat hp tb tr1 EC_RESET_DELAY_TIME_H
              (Z.shiftr (Z.land delay 0xFF00) 8)) as [tr2 Hw2]; [done..|]. rewrite Hw2.
  rewrite bool_decide_false by lia.
  rewrite (low_byte _ Hdelay), (high_byte _ Hdelay).
  set (ram2 := <[u8 EC_RESET_DELAY_TIME_H := delay / 256]>
                 (<[u8 EC_RESET_DELAY_TIME_L := delay mod 256]> ram)).
  destruct (mock_read_hw_ram ram2 tbl adc Idle None lat lat hp tb tr2
              EC_RESET_DELAY_TIME_L pl) as [tr3 Hr1]; [done..|].
  destruct (mock_read_hw_ram ram2 tbl adc Idle None 0 lat
              (<[pl := u8 (default 0 (ram2 !! u8 EC_RESET_DELAY_TIME_L))]> hp) tb tr3
              EC_RESET_DELAY_TIME_H ph) as [tr4 Hr2]; [unfold budget; simpl; lia|done|].
  destruct (split_bytes delay Hdelay) as [Hsplit Hhi].
  eexists _, _, _, (delay mod 256), (delay / 256).
  split; [done|]. split; [exact Hr1|]. split; [exact Hr2|].
  cbn [host sys heap]. split_and!; [| |done].
  - rewrite lookup_insert_ne by done. rewrite lookup_insert_eq. f_equal.
    unfold ram2. rewrite lookup_insert_ne by done. rewrite lookup_insert_eq.
    cbn [default]. apply Z.mod_small. apply Z.mod_pos_bound. lia.
  - rewrite lookup_insert_eq. f_equal. unfold ram2. rewrite lookup_insert_eq.
    cbn [default]. by apply Z.mod_small.
Qed.
End mock_watchdog.

(** * The hardware monitor *)

Lemma wp_and {A} (p : prog A) h (P Q : A → host_state → Prop) :
  wp p h P → wp p h Q → wp p h (λ a h', P a h' ∧ Q a h').
Proof.
  revert h. induction p as [a|a k IH]; simpl; intros h HP HQ; [done|].
  intros resp Hresp.
  destruct (HP resp Hresp) as (h1 & Hstep1 & Hk1).
  destruct (HQ resp Hresp) as (h2 & Hstep2 & Hk2).
  exists h1. split; [done|]. apply IH; [done|]. congruence.
Qed.

Lemma ad_value_bounds low high multi :
  0 ≤ low < 256 → 0 ≤ high < 256 → 0 ≤ ad_value low high (u8 multi) ≤ 26086500.
Proof.
  intros Hlow Hhigh.
  assert (0 ≤ u8 multi < 256) as Hmulti by (apply Z.mod_pos_bound; lia).
  destruct (ad_value_spec low high (u8 multi) Hlow Hhigh Hmulti) as [-> _].
  assert (0 ≤ Z.land (Z.lor (Z.shiftl high 8) low) 1023 < 1024) as Hraw.
  { change 1023 with (Z.ones 10). rewrite Z.land_ones by lia. apply Z.mod_pos_bound. lia. }
  nia.
Qed.

Lemma wp_read_ad_value_range hwpin multi hp tb :
  wp (read_ad_value hwpin multi) {| lock := false; heap := hp; dym_tbl := tb; trace := [] |}
    (λ r h', r = - ETIMEDOUT ∨ r = -1 ∨ 0 ≤ r ≤ 26086500).
Proof.
  unfold read_ad_value. repeat wp_step; auto.
  right; right. by apply ad_value_bounds.
Qed.

Section getters.
Context `{Transport} `{Arch}.
Implicit Types (s : system _) (d : ec_hwmon_data) (p : adv_hwmon_profile).

Lemma run_read_ad_value hwpin multi s :
  lock (host s) = false →
  ∃ r s', run (read_ad_value hwpin multi) s = Some (r, s') ∧
    lock (host s') = false ∧ (r = - ETIMEDOUT ∨ r = -1 ∨ 0 ≤ r ≤ 26086500).
Proof.
  intros Hlock.
  destruct (run_of_wp (read_ad_value hwpin multi) s _ Hlock
              (λ hp tb _, wp_and _ _ _ _ (wp_read_ad_value_range hwpin multi hp tb)
                            (wp_simple_discipline (ReadAdValue hwpin multi) hp tb I)))
    as (r & s' & h' & Hrun & [Hr (Hl & _)] & Hl' & _).
  exists r, s'. by rewrite Hl'.
Qed.

Lemma ulong_small v : BITS_PER_LONG = 64 → 0 ≤ v < 2 ^ 64 → ulong v = v.
Proof. intros Hbits Hv. unfold ulong. rewrite Hbits. by apply Z.mod_small. Qed.

Lemma long_small v : BITS_PER_LONG = 64 → 0 ≤ v < 2 ^ 63 → long v = v.
Proof.
  intros Hbits Hv. unfold long. rewrite ulong_small by (done || lia).
  rewrite Hbits. by rewrite bool_decide_true by lia.
Qed.

Lemma shipped_profile p :
  p ∈ advec_profile → resolution p = 2929 ∧ r1 p = 1912 ∧ r2 p = 1000 ∧ offset p = 0.
Proof.
  unfold advec_profile. intros Hp.
  repeat (apply elem_of_cons in Hp as [->|Hp]; [done|]). by apply elem_of_nil in Hp.
Qed.

(** The scaling of the getters whose reading is an [unsigned int]. *)
Lemma scale_unsigned p temp :
  BITS_PER_LONG = 64 → p ∈ advec_profile → 0 ≤ temp < 2 ^ 32 →
  (let voltage := 0 in
   let voltage :=
     if bool_decide (r2 p ≠ 0) then ulong (temp * ulong (r1 p + r2 p)) / r2 p else voltage in
   let voltage :=
     if bool_decide (resolution p ≠ 0)
     then ulong (temp * resolution p) / 1000 / 1000 else voltage in
   let voltage :=
     if bool_decide (offset p ≠ 0)
     then ulong (voltage + s32 (u32 (offset p * 100))) else voltage in
   ulong (10 * voltage)) = 10 * (temp * 2929 / 1000000) ∧
  0 ≤ 10 * (temp * 2929 / 1000000) < 2 ^ 63.
Proof.
  intros Hbits (-> & -> & -> & ->)%shipped_profile Htemp. cbv zeta.
  rewrite (bool_decide_true (2929 ≠ 0)), (bool_decide_false (0 ≠ 0)) by lia.
  rewrite (ulong_small (temp * 2929)) by (done || lia).
  rewrite Z.div_div by lia. change (1000 * 1000) with 1000000.
  assert (0 ≤ temp * 2929 / 1000000 < 2 ^ 32) as Hq.
  { split; [apply Z.div_pos; lia|apply Z.div_lt_upper_bound; lia]. }
  rewrite ulong_small by (done || lia). lia.
Qed.

(** On a 64-bit kernel and with a shipped profile, [get_ec_in_vbat_input]
    and [get_ec_in_v5_input] are [read_ad_value] on the pin and multiplier
    of their rail, followed by the scaling [10 * (temp * 2929 / 1000000)] of
    what it returned, read as an [unsigned int]: the resistor divider of
    the profile does not enter the result, and a failed reading is scaled
    like a value.  They return [0] in every case. *)
Theorem unsigned_getters_scale_the_reading d p s :
  BITS_PER_LONG = 64 → p ∈ advec_profile → lock (host s) = false →
  (∃ r s', run (read_ad_value (vbat (pin_tbl d)).1 (vbat (pin_tbl d)).2) s = Some (r, s') ∧
     run (get_ec_in_vbat_input d p) s =
       Some ((0, 10 * (u32 r * 2929 / 1000000),
              with_voltage 0 (10 * (u32 r * 2929 / 1000000)) d), s')) ∧
  (∃ r s', run (read_ad_value (v5 (pin_tbl d)).1 (v5 (pin_tbl d)).2) s = Some (r, s') ∧
     run (get_ec_in_v5_input d p) s =
       Some ((0, 10 * (u32 r * 2929 / 1000000),
              with_voltage 1 (10 * (u32 r * 2929 / 1000000)) d), s')).
Proof.
  intros Hbits Hp Hlock. split.
  - destruct (run_read_ad_value (vbat (pin_tbl d)).1 (vbat (pin_tbl d)).2 s Hlock)
      as (r & s' & Hrun & _).
    exists r, s'. split; [done|]. unfold get_ec_in_vbat_input. cbv zeta.
    rewrite run_bind, Hrun.
    destruct (scale_unsigned p (u32 r) Hbits Hp) as [Heq Hrange];
      [by apply Z.mod_pos_bound|].
    cbv zeta in Heq. rewrite Heq, long_small by done. done.
  - destruct (run_read_ad_value (v5 (pin_tbl d)).1 (v5 (pin_tbl d)).2 s Hlock)
      as (r & s' & Hrun & _).
    exists r, s'. split; [done|]. unfold get_ec_in_v5_input. cbv zeta.
    rewrite run_bind, Hrun.
    destruct (scale_unsigned p (u32 r) Hbits Hp) as [Heq Hrange];
      [by apply Z.mod_pos_bound|].
    cbv zeta in Heq. rewrite Heq, long_small by done. done.
Qed.



End getters.

(** ** From the dynamic table to the pin table *)

Lemma init_slots_app pre l post d :
  init_slots (length l) (length pre) (pre ++ l ++ post) d =
    Some (foldl (λ d e, init_slot e d) d l).
Proof.
  revert pre d. induction l as [|e l IH]; intros pre d; [done|].
  cbn [length init_slots foldl].
  rewrite lookup_app_r, Nat.sub_diag by lia. cbn [app lookup list_lookup mbind option_bind].
  replace (pre ++ e :: l ++ post) with ((pre ++ [e]) ++ l ++ post)
    by (by rewrite <-app_assoc).
  replace (S (length pre)) with (length (pre ++ [e])) by (rewrite length_app; simpl; lia).
  apply IH.
Qed.

Lemma init_slot_sentinel d : init_slot sentinel d = d.
Proof. done. Qed.

Lemma init_sentinels n d : foldl (λ d e, init_slot e d) d (replicate n sentinel) = d.
Proof. induction n as [|n IH]; [done|]. simpl. by rewrite init_slot_sentinel. Qed.

(** [adv_ec_init_hwmon_profile] on the table that the discovery leaves (the
    entries it found, then sentinel pairs up to [EC_MAX_TBL_NUM] slots)
    goes through the entries in order and is not changed by the sentinel
    slots; for a profile number outside [advec_profile] it changes
    nothing. *)
Theorem init_reads_the_discovered_entries profile es d :
  0 ≤ profile → (length es ≤ Z.to_nat EC_MAX_TBL_NUM)%nat →
  adv_ec_init_hwmon_profile profile
    (es ++ replicate (Z.to_nat EC_MAX_TBL_NUM - length es) sentinel) d =
    Some (if bool_decide (profile < 4)
          then foldl (λ d e, init_slot e d)
                 (with_profile (advec_profile !! Z.to_nat profile) d) es
          else d).
Proof.
  intros Hprofile Hlen. unfold adv_ec_init_hwmon_profile.
  change (ARRAY_SIZE advec_profile) with 4.
  case_bool_decide; [by rewrite bool_decide_false by lia|].
  rewrite bool_decide_true by lia.
  set (n := (Z.to_nat EC_MAX_TBL_NUM - length es)%nat).
  pose proof (init_slots_app [] (es ++ replicate n sentinel) []
                (with_profile (advec_profile !! Z.to_nat profile) d)) as Hinit.
  rewrite app_nil_r, length_app, length_replicate in Hinit. cbn [app length] in Hinit.
  replace (length es + n)%nat with (Z.to_nat EC_MAX_TBL_NUM) in Hinit by lia.
  rewrite Hinit, foldl_app. by rewrite init_sentinels.
Qed.

Lemma rail_pin_init_slot r e d :
  rail_pin r (pin_tbl (init_slot e d)) = default (rail_pin r (pin_tbl d)) (slot_for r e).
Proof.
  unfold init_slot, slot_for.
  destruct e as [id pin]. cbn [device_id hw_pin_num].
  repeat match goal with
  | |- context [id =? ?c] => destruct (Z.eqb_spec id c) as [->|?]
  end; try (by destruct r).
  cbn [orb]. rewrite (proj2 (list_find_None _ _)); [done|].
  unfold rails. repeat (constructor; [done|]). constructor.
Qed.

(** After [adv_ec_init_hwmon_profile], each rail has the pin and the
    multiplier (1, 2 or 10, by the device id) of the last slot of the table
    that is for that rail, and is unchanged when there is none. *)
Theorem init_takes_the_last_slot_of_a_rail profile tbl d d' r :
  0 ≤ profile < 4 → length tbl = Z.to_nat EC_MAX_TBL_NUM →
  adv_ec_init_hwmon_profile profile tbl d = Some d' →
  rail_pin r (pin_tbl d') =
    default (rail_pin r (pin_tbl d)) (last (omap (slot_for r) tbl)).
Proof.
  intros Hprofile Hlen. unfold adv_ec_init_hwmon_profile.
  change (ARRAY_SIZE advec_profile) with 4. rewrite bool_decide_false by lia.
  pose proof (init_slots_app [] tbl []
                (with_profile (advec_profile !! Z.to_nat profile) d)) as Hinit.
  rewrite app_nil_r, Hlen in Hinit. cbn [app length] in Hinit.
  rewrite Hinit. intros [= <-].
  change (rail_pin r (pin_tbl d))
    with (rail_pin r (pin_tbl (with_profile (advec_profile !! Z.to_nat profile) d))).
  generalize (with_profile (advec_profile !! Z.to_nat profile) d). clear.
  induction tbl as [|e tbl IH] using rev_ind; intros d; [done|].
  rewrite foldl_app. cbn [foldl]. rewrite rail_pin_init_slot, omap_app, IH.
  cbn [omap list_omap]. destruct (slot_for r e) as [v|]; cbn [default].
  - by rewrite last_snoc.
  - by rewrite app_nil_r.
Qed.

(** ** Reading through the hwmon interface *)

Section dispatch.
Context `{Transport} `{Arch} `{Hwmon}.
Implicit Types (s : system _) (d : ec_hwmon_data) (p : adv_hwmon_profile).

Lemma in_template_readers index entry read :
  element ec_hwmon_in_attr_template index = Some entry → entry.2 = Some read →
  read = get_ec_in_vbat_input ∨ read = get_ec_in_v5_input ∨ read = get_ec_in_v12_input ∨
  read = get_ec_in_vcore_input ∨ read = get_ec_current1_input.
Proof.
  unfold element. case_bool_decide; [|done].
  destruct (Z.to_nat index) as [|[|[|[|[|[|[|[|]]]]]]]];
    cbn [ec_hwmon_in_attr_template lookup list_lookup]; intros [= <-]; cbn [snd];
    intros [= <-]; auto.
Qed.

Lemma in_reader_returns index entry read d p s :
  element ec_hwmon_in_attr_template index = Some entry → entry.2 = Some read →
  lock (host s) = false →
  ∃ val d' s', run (read d p) s = Some ((0, val, d'), s') ∧ lock (host s') = false.
Proof.
  intros Hentry Hread Hlock.
  assert (∀ pin multi (k : Z → Z * Z * ec_hwmon_data) s0,
            lock (host s0) = false →
            ∃ r s', run (read_ad_value pin multi ≫= λ r, mret (k r)) s0 = Some (k r, s') ∧
              lock (host s') = false) as Hone.
  { intros pin multi k s0 Hlock0.
    destruct (run_read_ad_value pin multi s0 Hlock0) as (r & s' & Hrun & Hl & _).
    exists r, s'. by rewrite run_bind, Hrun. }
  destruct (in_template_readers index entry read Hentry Hread) as [->|[->|[->|[->| ->]]]].
  - edestruct Hone as (r & s' & Hrun & Hl); [exact Hlock|].
    eexists _, _, s'. split; [exact Hrun|done].
  - edestruct Hone as (r & s' & Hrun & Hl); [exact Hlock|].
    eexists _, _, s'. split; [exact Hrun|done].
  - destruct (run_read_ad_value (v12 (pin_tbl d)).1 (v12 (pin_tbl d)).2 s Hlock)
      as (r & s1 & Hrun & Hl & _).
    unfold get_ec_in_v12_input. cbv zeta. rewrite run_bind, Hrun.
    destruct (decide (r = -1)) as [->|Hr].
    + rewrite (bool_decide_true (-1 = -1)) by done.
      edestruct Hone as (r' & s' & Hrun' & Hl'); [exact Hl|].
      eexists _, _, s'. split; [exact Hrun'|done].
    + rewrite (bool_decide_false (r = -1)) by done.
      eexists _, _, s1. split; [done|done].
  - edestruct Hone as (r & s' & Hrun & Hl); [exact Hlock|].
    eexists _, _, s'. split; [exact Hrun|done].
  - edestruct Hone as (r & s' & Hrun & Hl); [exact Hlock|].
    eexists _, _, s'. split; [exact Hrun|done].
Qed.
Lemma run_simple o s :
  simple o → lock (host s) = false →
  ∃ r s', run (call o) s = Some (r, s') ∧ lock (host s') = false.
Proof.
  intros Ho Hlock.
  destruct (run_of_wp (call o) s _ Hlock (λ hp tb _, wp_simple_discipline o hp tb Ho))
    as (r & s' & h' & Hrun & (Hl & _) & Hl' & _).
  exists r, s'. by rewrite Hl'.
Qed.

Lemma temp_reader_returns index entry read value s :
  element ec_temp_attrs_template index = Some entry → entry.2 = Some read →
  lock (host s) = false →
  ∃ val s', read value s = Some (0, val, s') ∧ val ≠ Untouched ∧ lock (host s') = false.
Proof.
  intros Hentry Hread Hlock. unfold element in Hentry. case_bool_decide; [|done].
  destruct (Z.to_nat index) as [|[|]]; simplify_eq/=.
  - destruct (run_simple (ReadAcpiValue EC_ACPI_THERMAL1_REMOTE_TEMP value) s I Hlock)
      as (r & s' & Hrun & Hl).
    unfold get_ec_cpu_temp. cbn [call] in Hrun. rewrite Hrun. cbn.
    eexists _, s'. split; [done|]. split; [by case_match|done].
  - destruct (run_simple (ReadAcpiValue EC_ACPI_THERMAL1_LOCAL_TEMP value) s I Hlock)
      as (r & s' & Hrun & Hl).
    unfold get_ec_sys_temp. cbn [call] in Hrun. rewrite Hrun. cbn.
    eexists _, s'. split; [done|]. split; [by case_match|done].
Qed.

Lemma shipped_in_channel p channel :
  p ∈ advec_profile → 0 ≤ channel < hwmon_in_list_cnt p →
  ∃ index entry read,
    element (hwmon_in_list p) channel = Some index ∧
    element ec_hwmon_in_attr_template index = Some entry ∧ entry.2 = Some read.
Proof.
  unfold advec_profile. intros Hp Hchannel.
  repeat (apply elem_of_cons in Hp as [->|Hp]); [..|by apply elem_of_nil in Hp];
    cbv [hwmon_in_list_cnt AHC1EC0_HWMON_PRO_TEMPLATE AHC1EC0_HWMON_PRO_TPC5XXX
         AHC1EC0_HWMON_PRO_PRVR4 AHC1EC0_HWMON_PRO_UNO2271G ARRAY_SIZE hwmon_in_list_0
         hwmon_in_list_1 length] in Hchannel;
    assert (channel = 0 ∨ channel = 1 ∨ channel = 2 ∨ channel = 3 ∨ channel = 4)
      as Hc by lia;
    destruct_or!; subst channel; try lia; by eexists _, _, _.
Qed.

Lemma shipped_temp_channel p channel :
  p ∈ advec_profile → 0 ≤ channel < temp_list_cnt p →
  ∃ index entry read,
    element (temp_list p) channel = Some index ∧
    element ec_temp_attrs_template index = Some entry ∧ entry.2 = Some read.
Proof.
  unfold advec_profile. intros Hp Hchannel.
  repeat (apply elem_of_cons in Hp as [->|Hp]); [..|by apply elem_of_nil in Hp];
    cbv [temp_list_cnt AHC1EC0_HWMON_PRO_TEMPLATE AHC1EC0_HWMON_PRO_TPC5XXX
         AHC1EC0_HWMON_PRO_PRVR4 AHC1EC0_HWMON_PRO_UNO2271G ARRAY_SIZE temp_list_0
         temp_list_1 length] in Hchannel;
    assert (channel = 0 ∨ channel = 1) as Hc by lia;
    destruct_or!; subst channel; try lia; by eexists _, _, _.
Qed.

(** The two outcomes of [ahc1ec0_read] with a shipped profile. *)
Lemma ahc1ec0_read_shipped d p type attr channel value s :
  hwmon_in ≠ hwmon_temp → hwmon_temp_input ≠ hwmon_temp_crit →
  profile d = Some p → p ∈ advec_profile → 0 ≤ channel → lock (host s) = false →
  ∃ ret val d' s',
    ahc1ec0_read (Some d) type attr channel value s = Some (ret, val, Some d', s') ∧
    lock (host s') = false ∧
    ((ret = 0 ∧ val ≠ Untouched ∧
      (type = hwmon_in ∧ attr = hwmon_in_input ∧ channel < hwmon_in_list_cnt p ∨
       type = hwmon_temp ∧ attr = hwmon_temp_input ∧ channel < temp_list_cnt p ∨
       type = hwmon_temp ∧ attr = hwmon_temp_crit)) ∨
     (ret = - EOPNOTSUPP ∧ val = Untouched ∧ d' = d ∧ s' = s ∧
      ¬ (type = hwmon_in ∧ attr = hwmon_in_input ∧ channel < hwmon_in_list_cnt p ∨
         type = hwmon_temp ∧ attr = hwmon_temp_input ∧ channel < temp_list_cnt p ∨
         type = hwmon_temp ∧ attr = hwmon_temp_crit))).
Proof.
  intros Htype Hattr Hprofile Hp Hchannel Hlock. unfold ahc1ec0_read.
  case_bool_decide as Hin; [|case_bool_decide as Htemp].
  - unfold ahc1ec0_read_in. cbn [mbind option_bind]. rewrite Hprofile. cbn.
    case_bool_decide as Hserved.
    + destruct Hserved as [-> Hcnt].
      destruct (shipped_in_channel p channel Hp) as (index & entry & read & -> & He & Hr);
        [lia|].
      cbn. rewrite He. cbn. rewrite Hr. cbn.
      destruct (in_reader_returns index entry read d p s He Hr Hlock)
        as (val & d' & s' & -> & Hl).
      cbn. eexists _, _, _, _. split; [done|]. split; [done|]. left.
      split_and!; [done|done|]. left. split_and!; [done..|lia].
    + eexists _, _, _, _. split; [done|]. split; [done|]. right.
      split_and!; [done..|]. intros [(_ & -> & ?)|[(? & _)|(? & _)]]; [|congruence..].
      apply Hserved. split; [done|lia].
  - unfold ahc1ec0_read_temp. cbn [mbind option_bind]. rewrite Hprofile. cbn.
    case_bool_decide as Hinput; [case_bool_decide as Hcnt|case_bool_decide as Hcrit].
    + destruct (shipped_temp_channel p channel Hp) as (index & entry & read & -> & He & Hr);
        [lia|].
      cbn. rewrite He. cbn. rewrite Hr. cbn.
      destruct (temp_reader_returns index entry read value s He Hr Hlock)
        as (val & s' & -> & Hval & Hl).
      cbn. eexists _, _, _, _. split; [done|]. split; [done|]. left.
      split_and!; [done|done|]. right; left. split_and!; [done..|lia].
    + eexists _, _, _, _. split; [done|]. split; [done|]. right.
      split_and!; [done..|]. intros [(? & _)|[(_ & _ & ?)|(_ & ?)]]; [congruence|lia|congruence].
    + eexists _, _, _, _. split; [done|]. split; [done|]. left.
      split_and!; [done|done|]. right; right. done.
    + eexists _, _, _, _. split; [done|]. split; [done|]. right.
      split_and!; [done..|]. intros [(? & _)|[(_ & ? & _)|(_ & ?)]]; congruence.
  - eexists _, _, _, _. split; [done|]. split; [done|]. right.
    split_and!; [done..|]. intros [(? & _)|[(? & _)|(? & _)]]; congruence.
Qed.

(** With a shipped profile, [ahc1ec0_read] never calls a null [read]
    pointer and never indexes outside a list or a template.  It serves the
    input of every voltage channel and temperature channel of the profile
    and the critical temperature, with [0] even when the controller did not
    answer, and answers [-EOPNOTSUPP] to everything else without touching
    the controller or [*val]. *)
Theorem ahc1ec0_read_serves_the_profile d p type attr channel value s :
  hwmon_in ≠ hwmon_temp → hwmon_temp_input ≠ hwmon_temp_crit →
  profile d = Some p → p ∈ advec_profile → 0 ≤ channel → lock (host s) = false →
  ∃ ret val d' s',
    ahc1ec0_read (Some d) type attr channel value s = Some (ret, val, Some d', s') ∧
    lock (host s') = false ∧
    ((ret = 0 ∧ val ≠ Untouched ∧
      (type = hwmon_in ∧ attr = hwmon_in_input ∧ channel < hwmon_in_list_cnt p ∨
       type = hwmon_temp ∧ attr = hwmon_temp_input ∧ channel < temp_list_cnt p ∨
       type = hwmon_temp ∧ attr = hwmon_temp_crit)) ∨
     (ret = - EOPNOTSUPP ∧ val = Untouched ∧ d' = d ∧ s' = s ∧
      ¬ (type = hwmon_in ∧ attr = hwmon_in_input ∧ channel < hwmon_in_list_cnt p ∨
         type = hwmon_temp ∧ attr = hwmon_temp_input ∧ channel < temp_list_cnt p ∨
         type = hwmon_temp ∧ attr = hwmon_temp_crit))).
Proof. exact (ahc1ec0_read_shipped d p type attr channel value s). Qed.
End dispatch.

Lemma wp_read_acpi_value addr pvalue hp tb :
  wp (read_acpi_value addr pvalue)
    {| lock := false; heap := hp; dym_tbl := tb; trace := [] |} (λ r h',
    (r = 0 ∧ ∃ v, 0 ≤ v < 256 ∧ last (data_reads (rev (trace h'))) = Some v ∧
       heap h' = <[pvalue := v]> hp) ∨
    (r = - ETIMEDOUT ∧ heap h' = hp)).
Proof.
  unfold read_acpi_value. repeat wp_step; obs; auto.
  left. split; [done|]. exists v. by rewrite (u8_byte _ Hv).
Qed.

Section served.
Context `{Transport} `{Arch} `{Hwmon}.
Implicit Types (s : system _) (d : ec_hwmon_data) (p : adv_hwmon_profile).

(** A temperature getter stores [1000] times the byte that
    [read_acpi_value] read, and returns [0]; when [read_acpi_value] fails it
    still returns [0], and what it stores comes from its local variable
    [value], which nothing has written. *)
Theorem temperature_is_the_acpi_byte value s :
  lock (host s) = false →
  ∃ r val s',
    run (read_acpi_value EC_ACPI_THERMAL1_REMOTE_TEMP value) s = Some (r, s') ∧
    get_ec_cpu_temp value s = Some (0, val, s') ∧
    (r = 0 →
     ∃ v, last (data_reads (since (host s) (host s'))) = Some v ∧ 0 ≤ v < 256 ∧
       val = Written (1000 * v)) ∧
    (r ≠ 0 →
     val = match heap (host s) !! value with
           | Some v => Written (1000 * v)
           | None => Indeterminate
           end).
Proof.
  intros Hlock.
  destruct (run_of_wp (read_acpi_value EC_ACPI_THERMAL1_REMOTE_TEMP value) s _ Hlock
              (λ hp tb _, wp_read_acpi_value EC_ACPI_THERMAL1_REMOTE_TEMP value hp tb))
    as (r & s' & h' & Hrun & Hpost & _ & Hheap & _ & Hsince).
  exists r. unfold get_ec_cpu_temp. rewrite Hrun. cbn.
  eexists _, s'. split; [done|]. split; [done|]. rewrite Hsince, Hheap.
  destruct Hpost as [(-> & v & Hv & Hlast & ->)|(-> & ->)].
  - split; [|done]. intros _. exists v. by rewrite lookup_insert_eq.
  - split; [intros Hr; unfold ETIMEDOUT in Hr; lia|done].
Qed.

(** What [ahc1ec0_is_visible] announces is what the driver serves: for a
    visible attribute, [ahc1ec0_read] or [ahc1ec0_read_string] succeeds on
    channel 0 of every shipped profile, and for any other attribute both
    answer [-EOPNOTSUPP]. *)
Theorem visible_attributes_are_served d p type attr value s :
  hwmon_in ≠ hwmon_temp → hwmon_temp_input ≠ hwmon_temp_crit →
  profile d = Some p → p ∈ advec_profile → lock (host s) = false →
  (ahc1ec0_is_visible type attr 0 = mode_0444 ∨ ahc1ec0_is_visible type attr 0 = 0) ∧
  (ahc1ec0_is_visible type attr 0 = mode_0444 →
   (∃ val d' s', ahc1ec0_read (Some d) type attr 0 value s = Some (0, val, Some d', s')) ∨
   (∃ name, ahc1ec0_read_string (Some d) type attr 0 = Some (0, Written name))) ∧
  (ahc1ec0_is_visible type attr 0 = 0 →
   ahc1ec0_read (Some d) type attr 0 value s = Some (- EOPNOTSUPP, Untouched, Some d, s) ∧
   ahc1ec0_read_string (Some d) type attr 0 = Some (- EOPNOTSUPP, Untouched)).
Proof.
  intros Htype Hattr Hprofile Hp Hlock.
  destruct (ahc1ec0_read_shipped d p type attr 0 value s
              Htype Hattr Hprofile Hp ltac:(lia) Hlock)
    as (ret & val & d' & s' & Hread & _ & Hserved).
  assert (0 < hwmon_in_list_cnt p ∧ 0 < temp_list_cnt p) as [Hin Htemp].
  { unfold advec_profile in Hp.
    repeat (apply elem_of_cons in Hp as [->|Hp]); [..|by apply elem_of_nil in Hp]; done. }
  assert (∀ c, 0 < hwmon_in_list_cnt p → c = 0 →
            ∃ name, (element (hwmon_in_list p) c ≫= λ index,
                       element ec_hwmon_in_attr_template index ≫= λ a,
                         Some (0, Written a.1.1)) = Some (0, Written name)) as Hinl.
  { intros c _ ->. unfold advec_profile in Hp.
    repeat (apply elem_of_cons in Hp as [->|Hp]); [..|by apply elem_of_nil in Hp];
      by eexists. }
  assert (∀ c, 0 < temp_list_cnt p → c = 0 →
            ∃ name, (element (temp_list p) c ≫= λ index,
                       element ec_temp_attrs_template index ≫= λ a,
                         Some (0, Written a.1.1)) = Some (0, Written name)) as Htl.
  { intros c _ ->. unfold advec_profile in Hp.
    repeat (apply elem_of_cons in Hp as [->|Hp]); [..|by apply elem_of_nil in Hp];
      by eexists. }
  unfold ahc1ec0_is_visible, ec_hwmon_in_visible, ec_temp_in_visible, ahc1ec0_read_string.
  cbn [mbind option_bind]. rewrite Hprofile. cbn [fmap option_map option_fmap].
  rewrite Hread. unfold mode_0444.
  repeat case_bool_decide; destruct_and?; destruct_or?; simplify_eq;
    (split; [auto|]); (split; [intros ?|intros ?]); try done.
  all: destruct_and?; subst.
  all: try (left; by eexists _, _, _).
  all: try (right; by apply Hinl).
  all: try (right; by apply Htl).
  all: try lia.
  all: try congruence.
  all: done.
Qed.
End served.

(** * Initialisation *)

Lemma memcmp_cstring a s :
  0 ∈ a → Forall (λ c, c ≠ 0) s →
  memcmp a (s ++ [0]) (length (s ++ [0])) = Some (bool_decide (cstring a = s)).
Proof.
  intros Ha Hs. revert a Ha. induction Hs as [|c s Hc Hs IH]; intros a Ha.
  - destruct a as [|x a]; [by apply elem_of_nil in Ha|]. cbn [app length memcmp cstring].
    destruct (decide (x = 0)) as [->|Hx].
    + rewrite !(bool_decide_true (0 = 0)) by done. by rewrite bool_decide_true.
    + rewrite !(bool_decide_false (x = 0)) by done. by rewrite bool_decide_false.
  - destruct a as [|x a]; [by apply elem_of_nil in Ha|]. cbn [app length memcmp cstring].
    destruct (decide (x = c)) as [->|Hx].
    + rewrite (bool_decide_true (c = c)) by done.
      apply elem_of_cons in Ha as [?|Ha]; [done|].
      rewrite IH by done. rewrite (bool_decide_false (c = 0)) by done.
      apply f_equal, bool_decide_ext. split; [by intros ->|by intros [= ->]].
    + rewrite (bool_decide_false (x = c)) by done.
      f_equal. symmetry. apply bool_decide_false. case_bool_decide; [done|].
      by intros [= ? _].
Qed.

Lemma product_length_space left name rest (length : nat) pre :
  length = List.length pre → Forall (λ c, c ≠ space) name →
  (List.length pre + List.length name ≤ 32)%nat → (List.length name ≤ left)%nat →
  product_length left (pre ++ name ++ space :: rest) length =
    Some (List.length pre + List.length name)%nat.
Proof.
  intros -> Hname. revert left pre. induction Hname as [|c name Hc Hname IH];
    intros left pre Hlen Hleft.
  - destruct left; cbn [product_length app];
      rewrite lookup_app_r, Nat.sub_diag by lia; cbn;
      rewrite bool_decide_false by (intros Hne; by apply Hne); cbn;
      by rewrite Nat.add_0_r.
  - destruct left as [|left]; [simpl in Hleft; lia|]. cbn [product_length app].
    rewrite lookup_app_r, Nat.sub_diag by lia. cbn [lookup list_lookup mbind option_bind].
    rewrite bool_decide_true by done.
    rewrite bool_decide_true by (unfold AMI_ADVANTECH_BOARD_ID_LENGTH; simpl in Hlen; lia).
    cbn [andb].
    replace (pre ++ c :: name ++ space :: rest) with ((pre ++ [c]) ++ name ++ space :: rest)
      by (by rewrite <-app_assoc).
    replace (S (List.length pre)) with (List.length (pre ++ [c]))
      by (rewrite length_app; simpl; lia).
    rewrite IH; [|rewrite length_app; simpl in *; lia|simpl in *; lia].
    rewrite length_app. simpl. f_equal. lia.
Qed.

(** On a board whose DMI vendor string is "Advantech",
    [adv_ec_get_productname] returns [0] and fills [product] with the bytes
    of the product name before its first space, padded with zeros to
    [AMI_ADVANTECH_BOARD_ID_LENGTH] bytes; for any other vendor it returns
    [-ENODEV] and leaves [product] alone. *)
Theorem product_name_is_the_first_word vendor name rest product :
  0 ∈ vendor → Forall (λ c, c ≠ space) name →
  (length name < Z.to_nat AMI_ADVANTECH_BOARD_ID_LENGTH)%nat →
  adv_ec_get_productname (Some vendor) (Some (name ++ space :: rest)) product =
    Some (if bool_decide (cstring vendor = cstring (literal "Advantech"))
          then (0, name ++ replicate (Z.to_nat AMI_ADVANTECH_BOARD_ID_LENGTH - length name) 0)
          else (- ENODEV, product)).
Proof.
  intros Hvendor Hname Hlen. unfold adv_ec_get_productname. cbn [mbind option_bind].
  change (literal "Advantech") with ([65; 100; 118; 97; 110; 116; 101; 99; 104] ++ [0]).
  rewrite memcmp_cstring; [|done|by repeat constructor]. cbn [mbind option_bind].
  change (cstring ([65; 100; 118; 97; 110; 116; 101; 99; 104] ++ [0]))
    with [65; 100; 118; 97; 110; 116; 101; 99; 104].
  case_bool_decide; cbn [negb]; [|done].
  unfold AMI_ADVANTECH_BOARD_ID_LENGTH in *.
  rewrite (product_length_space _ name rest 0 []); [|done|done|simpl; lia..].
  cbn [mbind option_bind length Nat.add]. f_equal. f_equal.
  rewrite take_app_length. f_equal.
  rewrite drop_replicate. done.
Qed.

Lemma product_length_no_space left device (len : nat) :
  (len + left = 32)%nat → Forall (λ c, c ≠ space) (take 32 device) →
  product_length left device len = if bool_decide (33 ≤ length device)%nat then Some 32%nat else None.
Proof.
  intros Hsum Hall. revert len Hsum. induction left as [|left IH]; intros len Hsum.
  - assert (len = 32%nat) as -> by lia. cbn [product_length].
    destruct (device !! 32%nat) as [c|] eqn:Hc; cbn [mbind option_bind].
    + rewrite (bool_decide_false (_ < _)) by (unfold AMI_ADVANTECH_BOARD_ID_LENGTH; lia).
      rewrite andb_false_r. apply lookup_lt_Some in Hc.
      by rewrite bool_decide_true by lia.
    + apply lookup_ge_None in Hc. by rewrite bool_decide_false by lia.
  - cbn [product_length]. destruct (device !! len) as [c|] eqn:Hc; cbn [mbind option_bind].
    + assert (c ≠ space) as Hne.
      { eapply (Forall_lookup_1 _ _ len c Hall). rewrite lookup_take_lt by lia. done. }
      rewrite bool_decide_true by done.
      rewrite bool_decide_true by (unfold AMI_ADVANTECH_BOARD_ID_LENGTH; lia).
      cbn [andb]. apply IH. lia.
    + apply lookup_ge_None in Hc. by rewrite bool_decide_false by lia.
Qed.

(** A product name without a space among its first
    [AMI_ADVANTECH_BOARD_ID_LENGTH] bytes does not stop the loop at its
    terminator: the loop reads one byte more than
    [AMI_ADVANTECH_BOARD_ID_LENGTH] from the pointer, whatever the length
    of the name, and [product] gets the first
    [AMI_ADVANTECH_BOARD_ID_LENGTH] of them. *)
Theorem product_name_without_space_is_not_cut_at_its_end vendor device product :
  0 ∈ vendor → cstring vendor = cstring (literal "Advantech") →
  Forall (λ c, c ≠ space) (take (Z.to_nat AMI_ADVANTECH_BOARD_ID_LENGTH) device) →
  adv_ec_get_productname (Some vendor) (Some device) product =
    if bool_decide (AMI_ADVANTECH_BOARD_ID_LENGTH < Z.of_nat (length device))
    then Some (0, take (Z.to_nat AMI_ADVANTECH_BOARD_ID_LENGTH) device)
    else None.
Proof.
  intros Hvendor Hadv Hall. unfold adv_ec_get_productname. cbn [mbind option_bind].
  change (literal "Advantech") with ([65; 100; 118; 97; 110; 116; 101; 99; 104] ++ [0]) in *.
  rewrite memcmp_cstring; [|done|by repeat constructor]. cbn [mbind option_bind].
  rewrite bool_decide_true by done. cbn [negb].
  unfold AMI_ADVANTECH_BOARD_ID_LENGTH in *. change (Z.to_nat 32) with 32%nat in *.
  rewrite (product_length_no_space 32 device 0) by done.
  case_bool_decide as Hlen.
  - rewrite bool_decide_true by lia. cbn [mbind option_bind]. f_equal. f_equal.
    rewrite drop_replicate. change (replicate (32 - 32) 0) with (@nil Z).
    by rewrite app_nil_r.
  - by rewrite bool_decide_false by lia.
Qed.

Lemma testbit_BIT v i : 0 ≤ v → 0 ≤ i → Z.testbit (BIT v) i = bool_decide (i = v).
Proof.
  intros Hv Hi. unfold BIT. rewrite Z.shiftl_spec by done.
  destruct (decide (i = v)) as [->|Hne].
  - rewrite Z.sub_diag. by rewrite bool_decide_true.
  - rewrite bool_decide_false by done.
    destruct (decide (i < v)); [by rewrite Z.testbit_neg_r by lia|].
    replace (i - v) with (Z.succ (i - v - 1)) by lia.
    rewrite Z.bits_above_log2; [done|lia|simpl; lia].
Qed.

Lemma sub_dev_mask_from_bits seen rest mask :
  (∀ i, 0 ≤ i → Z.testbit mask i = bool_decide (i < ADVEC_SUBDEV_MAX ∧ i ∈ seen)) →
  ∃ mask',
    sub_dev_mask_from (length rest) (length seen) (seen ++ rest) mask = Some mask' ∧
    ∀ i, 0 ≤ i →
      Z.testbit mask' i = bool_decide (i < ADVEC_SUBDEV_MAX ∧ i ∈ seen ++ rest).
Proof.
  revert seen mask. induction rest as [|v rest IH]; intros seen mask Hmask.
  - exists mask. split; [done|]. by rewrite app_nil_r.
  - cbn [length sub_dev_mask_from].
    rewrite lookup_app_r, Nat.sub_diag by lia. cbn [lookup list_lookup mbind option_bind].
    replace (seen ++ v :: rest) with ((seen ++ [v]) ++ rest) by (by rewrite <-app_assoc).
    replace (S (length seen)) with (length (seen ++ [v])) by (rewrite length_app; simpl; lia).
    apply IH. intros i Hi. unfold ADVEC_SUBDEV_BRIGHTNESS, ADVEC_SUBDEV_EEPROM,
      ADVEC_SUBDEV_GPIO, ADVEC_SUBDEV_HWMON, ADVEC_SUBDEV_LED, ADVEC_SUBDEV_WDT,
      ADVEC_SUBDEV_MAX in *.
    case_bool_decide as Hv.
    + assert (0 ≤ v < 6) as Hv' by lia. unfold u32.
      destruct (decide (i < 32)) as [Hlow|Hhigh].
      * rewrite Z.mod_pow2_bits_low by lia.
        rewrite Z.lor_spec, Hmask, testbit_BIT by lia.
        rewrite <-bool_decide_or. apply bool_decide_ext.
        rewrite elem_of_app, list_elem_of_singleton. split.
        -- intros [[? ?]| ->]; (split; [lia|]); [by left|by right].
        -- intros [? [?| ->]]; [by left|by right].
      * rewrite Z.mod_pow2_bits_high by lia. symmetry. apply bool_decide_false. lia.
    + rewrite Hmask by done. apply bool_decide_ext.
      rewrite elem_of_app, list_elem_of_singleton. split.
      * intros [? ?]. split; [done|by left].
      * intros [? [?| ->]]; [done|lia].
Qed.

(** The mask [adv_ec_parse_prop] computes from the listed numbers. *)
Lemma parse_prop_mask nb_ret nb sub_ret sub_dev :
  0 ≤ nb_ret → 0 ≤ sub_ret → 0 ≤ nb ≤ ADVEC_SUBDEV_MAX → length sub_dev = Z.to_nat nb →
  ∃ mask,
    adv_ec_parse_prop nb_ret nb sub_ret sub_dev 0 0 = Some (0, nb, mask) ∧
    ∀ i, 0 ≤ i → Z.testbit mask i = bool_decide (i < ADVEC_SUBDEV_MAX ∧ i ∈ sub_dev).
Proof.
  intros Hnb_ret Hsub_ret Hnb Hlen. unfold adv_ec_parse_prop.
  rewrite !bool_decide_false by lia. cbv zeta.
  destruct (sub_dev_mask_from_bits [] sub_dev 0) as (mask & Hmask & Hbits).
  { intros i Hi. rewrite Z.bits_0. symmetry. apply bool_decide_false.
    intros [_ []%elem_of_nil]. }
  cbn [app length] in Hmask. rewrite <-Hlen, Hmask. cbn [mbind option_bind].
  exists mask. split; [|done]. do 3 f_equal.
  unfold s32, ADVEC_SUBDEV_MAX in *. by rewrite bool_decide_true by lia.
Qed.

(** With both properties read, [adv_ec_parse_prop] returns [0] and sets in
    the mask (empty before) exactly the bits of the listed sub-devices that
    are one of the six it knows; a value it does not know is skipped, and
    does not make it fail. *)
Theorem sub_dev_mask_has_the_listed_bits nb_ret nb sub_ret sub_dev :
  0 ≤ nb_ret → 0 ≤ sub_ret → 0 ≤ nb ≤ ADVEC_SUBDEV_MAX → length sub_dev = Z.to_nat nb →
  ∃ mask,
    adv_ec_parse_prop nb_ret nb sub_ret sub_dev 0 0 = Some (0, nb, mask) ∧
    ∀ i, 0 ≤ i → Z.testbit mask i = bool_decide (i < ADVEC_SUBDEV_MAX ∧ i ∈ sub_dev).
Proof. exact (parse_prop_mask nb_ret nb sub_ret sub_dev). Qed.

Section probing.
Context `{Transport}.
Implicit Types (s : system _) (pf : platform).

(** When the allocations succeed, the board is an Advantech board and the
    two properties can be read, [adv_ec_probe] runs the discovery on a
    fresh table and returns what the discovery returned.  After a
    discovery that timed out it has added no sub-device; after a
    successful one it has handed to [mfd_add_hotplug_devices] the cells of
    the sub-devices listed in the property, in the order of
    [adv_ec_sub_cells], each once. *)
Theorem probe_adds_the_listed_cells pf s product :
  alloc_data pf = true → alloc_name pf = true → alloc_tbl pf = true →
  adv_ec_get_productname (dmi_sys_vendor pf) (dmi_product_name pf)
    (replicate (Z.to_nat AMI_ADVANTECH_BOARD_ID_LENGTH) 0) = Some (0, product) →
  0 ≤ nb_ret pf → 0 ≤ sub_ret pf → 0 ≤ nb pf ≤ ADVEC_SUBDEV_MAX →
  length (sub_dev pf) = Z.to_nat (nb pf) →
  ∃ r cells data s',
    run adv_get_dynamic_tab
      (fresh (replicate (Z.to_nat EC_MAX_TBL_NUM) {| device_id := 0; hw_pin_num := 0 |})
         (fresh [] s)) = Some (r, s') ∧
    adv_ec_probe pf s = Some (r, cells, Some data, s') ∧
    (r = 0 ∨ r = - ETIMEDOUT) ∧
    bios_product_name data = Some product ∧
    cells =
      if bool_decide (r = 0)
      then omap (λ '(i, cell),
                   if bool_decide (Z.of_nat i ∈ sub_dev pf) then Some cell else None)
             (imap pair adv_ec_sub_cells)
      else [].
Proof.
  intros Hdata Hname Htbl Hproduct Hnb_ret Hsub_ret Hnb Hlen.
  set (s0 := fresh (replicate (Z.to_nat EC_MAX_TBL_NUM) {| device_id := 0; hw_pin_num := 0 |})
               (fresh [] s)).
  destruct (run_adv_get_dynamic_tab s0) as (r & s' & h' & Hrun & Hpost & _);
    [done|by unfold table_allocated; cbn; rewrite length_replicate|].
  destruct Hpost as (_ & _ & Hr & _).
  unfold adv_ec_probe, adv_ec_init_ec_data. rewrite Hdata, Hname, Htbl. cbn [negb].
  cbv zeta. rewrite Hproduct. cbn [mbind option_bind].
  rewrite (bool_decide_false (0 ≠ 0)) by lia. fold s0. rewrite Hrun. cbn [mbind option_bind].
  destruct (decide (r = 0)) as [->|Hne].
  - rewrite (bool_decide_false (0 ≠ 0)) by lia. cbn [sub_dev_nb sub_dev_mask].
    destruct (parse_prop_mask (nb_ret pf) (nb pf) (sub_ret pf) (sub_dev pf))
      as (mask & -> & Hbits); [done..|].
    cbn [mbind option_bind]. rewrite (bool_decide_false (0 ≠ 0)) by lia.
    eexists 0, _, _, s'. split; [done|]. split; [done|]. split; [by left|].
    split; [done|]. rewrite bool_decide_true by done.
    unfold added_cells, adv_ec_sub_cells. cbn [imap omap list_omap compose].
    rewrite !Hbits by lia. unfold ADVEC_SUBDEV_MAX.
    repeat match goal with
    | |- context [bool_decide (?i < 6 ∧ ?P)] =>
        rewrite (bool_decide_ext (i < 6 ∧ P) P) by (split; [by intros [_ ?]|by split])
    end.
    done.
  - rewrite (bool_decide_true (r ≠ 0)) by done.
    eexists r, _, _, s'. split; [done|]. split; [done|]. split; [done|].
    split; [done|]. by rewrite bool_decide_false.
Qed.
End probing.

(** * The theorems above, on concrete inputs *)

Lemma ec_wait_write_polls_exactly_witness :
  (forallb (λ st, negb (ibf_clear st))
     (statuses (H := Mock.transport) (Z.to_nat EC_MAX_TIMEOUT_COUNT)
        (ec (Mock.start (Mock.boot ∅ [] ∅ 0 (Some 0%nat))))) = true ∧
   ∃ s', run ec_wait_write (Mock.start (Mock.boot ∅ [] ∅ 0 (Some 0%nat))) =
           Some (- ETIMEDOUT, s') ∧
     status_polls (since (host (Mock.start (Mock.boot ∅ [] ∅ 0 (Some 0%nat)))) (host s')) =
       Z.to_nat EC_MAX_TIMEOUT_COUNT ∧
     delayed (since (host (Mock.start (Mock.boot ∅ [] ∅ 0 (Some 0%nat)))) (host s')) =
       1000000) ∧
  (((0 < 4 ≤ Z.to_nat EC_MAX_TIMEOUT_COUNT)%nat ∧
    forallb (λ st, negb (ibf_clear st))
      (take (4 - 1) (statuses (H := Mock.transport) 4
                       (ec (Mock.start (Mock.answering 3))))) = true ∧
    ibf_clear <$> last (statuses (H := Mock.transport) 4
                          (ec (Mock.start (Mock.answering 3)))) = Some true) ∧
   ∃ s' st, run ec_wait_write (Mock.start (Mock.answering 3)) = Some (0, s') ∧
     status_polls (since (host (Mock.start (Mock.answering 3))) (host s')) = 4%nat ∧
     delayed (since (host (Mock.start (Mock.answering 3))) (host s')) =
       EC_RETRY_UDELAY * (Z.of_nat 4 - 1) ∧
     last (since (host (Mock.start (Mock.answering 3))) (host s')) =
       Some (Inb EC_COMMAND_PORT, st) ∧
     ibf_clear st = true).
Proof.
  assert (forallb (λ st, negb (ibf_clear st))
            (statuses (H := Mock.transport) (Z.to_nat EC_MAX_TIMEOUT_COUNT)
               (ec (Mock.start (Mock.boot ∅ [] ∅ 0 (Some 0%nat))))) = true) as Hnever.
  { vm_compute. reflexivity. }
  assert ((0 < 4 ≤ Z.to_nat EC_MAX_TIMEOUT_COUNT)%nat) as Hk.
  { unfold EC_MAX_TIMEOUT_COUNT. lia. }
  split.
  - split; [exact Hnever|].
    exact (proj1 (ec_wait_write_polls_exactly (H := Mock.transport)
                    (Mock.start (Mock.boot ∅ [] ∅ 0 (Some 0%nat)))) Hnever).
  - split; [split; [exact Hk|split; reflexivity]|].
    exact (proj2 (ec_wait_write_polls_exactly (H := Mock.transport)
                    (Mock.start (Mock.answering 3))) 4%nat Hk eq_refl eq_refl).
Defined.

Lemma operations_use_only_the_two_ports_witness :
  (lock (host (Mock.start Mock.demo)) = false ∧
   table_allocated (host (Mock.start Mock.demo))) ∧
  ∃ r s', run (call AdvGetDynamicTab) (Mock.start Mock.demo) = Some (r, s') ∧
    Forall (λ e, tame e.1 = true) (since (host (Mock.start Mock.demo)) (host s')).
Proof.
  split; [split; reflexivity|].
  apply (operations_use_only_the_two_ports (H := Mock.transport)); reflexivity.
Defined.

Lemma operations_wait_within_bounds_witness :
  (lock (host (Mock.start Mock.demo)) = false ∧
   table_allocated (host (Mock.start Mock.demo))) ∧
  ∃ r s', run (call (ReadGpioStatus 3 7)) (Mock.start Mock.demo) = Some (r, s') ∧
    (status_polls (since (host (Mock.start Mock.demo)) (host s')) ≤
       waits (ReadGpioStatus 3 7) * Z.to_nat EC_MAX_TIMEOUT_COUNT)%nat ∧
    delayed (since (host (Mock.start Mock.demo)) (host s')) ≤
      Z.of_nat (waits (ReadGpioStatus 3 7)) * (EC_MAX_TIMEOUT_COUNT * EC_RETRY_UDELAY).
Proof.
  split; [split; reflexivity|].
  apply (operations_wait_within_bounds (H := Mock.transport)); reflexivity.
Defined.

Lemma operations_write_their_request_witness :
  (simple (WriteHwRam 0x5E 0x2C) ∧ lock (host (Mock.start Mock.demo)) = false) ∧
  ∃ r s', run (call (WriteHwRam 0x5E 0x2C)) (Mock.start Mock.demo) = Some (r, s') ∧
    port_writes (since (host (Mock.start Mock.demo)) (host s'))
      `prefix_of` request (WriteHwRam 0x5E 0x2C) ∧
    (succeeded (WriteHwRam 0x5E 0x2C) r →
     port_writes (since (host (Mock.start Mock.demo)) (host s')) =
       request (WriteHwRam 0x5E 0x2C)).
Proof.
  split; [split; [exact I|reflexivity]|].
  apply (operations_write_their_request (H := Mock.transport)); [exact I|reflexivity].
Defined.

Lemma operations_end_in_one_of_three_ways_witness :
  (simple (ReadAdValue 9 2) ∧ lock (host (Mock.start Mock.demo)) = false) ∧
  ∃ r s', run (call (ReadAdValue 9 2)) (Mock.start Mock.demo) = Some (r, s') ∧
    (r = - ETIMEDOUT ↔ timed_out (since (host (Mock.start Mock.demo)) (host s')) = true) ∧
    (r = -1 ↔ is_Some (pin_indexed (ReadAdValue 9 2)) ∧
              head (data_reads (since (host (Mock.start Mock.demo)) (host s'))) = Some 0xff) ∧
    (r ≠ - ETIMEDOUT → r ≠ -1 → succeeded (ReadAdValue 9 2) r).
Proof.
  split; [split; [exact I|reflexivity]|].
  apply (operations_end_in_one_of_three_ways (H := Mock.transport)); [exact I|reflexivity].
Defined.

Lemma operations_keep_to_their_outputs_witness :
  (lock (host (Mock.start Mock.demo)) = false ∧
   table_allocated (host (Mock.start Mock.demo))) ∧
  ∃ r s', run (call (WriteAcpiValue 0x50 9)) (Mock.start Mock.demo) = Some (r, s') ∧
    (simple (WriteAcpiValue 0x50 9) →
     dym_tbl (host s') = dym_tbl (host (Mock.start Mock.demo))) ∧
    (byte_pointer (WriteAcpiValue 0x50 9) = None →
     heap (host s') = heap (host (Mock.start Mock.demo))).
Proof.
  split; [split; reflexivity|].
  apply (operations_keep_to_their_outputs (H := Mock.transport)); reflexivity.
Defined.

Lemma set_delay_writes_both_bytes_witness :
  (0 ≤ 449 < 65536 ∧ lock (host (Mock.start Mock.demo)) = false) ∧
  ∃ r s', run (set_delay 449) (Mock.start Mock.demo) = Some (r, s') ∧
    lock (host s') = false ∧ (r = 0 ∨ r = - EINVAL) ∧
    port_writes (since (host (Mock.start Mock.demo)) (host s')) `prefix_of`
      [ (EC_COMMAND_PORT, EC_HW_RAM_WRITE); (EC_STATUS_PORT, EC_RESET_DELAY_TIME_L);
        (EC_STATUS_PORT, 449 mod 256);
        (EC_COMMAND_PORT, EC_HW_RAM_WRITE); (EC_STATUS_PORT, EC_RESET_DELAY_TIME_H);
        (EC_STATUS_PORT, 449 / 256) ] ∧
    (r = 0 ↔ port_writes (since (host (Mock.start Mock.demo)) (host s')) =
      [ (EC_COMMAND_PORT, EC_HW_RAM_WRITE); (EC_STATUS_PORT, EC_RESET_DELAY_TIME_L);
        (EC_STATUS_PORT, 449 mod 256);
        (EC_COMMAND_PORT, EC_HW_RAM_WRITE); (EC_STATUS_PORT, EC_RESET_DELAY_TIME_H);
        (EC_STATUS_PORT, 449 / 256) ]).
Proof.
  split; [split; [lia|reflexivity]|].
  apply (set_delay_writes_both_bytes (H := Mock.transport)); [lia|reflexivity].
Defined.

Lemma ec_wdt_start_refuses_timeout_out_of_range_witness :
  ((@BITS_PER_LONG lp64 = 32 ∨ @BITS_PER_LONG lp64 = 64) ∧
   lock_ioctl (with_timeout 7000 (default_wdt)) = false ∧
   0 ≤ wdd_timeout (with_timeout 7000 default_wdt) < 2 ^ 32 ∧
   (wdd_timeout (with_timeout 7000 default_wdt) < 1 ∨
    6553 < wdd_timeout (with_timeout 7000 default_wdt))) ∧
  run (ec_wdt_start (H := lp64) (with_timeout 7000 default_wdt)) (Mock.start Mock.demo) =
    Some (Some (- EINVAL, with_timeout 7000 default_wdt), Mock.start Mock.demo).
Proof.
  assert (0 ≤ wdd_timeout (with_timeout 7000 default_wdt) < 2 ^ 32) as Ht
    by (cbn; lia).
  assert (wdd_timeout (with_timeout 7000 default_wdt) < 1 ∨
          6553 < wdd_timeout (with_timeout 7000 default_wdt)) as Hout
    by (right; cbn; lia).
  split; [split; [by right|split; [reflexivity|split; [exact Ht|exact Hout]]]|].
  apply (ec_wdt_start_refuses_timeout_out_of_range (H := Mock.transport) (H0 := lp64));
    [by right|reflexivity|exact Ht|exact Hout].
Defined.

Lemma ec_wdt_start_arms_the_watchdog_witness :
  ((@BITS_PER_LONG lp64 = 32 ∨ @BITS_PER_LONG lp64 = 64) ∧
   lock_ioctl default_wdt = false ∧ 1 ≤ wdd_timeout default_wdt ≤ 6553 ∧
   lock (host (Mock.start Mock.demo)) = false) ∧
  ∃ r w' s',
    run (ec_wdt_start (H := lp64) default_wdt) (Mock.start Mock.demo) =
      Some (Some (r, w'), s') ∧
    lock (host s') = false ∧ lock_ioctl w' = false ∧
    wdd_timeout w' = wdd_timeout default_wdt ∧ wdd_active w' = wdd_active default_wdt ∧
    (r = 0 ∨ r = - EINVAL ∨ r = - ETIMEDOUT) ∧
    (r = 0 →
     is_enable w' = 1 ∧ current_timeout w' = wdd_timeout default_wdt ∧
     ∃ stop, (stop = [] ∨ stop = [(EC_COMMAND_PORT, EC_WDT_STOP)]) ∧
       port_writes (since (host (Mock.start Mock.demo)) (host s')) =
         [ (EC_COMMAND_PORT, EC_HW_RAM_WRITE); (EC_STATUS_PORT, EC_RESET_DELAY_TIME_L);
           (EC_STATUS_PORT, (wdd_timeout default_wdt * 10 - 1) mod 256);
           (EC_COMMAND_PORT, EC_HW_RAM_WRITE); (EC_STATUS_PORT, EC_RESET_DELAY_TIME_H);
           (EC_STATUS_PORT, (wdd_timeout default_wdt * 10 - 1) / 256) ] ++
         stop ++ [(EC_COMMAND_PORT, EC_WDT_START)]) ∧
    (r ≠ 0 → is_enable w' = is_enable default_wdt ∧
             current_timeout w' = current_timeout default_wdt).
Proof.
  assert (1 ≤ wdd_timeout default_wdt ≤ 6553) as Ht
    by (change (wdd_timeout default_wdt) with 45; lia).
  split; [split; [by right|split; [reflexivity|split; [exact Ht|reflexivity]]]|].
  apply (ec_wdt_start_arms_the_watchdog (H := Mock.transport) (H0 := lp64));
    [by right|reflexivity|exact Ht|reflexivity].
Defined.

Lemma ec_wdt_stop_disables_on_success_witness :
  (lock_ioctl default_wdt = false ∧ lock (host (Mock.start Mock.demo)) = false) ∧
  ∃ r w' s', run (ec_wdt_stop default_wdt) (Mock.start Mock.demo) = Some (Some (r, w'), s') ∧
    lock (host s') = false ∧
    ((r = 0 ∧ w' = with_is_enable 0 default_wdt ∧
      port_writes (since (host (Mock.start Mock.demo)) (host s')) =
        [(EC_COMMAND_PORT, EC_WDT_STOP)]) ∨
     (r = - ETIMEDOUT ∧ w' = default_wdt ∧
      port_writes (since (host (Mock.start Mock.demo)) (host s')) = [])).
Proof.
  split; [split; reflexivity|].
  apply (ec_wdt_stop_disables_on_success (H := Mock.transport)); reflexivity.
Defined.

Lemma ec_wdt_ping_resets_the_countdown_witness :
  (lock_ioctl default_wdt = false ∧ lock (host (Mock.start Mock.flaky)) = false) ∧
  ∃ r s', run (ec_wdt_ping default_wdt) (Mock.start Mock.flaky) =
            Some (Some (r, default_wdt), s') ∧
    lock (host s') = false ∧
    ((r = 0 ∧ port_writes (since (host (Mock.start Mock.flaky)) (host s')) =
                [(EC_COMMAND_PORT, EC_WDT_RESET)]) ∨
     (r = - EINVAL ∧ port_writes (since (host (Mock.start Mock.flaky)) (host s')) = [])).
Proof.
  split; [split; reflexivity|].
  apply (ec_wdt_ping_resets_the_countdown (H := Mock.transport)); reflexivity.
Defined.

Lemma ec_wdt_set_timeout_defers_the_check_witness :
  ((@BITS_PER_LONG lp64 = 32 ∨ @BITS_PER_LONG lp64 = 64) ∧
   lock_ioctl default_wdt = false ∧ 0 ≤ 7000 < 2 ^ 32) ∧
  (wdd_active default_wdt = false →
   run (ec_wdt_set_timeout (H := lp64) 7000 default_wdt) (Mock.start Mock.demo) =
     Some (Some (0, with_timeout 7000 default_wdt), Mock.start Mock.demo)) ∧
  (wdd_active default_wdt = true → 7000 < 1 ∨ 6553 < 7000 →
   run (ec_wdt_set_timeout (H := lp64) 7000 default_wdt) (Mock.start Mock.demo) =
     Some (Some (- EINVAL, with_timeout 7000 default_wdt), Mock.start Mock.demo)).
Proof.
  split; [split; [by right|split; [reflexivity|lia]]|].
  apply (ec_wdt_set_timeout_defers_the_check (H := Mock.transport) (H0 := lp64));
    [by right|reflexivity|lia].
Defined.

Lemma advwdt_notify_sys_stops_on_shutdown_witness :
  lock (host (Mock.start Mock.demo)) = false ∧
  ∃ r w' s', run (advwdt_notify_sys SYS_HALT default_wdt) (Mock.start Mock.demo) =
               Some ((r, w'), s') ∧
    lock (host s') = false ∧
    (SYS_HALT ≠ SYS_DOWN → SYS_HALT ≠ SYS_HALT →
     r = NOTIFY_DONE ∧ w' = default_wdt ∧ s' = Mock.start Mock.demo) ∧
    (SYS_HALT = SYS_DOWN ∨ SYS_HALT = SYS_HALT →
     (r = NOTIFY_DONE ∧ w' = with_is_enable 0 default_wdt ∧
      port_writes (since (host (Mock.start Mock.demo)) (host s')) =
        [(EC_COMMAND_PORT, EC_WDT_STOP)]) ∨
     (r = - EINVAL ∧ w' = default_wdt ∧
      port_writes (since (host (Mock.start Mock.demo)) (host s')) = [])).
Proof.
  split; [reflexivity|].
  apply (advwdt_notify_sys_stops_on_shutdown (H := Mock.transport)); reflexivity.
Defined.

Lemma set_delay_round_trip_witness :
  (Mock.m_budget Mock.demo = None ∧
   (Mock.m_busy Mock.demo < Z.to_nat EC_MAX_TIMEOUT_COUNT)%nat ∧
   (Mock.m_latency Mock.demo < Z.to_nat EC_MAX_TIMEOUT_COUNT)%nat ∧
   lock Mock.fresh_host = false ∧ 0 ≤ 449 < 65536 ∧ 1%N ≠ 2%N) ∧
  ∃ s1 s2 s3 lo hi,
    run (set_delay 449) (Mock.sys Mock.demo Mock.fresh_host) = Some (0, s1) ∧
    run (read_hw_ram EC_RESET_DELAY_TIME_L 1) s1 = Some (0, s2) ∧
    run (read_hw_ram EC_RESET_DELAY_TIME_H 2) s2 = Some (0, s3) ∧
    heap (host s3) !! 1%N = Some lo ∧ heap (host s3) !! 2%N = Some hi ∧
    hi * 256 + lo = 449.
Proof.
  assert ((Mock.m_busy Mock.demo < Z.to_nat EC_MAX_TIMEOUT_COUNT)%nat) as Hbusy.
  { unfold EC_MAX_TIMEOUT_COUNT. simpl. lia. }
  assert ((Mock.m_latency Mock.demo < Z.to_nat EC_MAX_TIMEOUT_COUNT)%nat) as Hlat.
  { unfold EC_MAX_TIMEOUT_COUNT. simpl. lia. }
  split; [split; [reflexivity|split; [exact Hbusy|split; [exact Hlat|split;
    [reflexivity|split; [lia|done]]]]]|].
  apply set_delay_round_trip; [reflexivity|exact Hbusy|exact Hlat|reflexivity|lia|done].
Defined.

Lemma unsigned_getters_scale_the_reading_witness :
  (@BITS_PER_LONG lp64 = 64 ∧ AHC1EC0_HWMON_PRO_TEMPLATE ∈ advec_profile ∧
   lock (host (Mock.start Mock.demo)) = false) ∧
  (∃ r s', run (read_ad_value (vbat (pin_tbl demo_hwmon)).1 (vbat (pin_tbl demo_hwmon)).2)
             (Mock.start Mock.demo) = Some (r, s') ∧
     run (get_ec_in_vbat_input (H := lp64) demo_hwmon AHC1EC0_HWMON_PRO_TEMPLATE)
       (Mock.start Mock.demo) =
       Some ((0, 10 * (u32 r * 2929 / 1000000),
              with_voltage 0 (10 * (u32 r * 2929 / 1000000)) demo_hwmon), s')) ∧
  (∃ r s', run (read_ad_value (v5 (pin_tbl demo_hwmon)).1 (v5 (pin_tbl demo_hwmon)).2)
             (Mock.start Mock.demo) = Some (r, s') ∧
     run (get_ec_in_v5_input (H := lp64) demo_hwmon AHC1EC0_HWMON_PRO_TEMPLATE)
       (Mock.start Mock.demo) =
       Some ((0, 10 * (u32 r * 2929 / 1000000),
              with_voltage 1 (10 * (u32 r * 2929 / 1000000)) demo_hwmon), s')).
Proof.
  assert (AHC1EC0_HWMON_PRO_TEMPLATE ∈ advec_profile) as Hp by apply list_elem_of_here.
  split; [split; [reflexivity|split; [exact Hp|reflexivity]]|].
  apply (unsigned_getters_scale_the_reading (H := Mock.transport) (H0 := lp64));
    [reflexivity|exact Hp|reflexivity].
Defined.



Lemma init_reads_the_discovered_entries_witness :
  (0 ≤ 0 ∧
   (length [ {| device_id := EC_DID_CMOSBAT_X2; hw_pin_num := 5 |};
             {| device_id := EC_DID_12VS0; hw_pin_num := 9 |} ] ≤
      Z.to_nat EC_MAX_TBL_NUM)%nat) ∧
  adv_ec_init_hwmon_profile 0
    ([ {| device_id := EC_DID_CMOSBAT_X2; hw_pin_num := 5 |};
       {| device_id := EC_DID_12VS0; hw_pin_num := 9 |} ] ++
     replicate
       (Z.to_nat EC_MAX_TBL_NUM -
          length [ {| device_id := EC_DID_CMOSBAT_X2; hw_pin_num := 5 |};
                   {| device_id := EC_DID_12VS0; hw_pin_num := 9 |} ]) sentinel) zeroed =
    Some (if bool_decide (0 < 4)
          then foldl (λ d e, init_slot e d)
                 (with_profile (advec_profile !! Z.to_nat 0) zeroed)
                 [ {| device_id := EC_DID_CMOSBAT_X2; hw_pin_num := 5 |};
                   {| device_id := EC_DID_12VS0; hw_pin_num := 9 |} ]
          else zeroed).
Proof.
  assert ((length [ {| device_id := EC_DID_CMOSBAT_X2; hw_pin_num := 5 |};
                    {| device_id := EC_DID_12VS0; hw_pin_num := 9 |} ] ≤
             Z.to_nat EC_MAX_TBL_NUM)%nat) as Hlen
    by (unfold EC_MAX_TBL_NUM; simpl; lia).
  split; [split; [lia|exact Hlen]|].
  apply init_reads_the_discovered_entries; [lia|exact Hlen].
Defined.

Lemma init_takes_the_last_slot_of_a_rail_witness :
  (0 ≤ 0 < 4 ∧
   length ([ {| device_id := EC_DID_CMOSBAT; hw_pin_num := 4 |};
             {| device_id := EC_DID_CMOSBAT_X2; hw_pin_num := 5 |} ] ++
           replicate 30 sentinel) = Z.to_nat EC_MAX_TBL_NUM ∧
   adv_ec_init_hwmon_profile 0
     ([ {| device_id := EC_DID_CMOSBAT; hw_pin_num := 4 |};
        {| device_id := EC_DID_CMOSBAT_X2; hw_pin_num := 5 |} ] ++
      replicate 30 sentinel) zeroed =
     Some (with_pin_tbl (with_vbat (5, 2)) (with_profile (advec_profile !! 0%nat) zeroed))) ∧
  rail_pin Vbat
    (pin_tbl (with_pin_tbl (with_vbat (5, 2)) (with_profile (advec_profile !! 0%nat) zeroed))) =
    default (rail_pin Vbat (pin_tbl zeroed))
      (last (omap (slot_for Vbat)
               ([ {| device_id := EC_DID_CMOSBAT; hw_pin_num := 4 |};
                  {| device_id := EC_DID_CMOSBAT_X2; hw_pin_num := 5 |} ] ++
                replicate 30 sentinel))).
Proof.
  split; [split; [lia|split; reflexivity]|].
  apply (init_takes_the_last_slot_of_a_rail 0); [lia|reflexivity|reflexivity].
Defined.

Lemma ahc1ec0_read_serves_the_profile_witness :
  (@hwmon_in sample_hwmon ≠ @hwmon_temp sample_hwmon ∧
   @hwmon_temp_input sample_hwmon ≠ @hwmon_temp_crit sample_hwmon ∧
   profile demo_hwmon = Some AHC1EC0_HWMON_PRO_TEMPLATE ∧
   AHC1EC0_HWMON_PRO_TEMPLATE ∈ advec_profile ∧ 0 ≤ 0 ∧
   lock (host (Mock.start Mock.demo)) = false) ∧
  ∃ ret val d' s',
    ahc1ec0_read (H := Mock.transport) (H0 := lp64) (H1 := sample_hwmon) (Some demo_hwmon)
      (@hwmon_in sample_hwmon) (@hwmon_in_input sample_hwmon) 0 1 (Mock.start Mock.demo) =
      Some (ret, val, Some d', s') ∧
    lock (host s') = false ∧
    ((ret = 0 ∧ val ≠ Untouched ∧
      (@hwmon_in sample_hwmon = @hwmon_in sample_hwmon ∧
       @hwmon_in_input sample_hwmon = @hwmon_in_input sample_hwmon ∧
       0 < hwmon_in_list_cnt AHC1EC0_HWMON_PRO_TEMPLATE ∨
       @hwmon_in sample_hwmon = @hwmon_temp sample_hwmon ∧
       @hwmon_in_input sample_hwmon = @hwmon_temp_input sample_hwmon ∧
       0 < temp_list_cnt AHC1EC0_HWMON_PRO_TEMPLATE ∨
       @hwmon_in sample_hwmon = @hwmon_temp sample_hwmon ∧
       @hwmon_in_input sample_hwmon = @hwmon_temp_crit sample_hwmon)) ∨
     (ret = - EOPNOTSUPP ∧ val = Untouched ∧ d' = demo_hwmon ∧ s' = Mock.start Mock.demo ∧
      ¬ (@hwmon_in sample_hwmon = @hwmon_in sample_hwmon ∧
         @hwmon_in_input sample_hwmon = @hwmon_in_input sample_hwmon ∧
         0 < hwmon_in_list_cnt AHC1EC0_HWMON_PRO_TEMPLATE ∨
         @hwmon_in sample_hwmon = @hwmon_temp sample_hwmon ∧
         @hwmon_in_input sample_hwmon = @hwmon_temp_input sample_hwmon ∧
         0 < temp_list_cnt AHC1EC0_HWMON_PRO_TEMPLATE ∨
         @hwmon_in sample_hwmon = @hwmon_temp sample_hwmon ∧
         @hwmon_in_input sample_hwmon = @hwmon_temp_crit sample_hwmon))).
Proof.
  assert (AHC1EC0_HWMON_PRO_TEMPLATE ∈ advec_profile) as Hp by apply list_elem_of_here.
  split; [split; [done|split; [done|split; [reflexivity|split; [exact Hp|split;
    [lia|reflexivity]]]]]|].
  apply (ahc1ec0_read_serves_the_profile (H := Mock.transport) (H0 := lp64)
           (H1 := sample_hwmon)); [done|done|reflexivity|exact Hp|lia|reflexivity].
Defined.

Lemma temperature_is_the_acpi_byte_witness :
  lock (host (Mock.start Mock.demo)) = false ∧
  ∃ r val s',
    run (read_acpi_value EC_ACPI_THERMAL1_REMOTE_TEMP 1) (Mock.start Mock.demo) =
      Some (r, s') ∧
    get_ec_cpu_temp 1 (Mock.start Mock.demo) = Some (0, val, s') ∧
    (r = 0 →
     ∃ v, last (data_reads (since (host (Mock.start Mock.demo)) (host s'))) = Some v ∧
       0 ≤ v < 256 ∧ val = Written (1000 * v)) ∧
    (r ≠ 0 →
     val = match heap (host (Mock.start Mock.demo)) !! 1%N with
           | Some v => Written (1000 * v)
           | None => Indeterminate
           end).
Proof.
  split; [reflexivity|].
  apply (temperature_is_the_acpi_byte (H := Mock.transport)); reflexivity.
Defined.

Lemma visible_attributes_are_served_witness :
  (@hwmon_in sample_hwmon ≠ @hwmon_temp sample_hwmon ∧
   @hwmon_temp_input sample_hwmon ≠ @hwmon_temp_crit sample_hwmon ∧
   profile demo_hwmon = Some AHC1EC0_HWMON_PRO_TEMPLATE ∧
   AHC1EC0_HWMON_PRO_TEMPLATE ∈ advec_profile ∧
   lock (host (Mock.start Mock.demo)) = false) ∧
  (ahc1ec0_is_visible (H := sample_hwmon) 1 19 0 = mode_0444 ∨
   ahc1ec0_is_visible (H := sample_hwmon) 1 19 0 = 0) ∧
  (ahc1ec0_is_visible (H := sample_hwmon) 1 19 0 = mode_0444 →
   (∃ val d' s',
      ahc1ec0_read (H := Mock.transport) (H0 := lp64) (H1 := sample_hwmon) (Some demo_hwmon) 1 19 0 1
        (Mock.start Mock.demo) = Some (0, val, Some d', s')) ∨
   (∃ name, ahc1ec0_read_string (H := Mock.transport) (H0 := lp64) (H1 := sample_hwmon) (Some demo_hwmon) 1 19 0 =
              Some (0, Written name))) ∧
  (ahc1ec0_is_visible (H := sample_hwmon) 1 19 0 = 0 →
   ahc1ec0_read (H := Mock.transport) (H0 := lp64) (H1 := sample_hwmon) (Some demo_hwmon) 1 19 0 1
     (Mock.start Mock.demo) =
     Some (- EOPNOTSUPP, Untouched, Some demo_hwmon, Mock.start Mock.demo) ∧
   ahc1ec0_read_string (H := Mock.transport) (H0 := lp64) (H1 := sample_hwmon) (Some demo_hwmon) 1 19 0 =
     Some (- EOPNOTSUPP, Untouched)).
Proof.
  assert (AHC1EC0_HWMON_PRO_TEMPLATE ∈ advec_profile) as Hp by apply list_elem_of_here.
  split; [split; [done|split; [done|split; [reflexivity|split; [exact Hp|reflexivity]]]]|].
  apply (visible_attributes_are_served (H := Mock.transport) (H0 := lp64)
           (H1 := sample_hwmon) demo_hwmon AHC1EC0_HWMON_PRO_TEMPLATE);
    [done|done|reflexivity|exact Hp|reflexivity].
Defined.

Lemma product_name_is_the_first_word_witness :
  (0 ∈ literal "Advantech" ∧
   Forall (λ c, c ≠ space) (cstring (literal "UNO-2271G")) ∧
   (length (cstring (literal "UNO-2271G")) < Z.to_nat AMI_ADVANTECH_BOARD_ID_LENGTH)%nat) ∧
  adv_ec_get_productname (Some (literal "Advantech"))
    (Some (cstring (literal "UNO-2271G") ++ space :: literal "E22AE"))
    (replicate 32 0) =
    Some (if bool_decide (cstring (literal "Advantech") = cstring (literal "Advantech"))
          then (0, cstring (literal "UNO-2271G") ++
                   replicate (Z.to_nat AMI_ADVANTECH_BOARD_ID_LENGTH -
                                length (cstring (literal "UNO-2271G"))) 0)
          else (- ENODEV, replicate 32 0)).
Proof.
  assert (0 ∈ literal "Advantech") as Hvendor
    by (by apply (list_elem_of_lookup_2 _ 9%nat)).
  assert (Forall (λ c, c ≠ space) (cstring (literal "UNO-2271G"))) as Hname
    by (by repeat constructor).
  assert ((length (cstring (literal "UNO-2271G")) <
             Z.to_nat AMI_ADVANTECH_BOARD_ID_LENGTH)%nat) as Hlen
    by (unfold AMI_ADVANTECH_BOARD_ID_LENGTH; simpl; lia).
  split; [split; [exact Hvendor|split; [exact Hname|exact Hlen]]|].
  apply product_name_is_the_first_word; [exact Hvendor|exact Hname|exact Hlen].
Defined.

Lemma product_name_without_space_is_not_cut_at_its_end_witness :
  (0 ∈ literal "Advantech" ∧
   cstring (literal "Advantech") = cstring (literal "Advantech") ∧
   Forall (λ c, c ≠ space)
     (take (Z.to_nat AMI_ADVANTECH_BOARD_ID_LENGTH) (literal "UNO-2271G"))) ∧
  adv_ec_get_productname (Some (literal "Advantech")) (Some (literal "UNO-2271G"))
    (replicate 32 0) =
    if bool_decide (AMI_ADVANTECH_BOARD_ID_LENGTH < Z.of_nat (length (literal "UNO-2271G")))
    then Some (0, take (Z.to_nat AMI_ADVANTECH_BOARD_ID_LENGTH) (literal "UNO-2271G"))
    else None.
Proof.
  assert (0 ∈ literal "Advantech") as Hvendor
    by (by apply (list_elem_of_lookup_2 _ 9%nat)).
  assert (Forall (λ c, c ≠ space)
            (take (Z.to_nat AMI_ADVANTECH_BOARD_ID_LENGTH) (literal "UNO-2271G"))) as Hname
    by (by repeat constructor).
  split; [split; [exact Hvendor|split; [reflexivity|exact Hname]]|].
  apply product_name_without_space_is_not_cut_at_its_end;
    [exact Hvendor|reflexivity|exact Hname].
Defined.

Lemma sub_dev_mask_has_the_listed_bits_witness :
  (0 ≤ 0 ∧ 0 ≤ 0 ∧ 0 ≤ 3 ≤ ADVEC_SUBDEV_MAX ∧
   length [ADVEC_SUBDEV_WDT; 9; ADVEC_SUBDEV_HWMON] = Z.to_nat 3) ∧
  ∃ mask,
    adv_ec_parse_prop 0 3 0 [ADVEC_SUBDEV_WDT; 9; ADVEC_SUBDEV_HWMON] 0 0 =
      Some (0, 3, mask) ∧
    ∀ i, 0 ≤ i →
      Z.testbit mask i =
        bool_decide (i < ADVEC_SUBDEV_MAX ∧ i ∈ [ADVEC_SUBDEV_WDT; 9; ADVEC_SUBDEV_HWMON]).
Proof.
  assert (0 ≤ 3 ≤ ADVEC_SUBDEV_MAX) as Hnb by (unfold ADVEC_SUBDEV_MAX; lia).
  split; [split; [lia|split; [lia|split; [exact Hnb|reflexivity]]]|].
  apply sub_dev_mask_has_the_listed_bits; [lia|lia|exact Hnb|reflexivity].
Defined.

Lemma probe_adds_the_listed_cells_witness :
  (alloc_data demo_platform = true ∧ alloc_name demo_platform = true ∧
   alloc_tbl demo_platform = true ∧
   adv_ec_get_productname (dmi_sys_vendor demo_platform) (dmi_product_name demo_platform)
     (replicate (Z.to_nat AMI_ADVANTECH_BOARD_ID_LENGTH) 0) =
     Some (0, cstring (literal "UNO-2271G") ++ replicate 23 0) ∧
   0 ≤ nb_ret demo_platform ∧ 0 ≤ sub_ret demo_platform ∧
   0 ≤ nb demo_platform ≤ ADVEC_SUBDEV_MAX ∧
   length (sub_dev demo_platform) = Z.to_nat (nb demo_platform)) ∧
  ∃ r cells data s',
    run adv_get_dynamic_tab
      (fresh (replicate (Z.to_nat EC_MAX_TBL_NUM) {| device_id := 0; hw_pin_num := 0 |})
         (fresh [] (Mock.start Mock.demo))) = Some (r, s') ∧
    adv_ec_probe demo_platform (Mock.start Mock.demo) = Some (r, cells, Some data, s') ∧
    (r = 0 ∨ r = - ETIMEDOUT) ∧
    bios_product_name data = Some (cstring (literal "UNO-2271G") ++ replicate 23 0) ∧
    cells =
      if bool_decide (r = 0)
      then omap (λ '(i, cell),
                   if bool_decide (Z.of_nat i ∈ sub_dev demo_platform) then Some cell else None)
             (imap pair adv_ec_sub_cells)
      else [].
Proof.
  assert (0 ≤ nb demo_platform ≤ ADVEC_SUBDEV_MAX) as Hnb
    by (unfold ADVEC_SUBDEV_MAX; simpl; lia).
  assert (0 ≤ nb_ret demo_platform) as Hnb_ret by (simpl; lia).
  assert (0 ≤ sub_ret demo_platform) as Hsub_ret by (simpl; lia).
  split; [split; [reflexivity|split; [reflexivity|split; [reflexivity|split;
    [reflexivity|split; [exact Hnb_ret|split; [exact Hsub_ret|split;
    [exact Hnb|reflexivity]]]]]]]|].
  apply (probe_adds_the_listed_cells (H := Mock.transport));
    [reflexivity|reflexivity|reflexivity|reflexivity|exact Hnb_ret|exact Hsub_ret|exact Hnb|
     reflexivity].
Defined.
